(** * PyFHD observation builder

    A shallow embedding of [PyFHD/data_setup/obs.py]: [create_obs],
    [read_metafits] and [project_slant_orthographic].

    Python floats and NumPy float arrays are idealised as real numbers
    ([R]); Python ints and integer arrays are [Z].  A value that can be
    either at run time (the tile count, an antenna column) carries its
    tag.  Exceptions and the logger are explicit: a computation yields the
    log records it emitted together with a value or the exception raised. *)

From Stdlib Require Import Ascii String Reals Lra Lia ZArith Bool Zfloor Sorted List Permutation.
Import ListNotations.
Open Scope R_scope.

(* ================================================================== *)
(** * Run-time model: exceptions and the logger *)
(* ================================================================== *)

(** Numbers whose Python type matters later on ([np.zeros] refuses a
    float length). *)
Inductive pynum : Type :=
| PyInt (z : Z)
| PyFloat (r : R).

Definition to_R (x : pynum) : R :=
  match x with
  | PyInt z => IZR z
  | PyFloat r => r
  end.

Module Py.

(** The exceptions this module can raise.  [FloatingPointError] marks the
    places where NumPy would, by default, only warn and go on with
    [inf] or [nan] (logarithm of a non-positive number); the reals have
    no such values, so the model stops there, as NumPy itself does under
    [np.errstate(all='raise')]. *)
Inductive exn : Type :=
| TypeError
| ValueError
| ZeroDivisionError
| OverflowError
| IndexError
| SystemExit
| FloatingPointError.

Inductive level : Type := WARNING | ERROR.

(** Log messages; the one f-string of the module keeps its two numbers. *)
Inductive message : Type :=
| Text (s : string)
| MismatchedTiles (header data : pynum).

Record log_record : Type := LogRecord { lvl : level; msg : message }.

Inductive result (A : Type) : Type :=
| Ok (a : A)
| Raise (e : exn).
Arguments Ok {A} a.
Arguments Raise {A} e.

(** A run: the records logged so far and how it ended. *)
Definition M (A : Type) : Type := (list log_record * result A)%type.

Definition ret {A} (a : A) : M A := ([], Ok a).
Definition raise {A} (e : exn) : M A := ([], Raise e).

Definition bind {A B} (m : M A) (k : A -> M B) : M B :=
  match m with
  | (l, Ok a) => (l ++ fst (k a), snd (k a))
  | (l, Raise e) => (l, Raise e)
  end.

Definition warning (s : message) : M unit := ([LogRecord WARNING s], Ok tt).
Definition error (s : message) : M unit := ([LogRecord ERROR s], Ok tt).

(** Python's [exit()]. *)
Definition exit {A} : M A := raise SystemExit.

Definition logs {A} (m : M A) : list log_record := fst m.
Definition outcome {A} (m : M A) : result A := snd m.

End Py.

Import Py.

Notation "x <- m ;; k" := (bind m (fun x => k))
  (at level 61, m at next level, right associativity).
Notation "' pat <- m ;; k" := (bind m (fun x => match x with pat => k end))
  (at level 61, pat pattern, m at next level, right associativity).
Notation "m ;;; k" := (bind m (fun _ => k))
  (at level 61, right associativity).

(* ================================================================== *)
(** * Scalars *)
(* ================================================================== *)

(** Comparisons of reals as booleans. *)
Definition Rltb (a b : R) : bool := if Rlt_dec a b then true else false.
Definition Rleb (a b : R) : bool := if Rle_dec a b then true else false.
Definition Reqb (a b : R) : bool := if Req_dec_T a b then true else false.

(** Python's built-in [max(a, b)]: the first argument unless the second is
    strictly larger. *)
Definition py_max (a b : pynum) : pynum :=
  if Rltb (to_R a) (to_R b) then b else a.

Definition py_max_R (a b : R) : R := if Rltb a b then b else a.

(** [np.floor], as an integer. *)
Definition np_floor (x : R) : Z := Zfloor x.

(** [np.fix] and Python's [int()] on a float: rounding towards zero. *)
Definition trunc (x : R) : Z := if Rleb 0 x then Zfloor x else Zceil x.

(** [x % y] on floats: the remainder has the sign of the divisor. *)
Definition np_mod (x y : R) : R := x - IZR (Zfloor (x / y)) * y.

(** [np.radians]. *)
Definition radians (d : R) : R := d * PI / 180.

(** [math.log10] on its domain. *)
Definition log10 (x : R) : R := ln x / ln 10.

(** [2 ** k] for a Python int [k]: an int when [k >= 0], a float
    otherwise. *)
Definition py_pow2 (k : Z) : pynum :=
  if (0 <=? k)%Z then PyInt (2 ^ k) else PyFloat (powerRZ 2 k).

(** [int(x)]. *)
Definition py_int (x : pynum) : Z :=
  match x with
  | PyInt z => z
  | PyFloat r => trunc r
  end.

(** Python float division. *)
Definition py_div (a b : R) : M R :=
  if Reqb b 0 then raise ZeroDivisionError else ret (a / b).

(* ================================================================== *)
(** * Arrays *)
(* ================================================================== *)

(** A one-dimensional NumPy array with its dtype. *)
Inductive ndarray : Type :=
| IntArr (l : list Z)
| FloatArr (l : list R).

Definition values (a : ndarray) : list R :=
  match a with
  | IntArr l => map IZR l
  | FloatArr l => l
  end.

Definition size (a : ndarray) : nat :=
  match a with
  | IntArr l => length l
  | FloatArr l => length l
  end.

(** [np.max] and [np.min]; an empty array raises [ValueError]. *)
Definition np_max_R (l : list R) : M R :=
  match l with
  | [] => raise ValueError
  | x :: l' => ret (fold_left Rmax l' x)
  end.

Definition np_min_R (l : list R) : M R :=
  match l with
  | [] => raise ValueError
  | x :: l' => ret (fold_left Rmin l' x)
  end.

Definition np_max (a : ndarray) : M pynum :=
  match a with
  | IntArr [] => raise ValueError
  | IntArr (x :: l) => ret (PyInt (fold_left Z.max l x))
  | FloatArr l => m <- np_max_R l ;; ret (PyFloat m)
  end.

(** [a[idx]] for an index array: out of range raises [IndexError]. *)
Fixpoint np_take {A} (a : list A) (idx : list nat) : M (list A) :=
  match idx with
  | [] => ret []
  | i :: idx' =>
      match nth_error a i with
      | None => raise IndexError
      | Some x => xs <- np_take a idx' ;; ret (x :: xs)
      end
  end.

(** [a[i] = v] for one index. *)
Fixpoint set_nth {A} (a : list A) (i : nat) (v : A) : list A :=
  match a, i with
  | [], _ => []
  | _ :: a', O => v :: a'
  | x :: a', S i' => x :: set_nth a' i' v
  end.

(** [a[idx] = vals], element by element. *)
Fixpoint np_put {A} (a : list A) (idx : list nat) (vals : list A) : M (list A) :=
  match idx, vals with
  | i :: idx', v :: vals' =>
      if (i <? length a)%nat then np_put (set_nth a i v) idx' vals'
      else raise IndexError
  | _, _ => ret a
  end.

(** [a[idx] = v] with one scalar for all the places. *)
Fixpoint np_fill {A} (a : list A) (idx : list nat) (v : A) : M (list A) :=
  match idx with
  | [] => ret a
  | i :: idx' =>
      if (i <? length a)%nat then np_fill (set_nth a i v) idx' v
      else raise IndexError
  end.

(** [np.zeros(n)]: a float length raises [TypeError], a negative one
    [ValueError]. *)
Definition np_zeros {A} (zero : A) (n : pynum) : M (list A) :=
  match n with
  | PyFloat _ => raise TypeError
  | PyInt z => if (z <? 0)%Z then raise ValueError else ret (repeat zero (Z.to_nat z))
  end.

(** [np.cumsum]. *)
Fixpoint cumsum_from (acc : R) (l : list R) : list R :=
  match l with
  | [] => []
  | x :: l' => (acc + x) :: cumsum_from (acc + x) l'
  end.
Definition np_cumsum (l : list R) : list R := cumsum_from 0 l.

(** Positions at which a predicate holds ([np.where(...)[0]]). *)
Fixpoint where_from {A} (p : A -> bool) (i : nat) (l : list A) : list nat :=
  match l with
  | [] => []
  | x :: l' => if p x then i :: where_from p (S i) l' else where_from p (S i) l'
  end.
Definition np_where {A} (p : A -> bool) (l : list A) : list nat := where_from p 0 l.

(** Two-dimensional arrays are lists of rows.  [np.outer]. *)
Definition np_outer (a b : list R) : list (list R) :=
  map (fun x => map (fun y => x * y) b) a.

(** Element-wise combination of two rows under NumPy broadcasting: equal
    lengths are zipped, a row of length one is stretched. *)
Fixpoint zip_with {A B C} (f : A -> B -> C) (r1 : list A) (r2 : list B) : list C :=
  match r1, r2 with
  | a :: r1', b :: r2' => f a b :: zip_with f r1' r2'
  | _, _ => []
  end.

Definition bcast_row {A B C} (f : A -> B -> C) (r1 : list A) (r2 : list B) : list C :=
  match r1, r2 with
  | [a], _ => map (f a) r2
  | _, [b] => map (fun a => f a b) r1
  | _, _ => zip_with f r1 r2
  end.

Definition bcast_ok (n m : nat) : bool :=
  ((n =? m) || (n =? 1) || (m =? 1))%nat.

(** Element-wise combination of two arrays that have the same rows count
    and [n], [m] columns: shapes that do not broadcast raise
    [ValueError]. *)
Definition bcast2 {A B C} (f : A -> B -> C) (n m : nat)
    (x : list (list A)) (y : list (list B)) : M (list (list C)) :=
  if bcast_ok n m then ret (zip_with (bcast_row f) x y) else raise ValueError.

(** Index pairs (row, column) at which a boolean array is true, in row
    order ([np.where] and [np.nonzero] on a 2-D array). *)
Definition where_2d {A} (p : A -> bool) (x : list (list A)) : list (nat * nat) :=
  concat (map (fun ir => map (fun j => (fst ir, j)) (np_where p (snd ir)))
              (combine (seq 0 (length x)) x)).

(** [x[inds]] for such index pairs. *)
Fixpoint take_2d {A} (x : list (list A)) (inds : list (nat * nat)) : M (list A) :=
  match inds with
  | [] => ret []
  | (i, j) :: inds' =>
      match nth_error x i with
      | None => raise IndexError
      | Some row =>
          match nth_error row j with
          | None => raise IndexError
          | Some v => vs <- take_2d x inds' ;; ret (v :: vs)
          end
      end
  end.

(** [np.median] of a non-empty array: the middle of the sorted values, the
    mean of the two middle ones for an even length. *)
Fixpoint insert_sorted (x : R) (l : list R) : list R :=
  match l with
  | [] => [x]
  | y :: l' => if Rleb x y then x :: l else y :: insert_sorted x l'
  end.

Definition sort_R (l : list R) : list R := fold_right insert_sorted [] l.

Definition np_median (l : list R) : R :=
  let s := sort_R l in
  let n := length s in
  if Nat.even n
  then (nth (n / 2 - 1) s 0 + nth (n / 2) s 0) / 2
  else nth (n / 2) s 0.

(* ================================================================== *)
(** * Helpers of [PyFHD.pyfhd_tools.pyfhd_utils] *)
(* ================================================================== *)

(** Modelled from the spec: the scan behind [idl_argunique], which keeps
    the index of an element when the next one differs or there is none.
    On a column that never decreases this is the last index of every
    distinct value. *)
Fixpoint argunique_from (i : nat) (l : list R) : list Z :=
  match l with
  | [] => []
  | x :: l' =>
      match l' with
      | [] => [Z.of_nat i]
      | y :: _ =>
          if Reqb x y then argunique_from (S i) l'
          else Z.of_nat i :: argunique_from (S i) l'
      end
  end.

(** Modelled from the spec: [idl_argunique] is not part of the excerpt.
    It stands for IDL's [UNIQ]: the index of the last element of every run
    of equal neighbours, which for the sorted time column is the index of
    the last visibility of each time step.  The scan stands for the helper
    on columns in which equal time stamps are neighbours and the stamps
    never decrease ([chronological] below); on a column such as 1, 2, 1
    the helper may answer otherwise, and the properties of the time steps
    proved below assume a chronological column. *)
Definition idl_argunique (a : list R) : list Z := argunique_from 0 a.

(** Modelled from the spec: the bin of [histogram] that a value falls in,
    and whether a value is counted in bin [b]. *)
Definition bin_index (mn bs x : R) : Z := Zfloor ((x - mn) / bs).

Definition in_bin (mn mx bs : R) (b : nat) (x : R) : bool :=
  Rleb mn x && Rleb x mx && (bin_index mn bs x =? Z.of_nat b)%Z.

(** Modelled from the spec: the offsets that open IDL's reverse indices,
    one per bin and one past the last. *)
Fixpoint offsets_from (start : nat) (counts : list nat) : list nat :=
  match counts with
  | [] => [start]
  | c :: counts' => start :: offsets_from (start + c) counts'
  end.

(** Modelled from the spec: [histogram] is not part of the excerpt ("the
    omitted utility functions (histogramming, coordinate conversions)").
    It is the IDL-style histogram: bins of width [bin_size] starting at
    [min] (the data minimum when not given) and reaching [max] (the data
    maximum when not given); a value [x] with [min <= x <= max] falls in
    bin [floor ((x - min) / bin_size)].  The result is the counts, the bin
    starts and IDL's reverse indices: [nbins + 1] offsets into the vector
    itself, followed by the data indices grouped by bin.  A bin width that
    is not positive is refused. *)
Definition histogram (data : list R) (bin_size : R) (min max : option R)
  : M (list Z * list R * list nat) :=
  mn <- match min with Some m => ret m | None => np_min_R data end ;;
  mx <- match max with Some m => ret m | None => np_max_R data end ;;
  if Rleb bin_size 0 then raise ValueError
  else
    let nbins := Z.to_nat (Zfloor ((mx - mn) / bin_size) + 1) in
    let members := map (fun b => np_where (in_bin mn mx bin_size b) data) (seq 0 nbins) in
    let counts := map (@length nat) members in
    ret (map Z.of_nat counts,
         map (fun b => mn + INR b * bin_size) (seq 0 nbins),
         offsets_from (nbins + 1) counts ++ concat members).

(** Modelled from the spec: the unit vector of a sky direction, for
    [angle_difference]. *)
Definition unit_vector (ra dec : R) : R * R * R :=
  (cos dec * cos ra, cos dec * sin ra, sin dec).

(** Modelled from the spec: [angle_difference] is not part of the excerpt.
    It is the angle between two sky directions given by right ascension and
    declination ("derives zenith angle and parallactic angle between
    zenith and phase center"), computed from the chord between the two
    unit vectors, in degrees when [degree] is set. *)
Definition angle_difference (ra1 dec1 ra2 dec2 : R) (degree : bool) : R :=
  let conv := if degree then radians else (fun x => x) in
  let '(x1, y1, z1) := unit_vector (conv ra1) (conv dec1) in
  let '(x2, y2, z2) := unit_vector (conv ra2) (conv dec2) in
  let chord := sqrt ((x1 - x2) ^ 2 + (y1 - y2) ^ 2 + (z1 - z2) ^ 2) in
  let angle := 2 * asin (chord / 2) in
  if degree then angle * 180 / PI else angle.

(* ================================================================== *)
(** * Data model *)
(* ================================================================== *)

(** [pyfhd_header]: the fields of the UVFITS primary header read here. *)
Module Header.
Record t : Type := Build {
  n_pol : Z;
  n_tile : Z;
  n_freq : Z;
  freq_res : R;
  frequency_array : list R;
  obsra : R;
  obsdec : R;
  lat : R;
  lon : R;
  alt : R
}.
End Header.

(** [params]: the per-visibility columns. *)
Module Params.
Record t : Type := Build {
  time : list R;
  baseline_arr : list R;
  antenna1 : ndarray;
  antenna2 : ndarray;
  uu : list R;
  vv : list R
}.

Definition set_antennas (p : t) (a1 a2 : ndarray) : t :=
  Build (time p) (baseline_arr p) a1 a2 (uu p) (vv p).
End Params.

(** [pyfhd_config]: the options read here; [None] is Python's [None]. *)
Module Config.
Record t : Type := Build {
  instrument : string;
  beam_nfreq_avg : option Z;
  FoV : option R;
  kbinsize : option R;
  dimension : option Z;
  elements : option Z;
  min_baseline : option R;
  run_simulation : bool;
  input_path : string;
  obs_id : string
}.
End Config.

(** The [baseline_info] dictionary, local to [create_obs]. *)
Module BaselineInfo.
Record t : Type := Build {
  bin_offset : list Z;
  freq : list R;
  fbin_i : list R;
  tile_A : ndarray;
  tile_B : ndarray;
  freq_use : Z;
  tile_use : pynum
}.
End BaselineInfo.

(** The [obs] dictionary as [create_obs] returns it. *)
Module Obs.
Record t : Type := Build {
  n_pol : Z;
  n_tile : pynum;
  n_freq : Z;
  instrument : string;
  n_time : nat;
  n_baselines : R;
  n_vis : Z;
  n_vis_raw : Z;
  n_vis_in : Z;
  n_vis_arr : list Z;
  freq_res : R;
  beam_nfreq_avg : Z;
  freq_center : R;
  kbinsize : R;
  dimension : Z;
  elements : Z;
  degpix : R;
  max_baseline : R;
  min_baseline : R
}.
End Obs.

(** A METAFITS file: the header cards and the tile table read here. *)
Module Metafits.
Record row : Type := Row {
  Antenna : Z;
  pol : string;
  tile : Z;
  height : R;
  flag : Z
}.

Record file : Type := File {
  RA : R;
  DEC : R;
  RAPHASE : R;
  DECPHASE : R;
  INTTIME : R;
  DELAYS : string;
  data : list row
}.
End Metafits.

(** The file system as far as [read_metafits] looks at it: what
    [Path(directory, name)] holds, [None] when it is not a file. *)
Definition filesystem : Type := string -> string -> option Metafits.file.

(** Lines 175-177: what is at [meta_path], the file
    [obs_id + '.metafits'] of the directory [input_path]. *)
Definition metafits_of (cfg : Config.t) (fs : filesystem) : option Metafits.file :=
  fs (Config.input_path cfg) (Config.obs_id cfg ++ ".metafits")%string.

(** The astrometry dictionary. *)
Module Astr.
Record t : Type := Build {
  naxis : Z * Z;
  cd : (R * R) * (R * R);
  cdelt : R * R;
  crpix : R * R;
  crval : R * R;
  ctype : string * string;
  longpole : Z;
  latpole : Z;
  (** [xi] and [eta]; each is [None] when it is nan. *)
  pv2 : option R * option R;
  pv1 : list R;
  axes : Z * Z;
  reverse : Z;
  coord_sys : string;
  projection : string;
  known : list Z;
  radecsys : string;
  equinox : R;
  date_obs : string;
  mjd_obs : R;
  x0y0 : R * R
}.
End Astr.

(** The [meta] dictionary.  The keys written after the call of
    [project_slant_orthographic] are absent ([None]) while it runs. *)
Module Meta.
Record t : Type := Build {
  jdate : list R;
  obsx : R;
  obsy : R;
  JD0 : R;
  epoch : R;
  tile_names : list Z;
  tile_height : list R;
  tile_flag : list Z;
  obsra : R;
  obsdec : R;
  phasera : R;
  phasedec : R;
  time_res : R;
  delays : option (list string);
  zenra : R;
  zendec : R;
  astr : option Astr.t;
  zenx : option R;
  zeny : option R;
  obsalt : option R;
  obsaz : option R
}.

Definition set_projection (m : t) (a : Astr.t) (x y alt az : R) : t :=
  Build (jdate m) (obsx m) (obsy m) (JD0 m) (epoch m) (tile_names m)
        (tile_height m) (tile_flag m) (obsra m) (obsdec m) (phasera m)
        (phasedec m) (time_res m) (delays m) (zenra m) (zendec m)
        (Some a) (Some x) (Some y) (Some alt) (Some az).
End Meta.

(* ================================================================== *)
(** * [create_obs], block by block *)
(* ================================================================== *)

(** Lines 41-56: the time steps.  With at most one time step [bin_width]
    is rebound to the int [time.size], and the item assignment that
    follows raises [TypeError].  The result is [n_time], [bin_width] and
    [bin_offset]. *)
Definition time_bins (time : list R) : M (nat * list R * list Z) :=
  let b0i := idl_argunique time in
  let n_time := length b0i in
  if (1 <? n_time)%nat then
    let bin_width := map (fun i => IZR (i + 1)) b0i in
    let b0i_range := seq 1 (n_time - 1) in
    hi <- np_take b0i b0i_range ;;
    lo <- np_take b0i (map Nat.pred b0i_range) ;;
    bin_width <- np_put bin_width b0i_range (zip_with (fun a b => IZR (a - b)) hi lo) ;;
    let bin_offset := 0%Z :: map trunc (np_cumsum (firstn (n_time - 1) bin_width)) in
    ret (n_time, bin_width, bin_offset)
  else raise TypeError.

(** Lines 68-70: the loop over the frequency bins, reading the reverse
    indices. *)
Fixpoint fbin_loop (freq_ri : list nat) (bins : list nat) (freq_bin_i : list R)
  : M (list R) :=
  match bins with
  | [] => ret freq_bin_i
  | bin :: bins' =>
      match nth_error freq_ri bin, nth_error freq_ri (S bin) with
      | Some lo, Some hi =>
          if (lo <? hi)%nat then
            freq_bin_i <- np_fill freq_bin_i (firstn (hi - lo) (skipn lo freq_ri)) (INR bin) ;;
            fbin_loop freq_ri bins' freq_bin_i
          else fbin_loop freq_ri bins' freq_bin_i
      | _, _ => raise IndexError
      end
  end.

(** Lines 59-72: the frequency bins.  The result is [beam_nfreq_avg],
    [fbin_i] and [freq_center]. *)
Definition freq_bins (hdr : Header.t) (cfg : Config.t) : M (Z * list R * R) :=
  let freq := Header.frequency_array hdr in
  let beam_nfreq_avg :=
    match Config.beam_nfreq_avg cfg with
    | Some b => b
    | None => 1%Z
    end in
  let freq_bin := IZR beam_nfreq_avg * Header.freq_res hdr in
  '(freq_hist, _, freq_ri) <- histogram freq freq_bin None None ;;
  freq_bin_i <- np_zeros 0 (PyInt (Header.n_freq hdr)) ;;
  freq_bin_i <- fbin_loop freq_ri (seq 0 (length freq_hist)) freq_bin_i ;;
  ret (beam_nfreq_avg, freq_bin_i, np_median freq).

(** Lines 75-79: the explicit antenna columns, used when both have a
    positive maximum ([and] does not look at the second column when the
    first fails). *)
Definition has_antenna_columns (params : Params.t) : M bool :=
  m1 <- np_max (Params.antenna1 params) ;;
  if Rltb 0 (to_R m1) then
    m2 <- np_max (Params.antenna2 params) ;;
    ret (Rltb 0 (to_R m2))
  else ret false.

(** Lines 83-89: the modulus of the packed baseline numbers. *)
Definition antenna_mod_index (baseline_min : R) : R :=
  let exponent := ln baseline_min / ln 2 in
  let antenna_mod_index := powerRZ 2 (np_floor exponent) in
  let tile_B_test := np_mod baseline_min antenna_mod_index in
  if Rltb 1 tile_B_test && Reqb (np_mod baseline_min 2) 1
  then antenna_mod_index / powerRZ 2 (np_floor (ln tile_B_test / ln 2))
  else antenna_mod_index.

(** Lines 90-91: the two tile columns decoded from the packed numbers. *)
Definition decode_tile_A (baseline_arr : list R) (m : R) : ndarray :=
  FloatArr (map (fun b => IZR (np_floor (b / m))) baseline_arr).

Definition decode_tile_B (baseline_arr : list R) (m : R) : ndarray :=
  FloatArr (map (fun b => IZR (trunc (b / m))) baseline_arr).

(** What lines 74-96 leave behind: the two tile columns, the tile count,
    [params], whose antenna columns the packed branch overwrites, and
    [antenna_flag], true when the packed branch ran. *)
Record tiles : Type := Tiles {
  tile_A : ndarray;
  tile_B : ndarray;
  tiles_n_tile : pynum;
  tiles_params : Params.t;
  antenna_flag : bool
}.

(** Lines 80-96: the packed-baseline branch.  [np.log] of a non-positive
    minimum leaves the reals. *)
Definition decode_baselines (n_tile : pynum) (params : Params.t) : M tiles :=
  baseline_min <- np_min_R (Params.baseline_arr params) ;;
  if Rleb baseline_min 0 then raise FloatingPointError
  else
    let m := antenna_mod_index baseline_min in
    let tile_A := decode_tile_A (Params.baseline_arr params) m in
    let tile_B := decode_tile_B (Params.baseline_arr params) m in
    max_A <- np_max tile_A ;;
    max_B <- np_max tile_B ;;
    n_tile <-
      (if negb (Reqb (to_R (py_max max_A max_B)) (to_R n_tile)) then
         warning (MismatchedTiles n_tile (py_max max_A max_B)) ;;;
         ret (py_max max_A max_B)
       else ret n_tile) ;;
    ret (Tiles tile_A tile_B n_tile (Params.set_antennas params tile_A tile_B) true).

(** Lines 74-96. *)
Definition resolve_tiles (hdr : Header.t) (params : Params.t) : M tiles :=
  explicit <- has_antenna_columns params ;;
  if explicit then
    let tile_A := Params.antenna1 params in
    let tile_B := Params.antenna2 params in
    max_A <- np_max tile_A ;;
    max_B <- np_max tile_B ;;
    ret (Tiles tile_A tile_B (py_max max_A max_B) params false)
  else decode_baselines (PyInt (Header.n_tile hdr)) params.

(** Lines 102-105: [kx_arr], [ky_arr], [kr_arr] and [max_baseline]. *)
Definition baseline_extent (freq uu vv : list R)
  : M (list (list R) * list (list R) * list (list R) * R) :=
  let kx_arr := np_outer freq uu in
  let ky_arr := np_outer freq vv in
  kr_arr <- bcast2 (fun x y => sqrt (x ^ 2 + y ^ 2)) (length uu) (length vv) kx_arr ky_arr ;;
  max_kx <- np_max_R (map Rabs (concat kx_arr)) ;;
  max_ky <- np_max_R (map Rabs (concat ky_arr)) ;;
  ret (kx_arr, ky_arr, kr_arr, py_max_R max_kx max_ky).

(** Lines 108-113: [obs['kbinsize']].  The first [if] writes the value
    derived from the field of view; the [if]/[else] after it writes the
    key again on both of its branches, so that the value it leaves is the
    one returned. *)
Definition imaging_kbinsize (cfg : Config.t) : M R :=
  written_from_FoV <-
    match Config.FoV cfg with
    | Some fov => k <- py_div (180 / PI) fov ;; ret (Some k)
    | None => ret None
    end ;;
  match Config.kbinsize cfg with
  | None => ret 0.5
  | Some k => ret k
  end.

(** Line 117: the grid size derived from the longest baseline.  The
    resolution read here is the configured one, [pyfhd_config['kbinsize']].
    The quotient is a NumPy division: by zero it is [inf] or [nan], on
    which [log10] or [int] raise. *)
Definition derived_dimension (cfg : Config.t) (max_baseline : R) : M pynum :=
  match Config.kbinsize cfg with
  | None => raise TypeError
  | Some k =>
      if Reqb k 0 then
        if Rltb 0 (2 * max_baseline) then raise OverflowError else raise ValueError
      else
        let ratio := (2 * max_baseline) / k in
        if Rleb ratio 0 then raise ValueError
        else ret (py_pow2 (py_int (PyFloat (log10 ratio / log10 2))))
  end.

Definition is_None {A} (v : option A) : bool :=
  match v with
  | None => true
  | Some _ => false
  end.

(** [int(v)] for a value that may be [None]. *)
Definition py_int_value (v : option pynum) : M Z :=
  match v with
  | None => raise TypeError
  | Some x => ret (py_int x)
  end.

Definition config_int (v : option Z) : option pynum := option_map PyInt v.

(** Lines 116-130: [obs['dimension']] and [obs['elements']]. *)
Definition imaging_dimension (cfg : Config.t) (max_baseline : R) : M (Z * Z) :=
  let dimension := config_int (Config.dimension cfg) in
  let elements := config_int (Config.elements cfg) in
  '(obs_dimension, obs_elements) <-
    (if is_None dimension && is_None elements then
       d <- derived_dimension cfg max_baseline ;;
       ret (Some d, Some d)
     else if negb (is_None dimension) && is_None elements then
       ret (dimension, dimension)
     else if is_None dimension && negb (is_None elements) then
       ret (elements, elements)
     else
       ret (dimension, elements)) ;;
  obs_dimension <- py_int_value obs_dimension ;;
  obs_elements <- py_int_value obs_elements ;;
  ret (obs_dimension, obs_elements).

(** Line 131: [obs['degpix']], from the configured values. *)
Definition imaging_degpix (cfg : Config.t) : M R :=
  match Config.kbinsize cfg, Config.dimension cfg with
  | Some k, Some d => py_div (180 / PI) (k * IZR d)
  | _, _ => raise TypeError
  end.

(** Lines 133-138: the longest baseline inside the image's Fourier
    support and the shortest non-zero one.  A zero [kbinsize] makes every
    NumPy quotient [inf] or [nan], and every comparison false. *)
Definition in_support (kbinsize : R) (dimension elements : Z) (kx ky : R) : bool :=
  negb (Reqb kbinsize 0)
  && Rltb (Rabs kx / kbinsize) (IZR dimension / 2)
  && Rltb (Rabs ky / kbinsize) (IZR elements / 2).

Definition baseline_limits (cfg : Config.t) (uu vv : list R)
    (kx_arr ky_arr kr_arr : list (list R))
    (kbinsize : R) (dimension elements : Z) : M (R * R) :=
  support <- bcast2 (in_support kbinsize dimension elements)
                    (length uu) (length vv) kx_arr ky_arr ;;
  let max_baseline_inds := where_2d (fun b : bool => b) support in
  inside <- take_2d kx_arr max_baseline_inds ;;
  obs_max_baseline <- np_max_R (map Rabs inside) ;;
  nonzero <- take_2d kr_arr (where_2d (fun r => negb (Reqb r 0)) kr_arr) ;;
  shortest <- np_min_R nonzero ;;
  match Config.min_baseline cfg with
  | None => ret (obs_max_baseline, shortest)
  | Some m => ret (obs_max_baseline, py_max_R m shortest)
  end.

(* ================================================================== *)
(** * [project_slant_orthographic], [read_metafits], [create_obs] *)
(* ================================================================== *)

(** The coordinate conversions of [PyFHD.pyfhd_tools] and astropy's [Time]
    are outside the excerpt: they are an interface the development is
    parametrised by.  The result of [parallactic_angle] is a float that
    can be nan, the value NumPy gives a quotient 0 / 0: [Some p] is the
    number [p], and [None] is nan. *)
Class Astronomy : Type := {
  parallactic_angle : R -> R -> R -> option R;
  radec_to_pixel : R -> R -> Astr.t -> R * R;
  altaz_to_radec : R -> R -> R -> R -> R -> R -> R * R;
  radec_to_altaz : R -> R -> R -> R -> R -> R -> R * R;
  (** [Time(jd, format='jd').to_value('decimalyear')] *)
  jd_to_decimalyear : R -> R;
  (** [Time(jd, format='jd').to_value('fits')] *)
  jd_to_fits : R -> string
}.

(** [str.split] on one separator character. *)
Fixpoint split_on (c : Ascii.ascii) (s : string) : list string :=
  match s with
  | EmptyString => [EmptyString]
  | String a s' =>
      if Ascii.eqb a c then EmptyString :: split_on c s'
      else
        match split_on c s' with
        | [] => [String a EmptyString]
        | w :: ws => String a w :: ws
        end
  end.

(** A stable sort of the tile table by antenna number (line 182). *)
Fixpoint insert_row (r : Metafits.row) (l : list Metafits.row) : list Metafits.row :=
  match l with
  | [] => [r]
  | r' :: l' =>
      if (Metafits.Antenna r' <=? Metafits.Antenna r)%Z
      then r' :: insert_row r l'
      else r :: l
  end.

Definition sort_by_antenna (l : list Metafits.row) : list Metafits.row :=
  fold_left (fun acc r => insert_row r acc) l [].

Definition np_sum (l : list Z) : Z := fold_left Z.add l 0%Z.

(** [np.arange(1, n + 1)]; for a float [n] the array is a float one, and
    [np.zeros(n)] raises on the next line. *)
Definition arange_from_1 (n : pynum) : list Z :=
  match n with
  | PyInt z => map Z.of_nat (seq 1 (Z.to_nat z))
  | PyFloat _ => []
  end.

Definition py_succ (n : pynum) : pynum :=
  match n with
  | PyInt z => PyInt (z + 1)
  | PyFloat r => PyFloat (r + 1)
  end.

Definition all_flagged_message : message := Text "All tiles flagged in metadata".
Definition no_metafits_message : message :=
  Text "METAFITS file has not been found, Calculating obs meta settings from the uvfits header instead".

(** What either branch of [read_metafits] (lines 176-221) writes. *)
Record tile_meta : Type := TileMeta {
  tm_tile_names : list Z;
  tm_tile_height : list R;
  tm_tile_flag : list Z;
  tm_obsra : R;
  tm_obsdec : R;
  tm_phasera : R;
  tm_phasedec : R;
  tm_time_res : R;
  tm_delays : option (list string)
}.

(** Lines 187-192. *)
Definition check_tile_flags (cfg : Config.t) (tile_flag : list Z) : M unit :=
  if (np_sum tile_flag =? Z.of_nat (length tile_flag) - 1)%Z then
    if Config.run_simulation cfg then warning all_flagged_message
    else error all_flagged_message ;;; exit
  else ret tt.

(** Lines 177-198: the METAFITS file is there. *)
Definition metafits_branch (hdr : Header.t) (cfg : Config.t)
    (metadata : Metafits.file) : M tile_meta :=
  let data := sort_by_antenna (Metafits.data metadata) in
  match data with
  | [] => raise IndexError
  | first :: _ =>
      let single_i := np_where (fun r => String.eqb (Metafits.pol r) (Metafits.pol first)) data in
      tile_names <- np_take (map Metafits.tile data) single_i ;;
      heights <- np_take (map Metafits.height data) single_i ;;
      let tile_height := map (fun h => h - Header.alt hdr) heights in
      let tile_flag := map Metafits.flag data in
      check_tile_flags cfg tile_flag ;;;
      ret (TileMeta tile_names tile_height tile_flag
             (Metafits.RA metadata) (Metafits.DEC metadata)
             (Metafits.RAPHASE metadata) (Metafits.DECPHASE metadata)
             (Metafits.INTTIME metadata)
             (Some (split_on ","%char (Metafits.DELAYS metadata))))
  end.

(** Lines 200-221: no METAFITS file; the flags come from the antennas that
    occur in no baseline.  [b0i] has the indices of [time], so the two
    reads of [time] are in range. *)
Definition header_branch (obs : Obs.t) (hdr : Header.t) (params : Params.t)
    (b0i : list Z) : M tile_meta :=
  warning no_metafits_message ;;;
  let n_tile := Obs.n_tile obs in
  let tile_A1 := Params.antenna1 params in
  let tile_B1 := Params.antenna2 params in
  '(hist_A1, _, _) <- histogram (values tile_A1) 1 (Some 1) (Some (to_R n_tile)) ;;
  '(hist_B1, _, _) <- histogram (values tile_B1) 1 (Some 1) (Some (to_R n_tile)) ;;
  let hist_AB := zip_with Z.add hist_A1 hist_B1 in
  let tile_names := arange_from_1 n_tile in
  tile_height <- np_zeros 0 n_tile ;;
  let tile_use := np_where (fun h => (h =? 0)%Z) hist_AB in
  tile_flag <- np_zeros 0%Z n_tile ;;
  tile_flag <-
    (if (0 <? length tile_use)%nat then np_fill tile_flag tile_use 1%Z
     else ret tile_flag) ;;
  let time := Params.time params in
  let time_res :=
    if (1 <? length b0i)%nat
    then (nth (Z.to_nat (nth 1 b0i 0%Z)) time 0
          - nth (Z.to_nat (nth 0 b0i 0%Z)) time 0) * 24 * 3600
    else 1 in
  ret (TileMeta tile_names tile_height tile_flag
         (Header.obsra hdr) (Header.obsdec hdr)
         (Header.obsra hdr) (Header.obsdec hdr)
         time_res None).

(** Lines 34-138 of [create_obs]: [obs] and [baseline_info] as they are
    when [read_metafits] is called, and [params]. *)
Definition obs_before_metafits (hdr : Header.t) (params : Params.t)
    (cfg : Config.t) : M (Obs.t * BaselineInfo.t * Params.t) :=
  let time := Params.time params in
  '(n_time, bin_width, bin_offset) <- time_bins time ;;
  let n_baselines := nth 0 bin_width 0 in
  let n_vis := (Z.of_nat (length time) * Header.n_freq hdr)%Z in
  n_vis_arr <- np_zeros 0%Z (PyInt (Header.n_freq hdr)) ;;
  let freq := Header.frequency_array hdr in
  '(beam_nfreq_avg, fbin_i, freq_center) <- freq_bins hdr cfg ;;
  t <- resolve_tiles hdr params ;;
  let params := tiles_params t in
  let baseline_info :=
    BaselineInfo.Build bin_offset freq fbin_i (tile_A t) (tile_B t)
      (Header.n_freq hdr + 1) (py_succ (tiles_n_tile t)) in
  '(kx_arr, ky_arr, kr_arr, max_baseline) <-
    baseline_extent freq (Params.uu params) (Params.vv params) ;;
  kbinsize <- imaging_kbinsize cfg ;;
  '(dimension, elements) <- imaging_dimension cfg max_baseline ;;
  degpix <- imaging_degpix cfg ;;
  '(obs_max_baseline, obs_min_baseline) <-
    baseline_limits cfg (Params.uu params) (Params.vv params)
                    kx_arr ky_arr kr_arr kbinsize dimension elements ;;
  ret (Obs.Build (Header.n_pol hdr) (tiles_n_tile t) (Header.n_freq hdr)
         (Config.instrument cfg) n_time n_baselines n_vis n_vis n_vis n_vis_arr
         (Header.freq_res hdr) beam_nfreq_avg freq_center kbinsize
         dimension elements degpix obs_max_baseline obs_min_baseline,
       baseline_info, params).

Section Observation.

Context {astronomy : Astronomy}.

(** Lines 252-255. *)
Definition lon_offset (meta : Meta.t) : R :=
  if Rltb 90 (Rabs (Meta.phasera meta - Meta.zenra meta)) then
    Meta.phasera meta
    - (if Rltb (Meta.zenra meta) (Meta.phasera meta) then 360 else -360)
    - Meta.zenra meta
  else Meta.phasera meta - Meta.zenra meta.

(** Line 256. *)
Definition zenith_ang (meta : Meta.t) : R :=
  angle_difference (Meta.phasera meta) (Meta.phasedec meta)
                   (Meta.zenra meta) (Meta.zendec meta) true.

(** Line 257. *)
Definition parallactic_ang (meta : Meta.t) : option R :=
  parallactic_angle (Meta.zendec meta) (lon_offset meta) (Meta.phasedec meta).

(** Lines 259-260.  A product with nan is nan, also when the other factor
    is 0. *)
Definition xi (meta : Meta.t) : option R :=
  match parallactic_ang meta with
  | Some p => Some (-1 * tan (radians (zenith_ang meta)) * sin (radians p))
  | None => None
  end.

Definition eta (meta : Meta.t) : option R :=
  match parallactic_ang meta with
  | Some p => Some (tan (radians (zenith_ang meta)) * cos (radians p))
  | None => None
  end.

Definition projection_name : string := "SIN".

(** Lines 233-295. *)
Definition project_slant_orthographic (meta : Meta.t) (obs : Obs.t) (epoch : R)
  : Astr.t * R * R :=
  let astr :=
    Astr.Build
      (Obs.dimension obs, Obs.elements obs)
      ((1, 0), (0, 1))
      (Obs.degpix obs, Obs.degpix obs)
      (Meta.obsx meta + 1, Meta.obsy meta + 1)
      (Meta.phasera meta, Meta.phasedec meta)
      (("RA---" ++ projection_name)%string, ("DEC--" ++ projection_name)%string)
      180 0
      (xi meta, eta meta)
      [0; 0; 90; 180; 0]
      (1%Z, 2%Z)
      0
      "C"
      projection_name
      [1%Z]
      "ICRS"
      epoch
      (jd_to_fits (Meta.JD0 meta))
      (Meta.JD0 meta - 2400000.5)
      (0, 0) in
  let '(zenx, zeny) := radec_to_pixel (Meta.zenra meta) (Meta.zendec meta) astr in
  (astr, zenx, zeny).

(** Lines 145-231. *)
Definition read_metafits (obs : Obs.t) (hdr : Header.t) (params : Params.t)
    (cfg : Config.t) (fs : filesystem) : M Meta.t :=
  let time := Params.time params in
  let b0i := idl_argunique time in
  jdate <- np_take time (map Z.to_nat b0i) ;;
  let obsx := IZR (Obs.dimension obs) / 2 in
  let obsy := IZR (Obs.elements obs) / 2 in
  JD0 <- np_min_R jdate ;;
  let epoch := jd_to_decimalyear JD0 in
  tm <-
    match metafits_of cfg fs with
    | Some metadata => metafits_branch hdr cfg metadata
    | None => header_branch obs hdr params b0i
    end ;;
  let '(zenra, zendec) :=
    altaz_to_radec 90 0 (Header.lat hdr) (Header.lon hdr) (Header.alt hdr) JD0 in
  let meta :=
    Meta.Build jdate obsx obsy JD0 epoch
      (tm_tile_names tm) (tm_tile_height tm) (tm_tile_flag tm)
      (tm_obsra tm) (tm_obsdec tm) (tm_phasera tm) (tm_phasedec tm)
      (tm_time_res tm) (tm_delays tm) zenra zendec
      None None None None None in
  let '(astr, zenx, zeny) := project_slant_orthographic meta obs 2000 in
  let '(obsalt, obsaz) :=
    radec_to_altaz (Meta.obsra meta) (Meta.obsdec meta)
                   (Header.lat hdr) (Header.lon hdr) (Header.alt hdr) JD0 in
  ret (Meta.set_projection meta astr zenx zeny obsalt obsaz).

(** Lines 34-140: everything [create_obs] has computed when it reaches
    its [return]: [obs], [baseline_info] and [meta].  [read_metafits]
    gets the [params] that the packed branch may have overwritten. *)
Definition create_obs_locals (hdr : Header.t) (params : Params.t)
    (cfg : Config.t) (fs : filesystem) : M (Obs.t * BaselineInfo.t * Meta.t) :=
  '(obs, baseline_info, params) <- obs_before_metafits hdr params cfg ;;
  meta <- read_metafits obs hdr params cfg fs ;;
  ret (obs, baseline_info, meta).

(** Lines 11-143: [return obs]. *)
Definition create_obs (hdr : Header.t) (params : Params.t)
    (cfg : Config.t) (fs : filesystem) : M Obs.t :=
  '(obs, baseline_info, meta) <- create_obs_locals hdr params cfg fs ;;
  ret obs.

End Observation.

(* ================================================================== *)
(** * Vocabulary of the statements *)
(* ================================================================== *)

(** [m] is the largest element of [l]. *)
Definition is_maximum (m : R) (l : list R) : Prop :=
  In m l /\ forall x, In x l -> x <= m.

(** [m] is the smallest element of [l]. *)
Definition is_minimum (m : R) (l : list R) : Prop :=
  In m l /\ forall x, In x l -> m <= x.

(** The number of flagged rows of a table whose flags are 0 or 1. *)
Definition n_flagged (flags : list Z) : nat := length (filter (Z.eqb 1) flags).

(** The flag column of a METAFITS table: 0 (in use) or 1 (flagged). *)
Definition flags_01 (flags : list Z) : Prop :=
  Forall (fun f => f = 0%Z \/ f = 1%Z) flags.

(** The number of values of [data] that bin [b] of the unit-width
    histogram over [1 .. n] counts. *)
Definition unit_bin_count (data : list R) (n : Z) (b : nat) : nat :=
  length (np_where (in_bin 1 (IZR n) 1 b) data).

(** An array whose values are whole numbers. *)
Definition integral (a : ndarray) : Prop :=
  Forall (fun x => exists z : Z, x = IZR z) (values a).

(* ================================================================== *)
(** * Example inputs *)
(* ================================================================== *)

(** Configurations: only a field of view; only a resolution. *)
Definition fov_only_config : Config.t :=
  Config.Build "mwa" None (Some 1) None None None None false "data" "1061316296".

Definition derived_grid_config : Config.t :=
  Config.Build "mwa" None None (Some 1) None None None false "data" "1061316296".

(** A header that announces three tiles and one frequency channel. *)
Definition small_header : Header.t :=
  Header.Build 2 3 1 1 [1] 0 0 0 0 0.

(** Two time steps with one baseline each, the tile pairs (1, 2) and
    (2, 3), whose packed numbers are 256 * 1 + 2 and 256 * 2 + 3: once
    with the antenna columns filled in, once without them. *)
Definition two_baselines : Params.t :=
  Params.Build [1; 2] [258; 515] (IntArr [1; 2]%Z) (IntArr [2; 3]%Z) [1; 1] [0; 0].

Definition packed_baselines : Params.t :=
  Params.Build [1; 2] [258; 515] (IntArr [0; 0]%Z) (IntArr [0; 0]%Z) [1; 1] [0; 0].

(** Stand-ins for the conversions, to run the definitions on examples: a
    site whose zenith has right ascension [lon] and declination [lat]. *)
Definition example_astronomy : Astronomy := {|
  parallactic_angle := fun latitude hour_angle dec => Some hour_angle;
  radec_to_pixel := fun ra dec astr => (ra, dec);
  altaz_to_radec := fun alt az lat lon height jd => (lon, lat);
  radec_to_altaz := fun ra dec lat lon height jd => (90, 0);
  jd_to_decimalyear := fun jd => 2000 + (jd - 2451545) / 365.25;
  jd_to_fits := fun jd => "2013-08-23T17:00:00.000"%string
|}.

(** A [meta] whose phase centre is the zenith. *)
Definition zenith_meta : Meta.t :=
  Meta.Build [2456528] 2 2 2456528 2013 [1; 2]%Z [0; 0] [0; 0]%Z
    0 (-27) 0 (-27) 2 None 0 (-27) None None None None None.



(** An [obs] with three tiles, and one with four. *)
Definition small_obs : Obs.t :=
  Obs.Build 2 (PyInt 3) 1 "mwa" 2 1 2 2 2 [0%Z] 1 1 1 1 4 4 (180 / PI / 4) 1 1.

Definition four_tile_obs : Obs.t :=
  Obs.Build 2 (PyInt 4) 1 "mwa" 2 1 2 2 2 [0%Z] 1 1 1 1 4 4 (180 / PI / 4) 1 1.

(** A configuration with a field of view, a resolution and a grid size,
    without and with [run_simulation]. *)
Definition full_config : Config.t :=
  Config.Build "mwa" None (Some 1) (Some 1) (Some 4%Z) None None false "data" "1061316296".

Definition simulation_config : Config.t :=
  Config.Build "mwa" None (Some 1) (Some 1) (Some 4%Z) None None true "data" "1061316296".

(** File systems: an empty one, and one that holds a single file. *)
Definition no_files : filesystem := fun _ _ => None.

Definition one_file (dir name : string) (f : Metafits.file) : filesystem :=
  fun d n => if (String.eqb d dir && String.eqb n name)%bool then Some f else None.

(** METAFITS tables of two tiles with two polarisations each: no row
    flagged, and all rows but one flagged. *)
Definition example_metafits : Metafits.file :=
  Metafits.File 0 (-27) 0 (-27) 2 "0,0,0,0"
    [Metafits.Row 2 "X" 12 377 0; Metafits.Row 1 "X" 11 376 0;
     Metafits.Row 2 "Y" 12 377 0; Metafits.Row 1 "Y" 11 376 0].

Definition flagged_metafits : Metafits.file :=
  Metafits.File 0 (-27) 0 (-27) 2 "0,0,0,0"
    [Metafits.Row 2 "X" 12 377 1; Metafits.Row 1 "X" 11 376 0;
     Metafits.Row 2 "Y" 12 377 1; Metafits.Row 1 "Y" 11 376 1].

Definition metafits_files : filesystem :=
  one_file "data" "1061316296.metafits" example_metafits.

Definition flagged_files : filesystem :=
  one_file "data" "1061316296.metafits" flagged_metafits.

(** A METAFITS table of three tiles with two polarisations each, in which
    tiles 2 and 3 are flagged in both polarisations and tile 1 in
    neither: every tile but one is flagged, in four rows of six. *)
Definition two_of_three_metafits : Metafits.file :=
  Metafits.File 0 (-27) 0 (-27) 2 "0,0,0,0"
    [Metafits.Row 1 "X" 11 376 0; Metafits.Row 2 "X" 12 377 1;
     Metafits.Row 3 "X" 13 378 1; Metafits.Row 1 "Y" 11 376 0;
     Metafits.Row 2 "Y" 12 377 1; Metafits.Row 3 "Y" 13 378 1].

Definition two_of_three_files : filesystem :=
  one_file "data" "1061316296.metafits" two_of_three_metafits.

(** The tiles of a METAFITS table, which has one row per tile and
    polarisation: the antenna numbers, each once, and those of them that
    are flagged in all of their rows. *)
Definition table_tiles (rows : list Metafits.row) : list Z :=
  nodup Z.eq_dec (map Metafits.Antenna rows).

Definition tile_flagged (rows : list Metafits.row) (antenna : Z) : bool :=
  forallb (fun r => negb (Metafits.Antenna r =? antenna)%Z || (Metafits.flag r =? 1)%Z) rows.

Definition flagged_tiles (rows : list Metafits.row) : list Z :=
  filter (tile_flagged rows) (table_tiles rows).

(* ================================================================== *)
(** * Further example inputs *)
(* ================================================================== *)

(** Two visibilities of one time step. *)
Definition one_time_step : Params.t :=
  Params.Build [1; 1] [258; 515] (IntArr [1; 2]%Z) (IntArr [2; 3]%Z) [1; 1] [0; 0].

(** A METAFITS table with every row flagged, and a file system that
    holds it. *)
Definition all_flagged_metafits : Metafits.file :=
  Metafits.File 0 (-27) 0 (-27) 2 "0,0,0,0"
    [Metafits.Row 2 "X" 12 377 1; Metafits.Row 1 "X" 11 376 1;
     Metafits.Row 2 "Y" 12 377 1; Metafits.Row 1 "Y" 11 376 1].

Definition all_flagged_files : filesystem :=
  one_file "data" "1061316296.metafits" all_flagged_metafits.

(** A configuration whose field of view is zero, with a resolution and a
    grid size. *)
Definition zero_fov_config : Config.t :=
  Config.Build "mwa" None (Some 0) (Some 1) (Some 4%Z) None None false "data" "1061316296".

(* ================================================================== *)
(** * Further vocabulary *)
(* ================================================================== *)

(** The sum of a list of reals, and of integers. *)
Definition Rsum (l : list R) : R := fold_right Rplus 0 l.

Definition Zsum (l : list Z) : Z := fold_right Z.add 0%Z l.

(** The steps of an index list: each index minus the one before it,
    [prev] standing before the first. *)
Fixpoint steps (prev : Z) (l : list Z) : list Z :=
  match l with
  | [] => []
  | x :: l' => (x - prev)%Z :: steps x l'
  end.

(** The time column as a UVFITS file holds it: the time stamps never
    decrease, so that the visibilities of one time step are neighbours. *)
Definition chronological (time : list R) : Prop := Sorted Rle time.

(** The value of each run of equal neighbours, one per run. *)
Fixpoint run_ends (l : list R) : list R :=
  match l with
  | [] => []
  | x :: l' =>
      match l' with
      | [] => [x]
      | y :: _ => if Reqb x y then run_ends l' else x :: run_ends l'
      end
  end.

(** The order of the tile table after line 182, and the rows of one
    antenna. *)
Definition antenna_le (r r' : Metafits.row) : Prop :=
  (Metafits.Antenna r <= Metafits.Antenna r')%Z.

Definition has_antenna (a : Z) (r : Metafits.row) : bool :=
  (Metafits.Antenna r =? a)%Z.

(** The packed number of a tile pair under the modulus [2 ^ k]. *)
Definition packed (k : Z) (pair : Z * Z) : R :=
  IZR (2 ^ k * fst pair + snd pair).

(* ================================================================== *)
(** * [PyFHD.use_idl_fhd.run_idl_fhd]: the IDL launcher *)
(* ================================================================== *)

(** The module writes IDL [.pro] files from the configuration dictionary
    and launches IDL.  The file system, the templates of the package and
    IDL itself are taken to cooperate: opening a file for writing, copying
    a template and changing directory succeed, and the launched command
    hands back some text.  What is modelled is the text written, the
    order of the effects, and the exceptions of the dictionary and path
    operations. *)
Module Idl.

Inductive exn : Type :=
| KeyError (key : string)
| TypeError.

Inductive result (A : Type) : Type :=
| Ok (a : A)
| Raise (e : exn).
Arguments Ok {A} a.
Arguments Raise {A} e.

(** A run that leaves a trace of [E]s: the [write] calls on an open file,
    or the effects of a function on the world. *)
Definition run (E A : Type) : Type := (list E * result A)%type.

Definition ret {E A} (a : A) : run E A := ([], Ok a).
Definition raise {E A} (e : exn) : run E A := ([], Raise e).
Definition emit {E} (e : E) : run E unit := ([e], Ok tt).

Definition bind {E A B} (m : run E A) (k : A -> run E B) : run E B :=
  match m with
  | (l, Ok a) => (l ++ fst (k a), snd (k a))
  | (l, Raise e) => (l, Raise e)
  end.

(** The values of the configuration dictionary, by the types that
    [convert_argdict_to_pro] tells apart; [VOther] is any other value (an
    int, a float, a list), given by the text [str] makes of it. *)
Inductive value : Type :=
| VStr (s : string)
| VBool (b : bool)
| VNone
| VPath (p : string)
| VOther (text : string).

(** [str(v)], as an f-string inserts it. *)
Definition py_str (v : value) : string :=
  match v with
  | VStr s => s
  | VBool true => "True"%string
  | VBool false => "False"%string
  | VNone => "None"%string
  | VPath p => p
  | VOther text => text
  end.

(** A Python [dict] with string keys: the items in insertion order.
    Assigning to a key that is there keeps its place. *)
Definition dict : Type := list (string * value).

Fixpoint dict_get (k : string) (d : dict) : option value :=
  match d with
  | [] => None
  | (k', v) :: d' => if String.eqb k' k then Some v else dict_get k d'
  end.

Fixpoint dict_set (k : string) (v : value) (d : dict) : dict :=
  match d with
  | [] => [(k, v)]
  | (k', v') :: d' =>
      if String.eqb k' k then (k', v) :: d' else (k', v') :: dict_set k v d'
  end.

(** [d[k]]. *)
Definition lookup {E} (k : string) (d : dict) : run E value :=
  match dict_get k d with
  | Some v => ret v
  | None => raise (KeyError k)
  end.

(** The effects on the world. *)
Inductive event : Type :=
| Info (msg : string)
(** [logger.info] of the minutes a task took; the number is not modelled *)
| Elapsed (task : string)
(** a file opened with mode ['w'], and the [write] calls that reached it *)
| Written (path : string) (text : list string)
| Copied (template dir : string)
| Chdir (dir : string)
| Launched (args : list string).

Notation "'let*' x ':=' m 'in' k" := (bind m (fun x => k))
  (at level 10, x name, m at level 100, k at level 200).

(** ** Text *)

Definition nl : string := String "010"%char EmptyString.
Definition tab : string := String "009"%char EmptyString.
Definition dquote : string := String "034"%char EmptyString.

(** An f-string, as the list of its pieces. *)
Definition fstring (parts : list string) : string := String.concat EmptyString parts.

(** [c in s] and [s.replace(c, d)] for single characters. *)
Fixpoint contains (c : Ascii.ascii) (s : string) : bool :=
  match s with
  | EmptyString => false
  | String a s' => Ascii.eqb a c || contains c s'
  end.

Fixpoint replace_char (c d : Ascii.ascii) (s : string) : string :=
  match s with
  | EmptyString => EmptyString
  | String a s' => String (if Ascii.eqb a c then d else a) (replace_char c d s')
  end.

(** [s.replace(c, t)] for a character [c] and a text [t]. *)
Fixpoint replace_with (c : Ascii.ascii) (t : string) (s : string) : string :=
  match s with
  | EmptyString => EmptyString
  | String a s' =>
      if Ascii.eqb a c then (t ++ replace_with c t s')%string
      else String a (replace_with c t s')
  end.

(** [s.split()]: the words between runs of white space. *)
Definition is_space (a : Ascii.ascii) : bool :=
  Ascii.eqb a " "%char || Ascii.eqb a "009"%char || Ascii.eqb a "010"%char
  || Ascii.eqb a "011"%char || Ascii.eqb a "012"%char || Ascii.eqb a "013"%char.

Fixpoint split_words (word : string) (s : string) : list string :=
  let close := match word with EmptyString => [] | _ => [word] end in
  match s with
  | EmptyString => close
  | String a s' =>
      if is_space a then close ++ split_words EmptyString s'
      else split_words (word ++ String a EmptyString)%string s'
  end.

Definition py_split (s : string) : list string := split_words EmptyString s.

(** ** [run_command] (lines 14-28) *)

(** [shell] stands for the operating system: the text a command prints. *)
Definition run_command (shell : list string -> string) (cmd : string)
  : run event string :=
  let* _ := emit (Launched (py_split cmd)) in
  ret (shell (py_split cmd)).

(** ** [convert_argdict_to_pro] (lines 30-88) *)

(** Lines 58-61. *)
Definition new_key_of (old_key : string) : string :=
  if contains "-"%char old_key then replace_char "-"%char "_"%char old_key
  else old_key.

(** Lines 57-63. *)
Fixpoint rename_keys {E} (input_dict : dict) (old_keys : list string)
    (idl_dict : dict) : run E dict :=
  match old_keys with
  | [] => ret idl_dict
  | old_key :: old_keys' =>
      let new_key := new_key_of old_key in
      let* v := lookup old_key input_dict in
      rename_keys input_dict old_keys' (dict_set new_key v idl_dict)
  end.

(** Lines 71-82: the line of one item. *)
Definition pro_line (idl_dict : dict) (key : string) (v : value) : run string unit :=
  if String.eqb key "output_path" then
    let* version := lookup "version"%string idl_dict in
    emit (fstring ["  output_directory='"; py_str v; "/"; py_str version; "'"; nl]%string)
  else
    match v with
    | VStr s => emit (fstring ["  "; key; "='"; s; "'"; nl]%string)
    | VBool b => emit (fstring ["  "; key; "="; if b then "1" else "0"; nl]%string)
    | VNone => emit (fstring ["  "; key; "=!NULL"; nl]%string)
    | VPath p => emit (fstring ["  "; key; "='"; p; "'"; nl]%string)
    | VOther text => emit (fstring ["  "; key; "="; text; nl]%string)
    end.

(** Lines 70-82. *)
Fixpoint pro_lines (idl_dict : dict) (items : dict) : run string unit :=
  match items with
  | [] => ret tt
  | (key, v) :: items' =>
      let* _ := pro_line idl_dict key v in
      pro_lines idl_dict items'
  end.

(** [with open(path, 'w') as f: body]: the writes reach the file, and an
    exception of the body goes on. *)
Definition with_open {A} (path : string) (body : run string A) : run event A :=
  ([Written path (fst body)], snd body).

Definition pro_header : string := fstring ["PRO pyfhd_config,extra"; nl; nl]%string.

Definition pro_footer : list string :=
  [fstring [nl; "  extra=var_bundle(level=0) ; first gather all variables set in the top-level wrapper"; nl]%string;
   fstring ["  extra=var_bundle(level=1) ; next gather all variables set in this file, removing any duplicates."; nl]%string;
   fstring ["END"; nl]%string].

Fixpoint write_all (texts : list string) : run string unit :=
  match texts with
  | [] => ret tt
  | t :: texts' => let* _ := emit t in write_all texts'
  end.

Definition convert_argdict_to_pro (input_dict : dict) (output_dir : string)
  : run event unit :=
  let old_keys := map fst input_dict in
  let* idl_dict := rename_keys input_dict old_keys [] in
  with_open (fstring [output_dir; "/pyfhd_config.pro"]%string)
    (let* _ := emit pro_header in
     let* _ := pro_lines idl_dict idl_dict in
     write_all pro_footer).

Section Wrappers.

(** [p / s] of [pathlib], on the texts of the path and of the segment. *)
Variable path_join : string -> string -> string.

(** The operating system: the text a command prints. *)
Variable shell : list string -> string.

(** [a / b]: defined when one side is a path and the other a path or a
    [str]. *)
Definition path_div {E} (a b : value) : run E string :=
  match a, b with
  | VPath p, VStr s => ret (path_join p s)
  | VPath p, VPath q => ret (path_join p q)
  | VStr s, VPath q => ret (path_join s q)
  | _, _ => raise TypeError
  end.

(** Lines 113-117 and 249-253, which the two wrappers share word for
    word. *)
Definition keywords_block (input_dict : dict) : run string unit :=
  let* _ := emit (fstring ["    ; Keywords"; nl]%string) in
  let* input_path := lookup "input_path"%string input_dict in
  let* obs_id := lookup "obs_id"%string input_dict in
  let* joined := path_div input_path obs_id in
  let vis_file_list := fstring [joined; ".uvfits"]%string in
  let* _ := emit (fstring ["    vis_file_list="; dquote; vis_file_list; dquote; nl]%string) in
  let* output_path := lookup "output_path"%string input_dict in
  let* version := lookup "version"%string input_dict in
  let* _ := emit (fstring ["    output_directory='"; py_str output_path; "/";
                           py_str version; "'"; nl]%string) in
  let* version := lookup "version"%string input_dict in
  let* _ := emit (fstring ["    version='"; py_str version; "'"; nl]%string) in
  emit nl.

(** Lines 121-124 and 257-260. *)
Definition directory_setup : list string :=
  [fstring ["    ; Directory setup"; nl]%string;
   fstring ["    fhd_file_list=fhd_path_setup(vis_file_list,version=version,output_directory=output_directory)"; nl]%string;
   fstring ["    healpix_path=fhd_path_setup(output_dir=output_directory,subdir='Healpix',output_filename='Combined_obs',version=version)"; nl]%string;
   nl].

(** Lines 129-144 and 281-296. *)
Definition bundle_and_print : list string :=
  [fstring ["    ; Set global defaults and bundle all the variables into a structure."; nl]%string;
   fstring ["    ; Any keywords set on the command line or in the top-level wrapper will supercede these defaults"; nl]%string;
   fstring ["    pyfhd_config,extra"; nl]%string;
   nl;
   nl;
   fstring ["    ; print all the keywords that are now set"; nl]%string;
   fstring ["    print,"; dquote; dquote; nl]%string;
   fstring ["    print,"; dquote; "Keywords set in wrapper:"; dquote; nl]%string;
   fstring ["    print,structure_to_text(extra)"; nl]%string;
   nl;
   fstring ["    print,"; dquote; dquote; nl]%string;
   fstring ["    ; this runs FHD proper"; nl]%string].

(** Lines 90-146. *)
Definition write_run_FHD_calibration_pro (input_dict : dict) (output_dir : string)
  : run event unit :=
  with_open (fstring [output_dir; "/run_fhd_calibration_only.pro"]%string)
    (let* _ := emit (fstring ["pro run_fhd_calibration_only"; nl]%string) in
     let* _ := emit nl in
     let* _ := keywords_block input_dict in
     let* _ := write_all directory_setup in
     let* _ := write_all bundle_and_print in
     let* _ := emit (fstring ["    general_calibration_only,_Extra=extra"; nl]%string) in
     emit (fstring ["    end"; nl]%string)).

(** Lines 226-298. *)
Definition write_run_FHD_healpix_imaging_pro (input_dict : dict) (output_dir : string)
  : run event unit :=
  with_open (fstring [output_dir; "/run_fhd_healpix_imaging.pro"]%string)
    (let* _ := emit (fstring ["pro run_fhd_healpix_imaging"; nl]%string) in
     let* _ := emit nl in
     let* _ := keywords_block input_dict in
     let* _ := write_all directory_setup in
     let* _ := emit (fstring ["    ; Path to where the python-gridded hdf5 files live"; nl]%string) in
     let* output_path := lookup "output_path"%string input_dict in
     let* version := lookup "version"%string input_dict in
     let* _ := emit (fstring ["    python_grid_path='"; py_str output_path; "/";
                              py_str version; "/gridding_outputs/'"; nl; nl]%string) in
     let* _ := emit (fstring ["    ; Add in some extra healpix-ps related keywords"; nl]%string) in
     let* _ := emit (fstring ["    model_flag=1"; nl]%string) in
     let* _ := emit (fstring ["    restrict_hpx_inds='EoR0_high_healpix_inds_3x.idlsave'"; nl]%string) in
     let* grid_psf_file_sav := lookup "grid_psf_file_sav"%string input_dict in
     let* _ := emit (fstring ["    grid_psf_file='"; py_str grid_psf_file_sav; "'"; nl]%string) in
     let* _ := write_all bundle_and_print in
     let* _ := emit (fstring ["    general_healpix_imaging,_Extra=extra"; nl]%string) in
     emit (fstring ["end"; nl]%string)).

(** Lines 178 and 316. *)
Definition output_dir_of {E} (pyfhd_config : dict) : run E string :=
  let* output_path := lookup "output_path"%string pyfhd_config in
  let* version := lookup "version"%string pyfhd_config in
  ret (fstring [py_str output_path; "/"; py_str version]%string).

(** Lines 217 and 359. *)
Definition idl_output_dir_of {E} (pyfhd_config : dict) : run E string :=
  let* output_path := lookup "output_path"%string pyfhd_config in
  let* version := lookup "version"%string pyfhd_config in
  let* version' := lookup "version"%string pyfhd_config in
  ret (fstring [py_str output_path; "/"; py_str version; "/fhd_"; py_str version']%string).

(** Lines 213 and 355. *)
Definition indent (idl_lines : string) : string :=
  (tab ++ replace_with "010"%char (nl ++ tab) idl_lines)%string.

Fixpoint copy_templates (files : list string) (output_dir : string) : run event unit :=
  match files with
  | [] => ret tt
  | file :: files' =>
      let* _ := emit (Copied file output_dir) in
      copy_templates files' output_dir
  end.

(** Lines 203-215 and 343-357. *)
Definition launch (idl_command : string) : run event unit :=
  let* _ := emit (Info (fstring ["Launching IDL on the command line via the command:";
                                 nl; tab; "$ "; idl_command]%string)) in
  let* idl_lines := run_command shell idl_command in
  let idl_lines := indent idl_lines in
  emit (Info (fstring ["Here is everything IDL FHD printed:"; nl; idl_lines]%string)).

(** Lines 149-223. *)
Definition run_IDL_calibration_only (pyfhd_config : dict) : run event string :=
  let* output_dir := output_dir_of pyfhd_config in
  let* _ := emit (Info "Writing IDL .pro files to run IDL FHD calibration only"%string) in
  let* _ := convert_argdict_to_pro pyfhd_config output_dir in
  let* _ := write_run_FHD_calibration_pro pyfhd_config output_dir in
  let* _ := copy_templates ["fhd_calibration_only.pro";
                            "general_calibration_only.pro"]%string output_dir in
  let* _ := emit (Chdir output_dir) in
  let* _ := launch "idl -IDL_DEVICE ps -e run_fhd_calibration_only"%string in
  let* idl_output_dir := idl_output_dir_of pyfhd_config in
  let* _ := emit (Elapsed "Running IDL FHD calibration"%string) in
  ret idl_output_dir.

(** Lines 301-363: the function ends without a [return]. *)
Definition run_IDL_convert_gridding_to_healpix_images (pyfhd_config : dict)
  : run event unit :=
  let* output_dir := output_dir_of pyfhd_config in
  let* _ := emit (Info "Writing IDL .pro files to run IDL FHD calibration only"%string) in
  let* _ := convert_argdict_to_pro pyfhd_config output_dir in
  let* _ := write_run_FHD_healpix_imaging_pro pyfhd_config output_dir in
  let* _ := copy_templates ["fhd_healpix_imaging.pro";
                            "general_healpix_imaging.pro";
                            "healpix_snapshot_cube_generate_read_python.pro";
                            "vis_model_freq_split_read_python.pro"]%string output_dir in
  let* _ := emit (Chdir output_dir) in
  let* _ := launch "idl -IDL_DEVICE ps -e run_fhd_healpix_imaging"%string in
  let* idl_output_dir := idl_output_dir_of pyfhd_config in
  let* _ := emit (Elapsed "Running IDL FHD imaging/healpix projection"%string) in
  ret tt.

End Wrappers.

End Idl.

(** ** Vocabulary for the IDL launcher *)

(** A dictionary as Python has it: no key twice. *)
Definition unique_keys (d : Idl.dict) : Prop := NoDup (map fst d).

(** The items of a dictionary under their IDL names, in order. *)
Definition renamed_items (d : Idl.dict) : Idl.dict :=
  map (fun kv => (Idl.new_key_of (fst kv), snd kv)) d.

(** What lines 55-63 build from a dictionary without repeated keys: the
    renamed items assigned one after the other. *)
Definition idl_dict_of (d : Idl.dict) : Idl.dict :=
  fold_left (fun acc kv => Idl.dict_set (fst kv) (snd kv) acc) (renamed_items d) [].

(** The name a line of [pyfhd_config.pro] assigns to. *)
Definition assigned_name (key : string) : string :=
  if String.eqb key "output_path" then "output_directory"%string else key.

(** A line that assigns to the name of the key of an item. *)
Definition assignment_of (line : string) (kv : string * Idl.value) : Prop :=
  exists rhs, line = Idl.fstring ["  "; assigned_name (fst kv); "="; rhs; Idl.nl]%string.

(** Example configurations: a complete one with a dashed key, one whose
    two spellings of a key collide, one without [version], and one whose
    [input_path] is a [str]. *)
Definition example_config : Idl.dict :=
  [("input_path", Idl.VPath "/data");
   ("obs_id", Idl.VStr "1061316296");
   ("output_path", Idl.VPath "/out");
   ("version", Idl.VStr "v1");
   ("cal-stop", Idl.VBool true);
   ("n_avg", Idl.VOther "2");
   ("model_file", Idl.VNone)]%string.

Definition colliding_config : Idl.dict :=
  [("cal-stop", Idl.VBool true);
   ("version", Idl.VStr "v1");
   ("cal_stop", Idl.VBool false)]%string.

Definition versionless_config : Idl.dict :=
  [("obs_id", Idl.VStr "1061316296");
   ("output-path", Idl.VPath "/out");
   ("n_avg", Idl.VOther "2")]%string.

Definition str_path_config : Idl.dict :=
  [("input_path", Idl.VStr "/data");
   ("obs_id", Idl.VStr "1061316296");
   ("output_path", Idl.VStr "/out");
   ("version", Idl.VStr "v1")]%string.

(** Stand-ins for [pathlib] and for IDL. *)
Definition simple_join (p s : string) : string := Idl.fstring [p; "/"; s]%string.

Definition silent_shell (args : list string) : string := EmptyString.

(** A configuration for the HEALPix imaging run. *)
Definition imaging_config : Idl.dict :=
  [("input_path", Idl.VPath "/data");
   ("obs_id", Idl.VStr "1061316296");
   ("output_path", Idl.VPath "/out");
   ("version", Idl.VStr "v1");
   ("grid_psf_file_sav", Idl.VPath "/data/psf.sav")]%string.

(* ================================================================== *)
(** * Reasoning about runs *)
(* ================================================================== *)

(** The example columns are chronological. *)
Lemma two_baselines_chronological : chronological (Params.time two_baselines).
Proof. unfold chronological, two_baselines; cbn [Params.time]. repeat constructor; lra. Qed.

Lemma bind_ret {A B} (a : A) (k : A -> M B) : bind (ret a) k = k a.
Proof. unfold bind, ret; cbn. now destruct (k a). Qed.

Lemma bind_raise {A B} (e : exn) (k : A -> M B) : bind (raise e) k = raise e.
Proof. reflexivity. Qed.

Lemma bind_Ok {A B} (l : list log_record) (a : A) (k : A -> M B) :
  bind (l, Ok a) k = (l ++ fst (k a), snd (k a)).
Proof. reflexivity. Qed.

Lemma bind_Ok_inv {A B} (m : M A) (k : A -> M B) l b :
  bind m k = (l, Ok b) ->
  exists l1 a l2, m = (l1, Ok a) /\ k a = (l2, Ok b) /\ l = l1 ++ l2.
Proof.
  destruct m as [l1 [a | e]]; cbn; intros H; [ | discriminate ].
  destruct (k a) as [l2 r] eqn:Hk; cbn in H.
  injection H as <- ->. now exists l1, a, l2.
Qed.

Lemma bind_Raise_l {A B} (m : M A) (k : A -> M B) l e :
  m = (l, Raise e) -> bind m k = (l, Raise e).
Proof. now intros ->. Qed.

Lemma ret_inv {A} (a b : A) l : ret a = (l, Ok b) -> l = [] /\ a = b.
Proof. unfold ret; intros H; now injection H as <- <-. Qed.

(** Peel one [bind] off a run [H] that is known to return: [a] names the
    intermediate value, [Ha] the run that produced it, and [H] is left
    with the rest. *)
Tactic Notation "bind_inv" hyp(H) "as" simple_intropattern(a) ident(Ha) :=
  let l1 := fresh "l" in
  let l2 := fresh "l" in
  let El := fresh "Elog" in
  apply bind_Ok_inv in H; destruct H as (l1 & a & l2 & Ha & H & El).

Lemma Rltb_true a b : a < b -> Rltb a b = true.
Proof. unfold Rltb; now destruct (Rlt_dec a b). Qed.

Lemma Rltb_false a b : b <= a -> Rltb a b = false.
Proof. unfold Rltb; destruct (Rlt_dec a b); [ lra | easy ]. Qed.

Lemma Rleb_true a b : a <= b -> Rleb a b = true.
Proof. unfold Rleb; now destruct (Rle_dec a b). Qed.

Lemma Rleb_false a b : b < a -> Rleb a b = false.
Proof. unfold Rleb; destruct (Rle_dec a b); [ lra | easy ]. Qed.

Lemma Reqb_true a b : a = b -> Reqb a b = true.
Proof. unfold Reqb; now destruct (Req_dec_T a b). Qed.

Lemma Reqb_false a b : a <> b -> Reqb a b = false.
Proof. unfold Reqb; now destruct (Req_dec_T a b). Qed.

Lemma Rltb_iff a b : Rltb a b = true <-> a < b.
Proof. unfold Rltb; destruct (Rlt_dec a b); split; easy. Qed.

Lemma Rleb_iff a b : Rleb a b = true <-> a <= b.
Proof. unfold Rleb; destruct (Rle_dec a b); split; easy. Qed.

Lemma Reqb_iff a b : Reqb a b = true <-> a = b.
Proof. unfold Reqb; destruct (Req_dec_T a b); split; easy. Qed.

Lemma py_max_R_Rmax a b : py_max_R a b = Rmax a b.
Proof.
  unfold py_max_R, Rltb, Rmax.
  destruct (Rlt_dec a b), (Rle_dec a b); try reflexivity; lra.
Qed.

Lemma py_div_ok a b : b <> 0 -> py_div a b = ret (a / b).
Proof. intros H; unfold py_div; now rewrite Reqb_false. Qed.

Lemma radians_180_over_PI : 45 <= 180 / PI.
Proof.
  assert (P := PI_RGT_0). assert (P4 := PI_4).
  apply Rmult_le_reg_r with PI; [ lra | ].
  unfold Rdiv; rewrite Rmult_assoc, Rinv_l; lra.
Qed.

(* ================================================================== *)
(** * Image resolution: [kbinsize] *)
(* ================================================================== *)

(** Whatever the field of view, the value left in [obs['kbinsize']] is the
    configured [kbinsize] or its default. *)
Lemma imaging_kbinsize_value (cfg : Config.t) l k :
  imaging_kbinsize cfg = (l, Ok k) ->
  k = match Config.kbinsize cfg with Some k' => k' | None => 0.5 end.
Proof.
  unfold imaging_kbinsize; intros H. bind_inv H as w Hw.
  destruct (Config.kbinsize cfg); apply ret_inv in H; now destruct H.
Qed.

(** C1, at a configuration that sets [FoV] (to one degree) and no
    [kbinsize]: the field of view is to determine the resolution, that is
    [obs['kbinsize']] is to be [(180/pi)/FoV]; [create_obs] leaves the
    default 0.5 there, which is another number. *)
Theorem kbinsize_ignores_FoV :
  Config.FoV fov_only_config = Some 1 /\
  imaging_kbinsize fov_only_config = ret 0.5 /\
  0.5 <> 180 / PI / 1.
Proof.
  split; [ reflexivity | split ].
  - unfold imaging_kbinsize, fov_only_config; cbn.
    rewrite py_div_ok by lra. now rewrite !bind_ret.
  - assert (H := radians_180_over_PI). lra.
Qed.

(* ================================================================== *)
(** * Image grid: [dimension] and [elements] *)
(* ================================================================== *)

(** C4: the precedence between the configured [dimension] and [elements]
    and the derived grid size.  Both configured: both are used.  One
    configured: it is used for both.  None configured: both are the value
    derived on line 117 (after [int()]). *)
Theorem dimension_precedence (cfg : Config.t) (max_baseline : R) :
  imaging_dimension cfg max_baseline =
  match Config.dimension cfg, Config.elements cfg with
  | Some d, Some e => ret (d, e)
  | Some d, None => ret (d, d)
  | None, Some e => ret (e, e)
  | None, None =>
      derived <- derived_dimension cfg max_baseline ;;
      ret (py_int derived, py_int derived)
  end.
Proof.
  unfold imaging_dimension, config_int.
  destruct (Config.dimension cfg) as [d | ], (Config.elements cfg) as [e | ];
    cbn [option_map is_None negb andb py_int_value py_int];
    rewrite ?bind_ret; try reflexivity.
  destruct (derived_dimension cfg max_baseline) as [l [p | ex]]; cbn; [ | reflexivity ].
  now rewrite !app_nil_r.
Qed.

Lemma ln_2_pos : 0 < ln 2.
Proof. rewrite <- ln_1. apply ln_increasing; lra. Qed.

Lemma ln_10_pos : 0 < ln 10.
Proof. rewrite <- ln_1. apply ln_increasing; lra. Qed.

Lemma ln_powerRZ_2 (k : Z) : ln (powerRZ 2 k) = IZR k * ln 2.
Proof. rewrite powerRZ_Rpower by lra. apply ln_Rpower. Qed.

(** [log10 x / log10 2] is the binary logarithm. *)
Lemma log10_quotient (x : R) : log10 x / log10 2 = ln x / ln 2.
Proof.
  unfold log10. assert (H2 := ln_2_pos). assert (H10 := ln_10_pos).
  field; lra.
Qed.

(** The floor of the binary logarithm picks the power of two at or below. *)
Lemma Zfloor_log2 (x : R) (k : Z) :
  powerRZ 2 k <= x < powerRZ 2 (k + 1) -> Zfloor (ln x / ln 2) = k.
Proof.
  intros [Hlo Hhi]. assert (H2 := ln_2_pos).
  assert (Hp : 0 < powerRZ 2 k) by (apply powerRZ_lt; lra).
  assert (Hx : 0 < x) by lra.
  apply Zfloor_eq; split.
  - apply Rmult_le_reg_r with (ln 2); [ exact H2 | ].
    unfold Rdiv; rewrite Rmult_assoc, Rinv_l, Rmult_1_r by lra.
    rewrite <- ln_powerRZ_2.
    destruct Hlo as [Hlt | Heq]; [ left; now apply ln_increasing | right; now rewrite Heq ].
  - apply Rmult_lt_reg_r with (ln 2); [ exact H2 | ].
    unfold Rdiv; rewrite Rmult_assoc, Rinv_l, Rmult_1_r by lra.
    replace ((IZR k + 1) * ln 2) with (IZR (k + 1) * ln 2) by (rewrite plus_IZR; ring).
    rewrite <- ln_powerRZ_2. now apply ln_increasing.
Qed.

Lemma Zfloor_log2_bounds (x : R) :
  0 < x ->
  powerRZ 2 (Zfloor (ln x / ln 2)) <= x < powerRZ 2 (Zfloor (ln x / ln 2) + 1).
Proof.
  intros Hx. assert (H2 := ln_2_pos).
  destruct (Zfloor_bound (ln x / ln 2)) as [Hlo Hhi].
  set (k := Zfloor (ln x / ln 2)) in *.
  assert (Hlo' : IZR k * ln 2 <= ln x).
  { apply Rmult_le_compat_r with (r := ln 2) in Hlo; [ | lra ].
    unfold Rdiv in Hlo; rewrite Rmult_assoc, Rinv_l, Rmult_1_r in Hlo; lra. }
  assert (Hhi' : ln x < IZR (k + 1) * ln 2).
  { apply Rmult_lt_compat_r with (r := ln 2) in Hhi; [ | lra ].
    unfold Rdiv in Hhi; rewrite Rmult_assoc, Rinv_l, Rmult_1_r in Hhi by lra.
    rewrite plus_IZR; lra. }
  rewrite <- !ln_powerRZ_2 in *.
  split.
  - destruct Hlo' as [Hlt | Heq].
    + left. apply ln_lt_inv; [ apply powerRZ_lt; lra | exact Hx | exact Hlt ].
    + right. apply ln_inv; [ apply powerRZ_lt; lra | exact Hx | exact Heq ].
  - apply ln_lt_inv; [ exact Hx | apply powerRZ_lt; lra | exact Hhi' ].
Qed.

Lemma IZR_pow2 (n : Z) : (0 <= n)%Z -> IZR (2 ^ n) = powerRZ 2 n.
Proof.
  intros Hn. rewrite <- (Z2Nat.id n Hn) at 1.
  rewrite <- pow_IZR. destruct n as [ | p | p ]; [ reflexivity | | lia ].
  reflexivity.
Qed.

(** Line 117 for a quotient of at least one: the exponent is the floor of
    the binary logarithm. *)
Lemma derived_dimension_floor (cfg : Config.t) (max_baseline k : R) :
  Config.kbinsize cfg = Some k ->
  0 < k ->
  1 <= 2 * max_baseline / k ->
  derived_dimension cfg max_baseline =
    ret (PyInt (2 ^ Zfloor (ln (2 * max_baseline / k) / ln 2))).
Proof.
  intros Hk Hpos Hratio. unfold derived_dimension. rewrite Hk.
  rewrite Reqb_false by lra. rewrite Rleb_false by lra.
  rewrite log10_quotient. assert (H2 := ln_2_pos).
  assert (Hlog : 0 <= ln (2 * max_baseline / k) / ln 2).
  { apply Rmult_le_reg_r with (ln 2); [ exact H2 | ].
    unfold Rdiv at 1; rewrite Rmult_assoc, Rinv_l, Rmult_0_l, Rmult_1_r by lra.
    rewrite <- ln_1. destruct Hratio as [Hlt | <-]; [ left; apply ln_increasing; lra | right; reflexivity ]. }
  cbn [py_int]. unfold trunc. rewrite Rleb_true by exact Hlog.
  unfold py_pow2.
  assert (Hz : (0 <= Zfloor (ln (2 * max_baseline / k) / ln 2))%Z)
    by (apply Zfloor_lub; exact Hlog).
  apply Z.leb_le in Hz. now rewrite Hz.
Qed.

Lemma imaging_dimension_derived (cfg : Config.t) (max_baseline : R) :
  Config.dimension cfg = None ->
  Config.elements cfg = None ->
  imaging_dimension cfg max_baseline =
    (derived <- derived_dimension cfg max_baseline ;;
     ret (py_int derived, py_int derived)).
Proof.
  intros Hd He. unfold imaging_dimension, config_int. rewrite Hd, He.
  cbn [option_map is_None andb].
  destruct (derived_dimension cfg max_baseline) as [l [p | ex]]; cbn; [ | reflexivity ].
  now rewrite !app_nil_r.
Qed.

Lemma fold_left_Rmax_is_maximum (l : list R) (x : R) :
  is_maximum (fold_left Rmax l x) (x :: l).
Proof.
  revert x; induction l as [ | y l IH]; intros x; cbn [fold_left].
  - split; [ now left | intros z [<- | []]; lra ].
  - destruct (IH (Rmax x y)) as [Hin Hub]. split.
    + destruct Hin as [Heq | Hin].
      * rewrite <- Heq. unfold Rmax; destruct (Rle_dec x y); [ right; now left | now left ].
      * right; now right.
    + intros z [Hz | [Hz | Hz]].
      * subst z. apply Rle_trans with (Rmax x y); [ apply Rmax_l | apply Hub; now left ].
      * subst z. apply Rle_trans with (Rmax x y); [ apply Rmax_r | apply Hub; now left ].
      * apply Hub; now right.
Qed.

Lemma np_max_R_is_maximum (l : list R) lg m :
  np_max_R l = (lg, Ok m) -> is_maximum m l.
Proof.
  destruct l as [ | x l]; cbn; [ discriminate | ].
  intros H; apply ret_inv in H as [_ <-]. apply fold_left_Rmax_is_maximum.
Qed.

Lemma is_maximum_app (a b : R) (l1 l2 : list R) :
  is_maximum a l1 -> is_maximum b l2 -> is_maximum (Rmax a b) (l1 ++ l2).
Proof.
  intros [Ha Hua] [Hb Hub]. split.
  - apply in_or_app. unfold Rmax; destruct (Rle_dec a b); [ now right | now left ].
  - intros x Hx. apply in_app_or in Hx as [Hx | Hx].
    + apply Rle_trans with a; [ now apply Hua | apply Rmax_l ].
    + apply Rle_trans with b; [ now apply Hub | apply Rmax_r ].
Qed.

(** Lines 102-105: [max_baseline] is the largest of all [|kx|] and [|ky|],
    the products of a frequency with a baseline coordinate. *)
Lemma baseline_extent_max (freq uu vv : list R) lg kx ky kr mb :
  baseline_extent freq uu vv = (lg, Ok (kx, ky, kr, mb)) ->
  kx = np_outer freq uu /\ ky = np_outer freq vv /\
  is_maximum mb (map Rabs (concat (np_outer freq uu))
                 ++ map Rabs (concat (np_outer freq vv))).
Proof.
  unfold baseline_extent; intros H.
  bind_inv H as kr' Hkr. bind_inv H as max_kx Hkx. bind_inv H as max_ky Hky.
  apply ret_inv in H as [_ Heq]. injection Heq as <- <- <- <-.
  split; [ reflexivity | split; [ reflexivity | ] ].
  rewrite py_max_R_Rmax. apply is_maximum_app; eapply np_max_R_is_maximum; eassumption.
Qed.

(** C5 does not hold as the specification words it ("the nearest
    power-of-two covering twice the maximum baseline length divided by
    resolution").  With [kbinsize = 1] and a longest baseline of 3/2
    wavelengths the quotient is 3; the derived [dimension] is 2, which
    does not cover it (the smallest power of two that does is 4). *)
Lemma derived_dimension_does_not_cover :
  imaging_dimension derived_grid_config (3 / 2) = ret (2, 2)%Z /\
  ~ 2 * (3 / 2) / 1 <= IZR 2.
Proof.
  split; [ | lra ].
  rewrite imaging_dimension_derived by reflexivity.
  rewrite (derived_dimension_floor _ _ 1) by (try reflexivity; lra).
  rewrite bind_ret. cbn [py_int].
  rewrite (Zfloor_log2 _ 1); [ reflexivity | ].
  simpl; lra.
Qed.

(** C5, amended: with neither [dimension] nor [elements] configured, a
    configured positive [kbinsize] and a quotient [2 * max_baseline /
    kbinsize] of at least one, [max_baseline] is the largest [|kx|] or
    [|ky|] over all frequency-baseline products and [obs['dimension']] is
    the largest power of two that does not exceed the quotient;
    [obs['elements']] is the same number. *)
Theorem derived_dimension_rounds_down
    (cfg : Config.t) (freq uu vv : list R) (k : R) lg kx ky kr max_baseline :
  Config.dimension cfg = None ->
  Config.elements cfg = None ->
  Config.kbinsize cfg = Some k ->
  0 < k ->
  baseline_extent freq uu vv = (lg, Ok (kx, ky, kr, max_baseline)) ->
  1 <= 2 * max_baseline / k ->
  is_maximum max_baseline
    (map Rabs (concat (np_outer freq uu)) ++ map Rabs (concat (np_outer freq vv))) /\
  exists n : Z,
    (0 <= n)%Z /\
    imaging_dimension cfg max_baseline = ret (2 ^ n, 2 ^ n)%Z /\
    IZR (2 ^ n) <= 2 * max_baseline / k < IZR (2 ^ (n + 1)).
Proof.
  intros Hd He Hk Hpos Hext Hratio. split.
  - now apply baseline_extent_max in Hext.
  - set (r := 2 * max_baseline / k) in *.
    exists (Zfloor (ln r / ln 2)).
    assert (H2 := ln_2_pos).
    assert (Hn : (0 <= Zfloor (ln r / ln 2))%Z).
    { apply Zfloor_lub. apply Rmult_le_reg_r with (ln 2); [ exact H2 | ].
      unfold Rdiv at 1; rewrite Rmult_assoc, Rinv_l, Rmult_0_l, Rmult_1_r by lra.
      rewrite <- ln_1.
      destruct Hratio as [Hlt | <-]; [ left; apply ln_increasing; lra | right; reflexivity ]. }
    split; [ exact Hn | split ].
    + rewrite imaging_dimension_derived by assumption.
      rewrite (derived_dimension_floor _ _ k) by assumption.
      now rewrite bind_ret.
    + rewrite !IZR_pow2 by lia. apply Zfloor_log2_bounds. lra.
Qed.

Lemma derived_dimension_rounds_down_witness :
  exists lg kx ky kr max_baseline n,
    baseline_extent [1] [3 / 2] [0] = (lg, Ok (kx, ky, kr, max_baseline)) /\
    1 <= 2 * max_baseline / 1 /\
    imaging_dimension derived_grid_config max_baseline = ret (2 ^ n, 2 ^ n)%Z /\
    IZR (2 ^ n) <= 2 * max_baseline / 1 < IZR (2 ^ (n + 1)).
Proof.
  assert (Hext : baseline_extent [1] [3 / 2] [0]
                 = ([], Ok (np_outer [1] [3 / 2], np_outer [1] [0],
                            [[sqrt ((1 * (3 / 2)) ^ 2 + (1 * 0) ^ 2)]],
                            py_max_R (Rabs (1 * (3 / 2))) (Rabs (1 * 0))))) by reflexivity.
  assert (Hmb : py_max_R (Rabs (1 * (3 / 2))) (Rabs (1 * 0)) = 3 / 2).
  { rewrite py_max_R_Rmax, Rmult_0_r, Rabs_R0, Rmult_1_l.
    rewrite Rabs_pos_eq by lra. apply Rmax_left; lra. }
  assert (Hratio : 1 <= 2 * py_max_R (Rabs (1 * (3 / 2))) (Rabs (1 * 0)) / 1)
    by (rewrite Hmb; lra).
  destruct (derived_dimension_rounds_down derived_grid_config [1] [3 / 2] [0] 1 _ _ _ _ _
              eq_refl eq_refl eq_refl Rlt_0_1 Hext Hratio)
    as (_ & n & _ & Hdim & Hbounds).
  now exists [], (np_outer [1] [3 / 2]), (np_outer [1] [0]),
         [[sqrt ((1 * (3 / 2)) ^ 2 + (1 * 0) ^ 2)]],
         (py_max_R (Rabs (1 * (3 / 2))) (Rabs (1 * 0))), n.
Defined.

(* ================================================================== *)
(** * Tile pairing *)
(* ================================================================== *)

(** Lines 74-79 with both maxima positive. *)
Lemma resolve_tiles_explicit (hdr : Header.t) (params : Params.t) (m1 m2 : pynum) :
  np_max (Params.antenna1 params) = ret m1 ->
  0 < to_R m1 ->
  np_max (Params.antenna2 params) = ret m2 ->
  0 < to_R m2 ->
  resolve_tiles hdr params =
    ret (Tiles (Params.antenna1 params) (Params.antenna2 params)
               (py_max m1 m2) params false).
Proof.
  intros H1 P1 H2 P2. unfold resolve_tiles, has_antenna_columns.
  rewrite H1, bind_ret, (Rltb_true _ _ P1), H2, !bind_ret, (Rltb_true _ _ P2).
  reflexivity.
Qed.

(** What lines 34-138 keep of the tile columns: [baseline_info] holds the
    two columns [resolve_tiles] returned, [obs] the tile count, and
    [params] is the one it left. *)
Lemma obs_before_metafits_tiles (hdr : Header.t) (params : Params.t) (cfg : Config.t)
    lg obs baseline_info params' :
  obs_before_metafits hdr params cfg = (lg, Ok (obs, baseline_info, params')) ->
  exists l t,
    resolve_tiles hdr params = (l, Ok t) /\
    BaselineInfo.tile_A baseline_info = tile_A t /\
    BaselineInfo.tile_B baseline_info = tile_B t /\
    Obs.n_tile obs = tiles_n_tile t /\
    params' = tiles_params t.
Proof.
  unfold obs_before_metafits; intros H.
  bind_inv H as [[n_time bin_width] bin_offset] Htime.
  bind_inv H as n_vis_arr Hvis.
  bind_inv H as [[beam fbin_i] freq_center] Hfreq.
  bind_inv H as t Htiles.
  bind_inv H as [[[kx ky] kr] max_baseline] Hext.
  bind_inv H as kbinsize Hk.
  bind_inv H as [dimension elements] Hdim.
  bind_inv H as degpix Hdeg.
  bind_inv H as [longest shortest] Hlim.
  apply ret_inv in H as [_ Heq]. injection Heq as <- <- <-.
  do 2 eexists. split; [ eassumption | now cbn ].
Qed.

(** C8: when both antenna columns have a positive maximum, the tile
    columns are the antenna columns themselves, [params] is left as it
    was, nothing is logged and the packed branch does not run
    ([antenna_flag] ends [False]); [baseline_info['tile_A']] and
    [baseline_info['tile_B']] are these columns when [read_metafits] is
    called. *)
Theorem explicit_antenna_columns (hdr : Header.t) (params : Params.t) (m1 m2 : pynum) :
  np_max (Params.antenna1 params) = ret m1 ->
  0 < to_R m1 ->
  np_max (Params.antenna2 params) = ret m2 ->
  0 < to_R m2 ->
  resolve_tiles hdr params =
    ret (Tiles (Params.antenna1 params) (Params.antenna2 params)
               (py_max m1 m2) params false) /\
  forall cfg lg obs baseline_info params',
    obs_before_metafits hdr params cfg = (lg, Ok (obs, baseline_info, params')) ->
    BaselineInfo.tile_A baseline_info = Params.antenna1 params /\
    BaselineInfo.tile_B baseline_info = Params.antenna2 params /\
    params' = params.
Proof.
  intros H1 P1 H2 P2.
  assert (Hres := resolve_tiles_explicit hdr params m1 m2 H1 P1 H2 P2).
  split; [ exact Hres | ].
  intros cfg lg obs baseline_info params' Hrun.
  apply obs_before_metafits_tiles in Hrun as (l & t & Ht & HA & HB & _ & Hp).
  rewrite Hres in Ht. apply ret_inv in Ht as [_ <-].
  now rewrite HA, HB, Hp.
Qed.

Lemma explicit_antenna_columns_witness :
  resolve_tiles small_header two_baselines =
    ret (Tiles (IntArr [1; 2]%Z) (IntArr [2; 3]%Z) (PyInt 3) two_baselines false).
Proof.
  assert (H := proj1 (explicit_antenna_columns small_header two_baselines (PyInt 2) (PyInt 3)
                        eq_refl ltac:(cbn; lra) eq_refl ltac:(cbn; lra))).
  replace (py_max (PyInt 2) (PyInt 3)) with (PyInt 3) in H; [ exact H | ].
  unfold py_max; cbn [to_R]. now rewrite Rltb_true by lra.
Defined.

Lemma antenna_mod_index_pos (baseline_min : R) : 0 < antenna_mod_index baseline_min.
Proof.
  unfold antenna_mod_index.
  assert (P : forall z, 0 < powerRZ 2 z) by (intros z; apply powerRZ_lt; lra).
  destruct (_ && _); [ apply Rdiv_lt_0_compat; apply P | apply P ].
Qed.

(** [np.floor] and [np.fix] agree on a non-negative quotient. *)
Lemma floor_fix_nonneg (b m : R) :
  0 < m -> 0 <= b -> np_floor (b / m) = trunc (b / m).
Proof.
  intros Hm Hb. unfold np_floor, trunc. rewrite Rleb_true; [ reflexivity | ].
  apply Rmult_le_reg_r with m; [ exact Hm | ].
  unfold Rdiv; rewrite Rmult_assoc, Rinv_l; lra.
Qed.

Lemma fold_left_Rmin_is_minimum (l : list R) (x : R) :
  is_minimum (fold_left Rmin l x) (x :: l).
Proof.
  revert x; induction l as [ | y l IH]; intros x; cbn [fold_left].
  - split; [ now left | intros z [<- | []]; lra ].
  - destruct (IH (Rmin x y)) as [Hin Hlb]. split.
    + destruct Hin as [Heq | Hin].
      * rewrite <- Heq. unfold Rmin; destruct (Rle_dec x y); [ now left | right; now left ].
      * right; now right.
    + intros z [Hz | [Hz | Hz]].
      * subst z. apply Rle_trans with (Rmin x y); [ apply Hlb; now left | apply Rmin_l ].
      * subst z. apply Rle_trans with (Rmin x y); [ apply Hlb; now left | apply Rmin_r ].
      * apply Hlb; now right.
Qed.

Lemma np_min_R_is_minimum (l : list R) lg m :
  np_min_R l = (lg, Ok m) -> is_minimum m l.
Proof.
  destruct l as [ | x l]; cbn; [ discriminate | ].
  intros H; apply ret_inv in H as [_ <-]. apply fold_left_Rmin_is_minimum.
Qed.

(** What a returning run of the packed branch has computed. *)
Lemma decode_baselines_inv (n_tile : pynum) (params : Params.t) lg t :
  decode_baselines n_tile params = (lg, Ok t) ->
  exists baseline_min,
    is_minimum baseline_min (Params.baseline_arr params) /\
    0 < baseline_min /\
    tile_A t = decode_tile_A (Params.baseline_arr params) (antenna_mod_index baseline_min) /\
    tile_B t = decode_tile_B (Params.baseline_arr params) (antenna_mod_index baseline_min) /\
    tiles_params t = Params.set_antennas params (tile_A t) (tile_B t) /\
    antenna_flag t = true.
Proof.
  unfold decode_baselines; intros H. bind_inv H as baseline_min Hmin.
  exists baseline_min. apply np_min_R_is_minimum in Hmin.
  unfold Rleb in H. destruct (Rle_dec baseline_min 0) as [Hle | Hgt]; [ discriminate | ].
  bind_inv H as max_A HA. bind_inv H as max_B HB. bind_inv H as n HN.
  apply ret_inv in H as [_ <-]. cbn.
  split; [ exact Hmin | split; [ lra | easy ] ].
Qed.

Lemma resolve_tiles_packed_inv (hdr : Header.t) (params : Params.t) lg t :
  resolve_tiles hdr params = (lg, Ok t) ->
  antenna_flag t = true ->
  exists lg', decode_baselines (PyInt (Header.n_tile hdr)) params = (lg', Ok t).
Proof.
  unfold resolve_tiles; intros H Hflag. bind_inv H as explicit Hex.
  destruct explicit.
  - bind_inv H as max_A HA. bind_inv H as max_B HB.
    apply ret_inv in H as [_ <-]. discriminate.
  - now exists l0.
Qed.

(** C3: in the packed branch the two decoded tile columns agree at every
    non-negative baseline number, since [np.floor] and [np.fix] agree on a
    non-negative quotient; in a run that returns they are the same column,
    so that no baseline pairs two distinct tiles. *)
Theorem packed_tiles_coincide (hdr : Header.t) (params : Params.t) lg t :
  resolve_tiles hdr params = (lg, Ok t) ->
  antenna_flag t = true ->
  (forall i b,
      nth_error (Params.baseline_arr params) i = Some b ->
      0 <= b ->
      exists a,
        nth_error (values (tile_A t)) i = Some a /\
        nth_error (values (tile_B t)) i = Some a) /\
  tile_A t = tile_B t.
Proof.
  intros Hrun Hflag.
  destruct (resolve_tiles_packed_inv _ _ _ _ Hrun Hflag) as [lg' Hdec].
  destruct (decode_baselines_inv _ _ _ _ Hdec) as (bmin & Hmin & Hpos & HA & HB & _ & _).
  assert (Hm := antenna_mod_index_pos bmin).
  rewrite HA, HB. unfold decode_tile_A, decode_tile_B. split.
  - intros i b Hi Hb. exists (IZR (np_floor (b / antenna_mod_index bmin))).
    cbn [values]. rewrite !nth_error_map, Hi. cbn [option_map].
    now rewrite (floor_fix_nonneg _ _ Hm Hb).
  - f_equal. apply map_ext_in. intros b Hb.
    rewrite (floor_fix_nonneg _ _ Hm); [ reflexivity | ].
    destruct Hmin as [_ Hlb]. specialize (Hlb b Hb). lra.
Qed.

Lemma Zfloor_quotient (a b : R) (z : Z) :
  0 < b -> IZR z * b <= a < (IZR z + 1) * b -> Zfloor (a / b) = z.
Proof.
  intros Hb [Hlo Hhi]. apply Zfloor_eq; split.
  - apply Rmult_le_reg_r with b; [ exact Hb | ].
    unfold Rdiv; rewrite Rmult_assoc, Rinv_l; lra.
  - apply Rmult_lt_reg_r with b; [ exact Hb | ].
    unfold Rdiv; rewrite Rmult_assoc, Rinv_l; lra.
Qed.

Lemma trunc_quotient (a b : R) (z : Z) :
  0 < b -> 0 <= a -> IZR z * b <= a < (IZR z + 1) * b -> trunc (a / b) = z.
Proof.
  intros Hb Ha H. rewrite <- (floor_fix_nonneg a b Hb Ha).
  now apply Zfloor_quotient.
Qed.

Lemma antenna_mod_index_258 : antenna_mod_index 258 = 256.
Proof.
  unfold antenna_mod_index, np_floor.
  rewrite (Zfloor_log2 258 8) by (simpl; lra).
  replace (powerRZ 2 8) with 256 by (simpl; lra).
  assert (H1 : np_mod 258 256 = 2).
  { unfold np_mod. rewrite (Zfloor_quotient 258 256 1) by lra. lra. }
  assert (H2 : np_mod 258 2 = 0).
  { unfold np_mod. rewrite (Zfloor_quotient 258 2 129) by lra. lra. }
  rewrite H1, H2, (Reqb_false 0 1) by lra. now rewrite andb_false_r.
Qed.

(** The packed numbers 258 = 256 * 1 + 2 and 515 = 256 * 2 + 3 stand for
    the tile pairs (1, 2) and (2, 3); both decoded columns hold the first
    tile of each pair. *)
Lemma packed_example_run :
  resolve_tiles small_header packed_baselines =
    ([LogRecord WARNING (MismatchedTiles (PyInt 3) (PyFloat 2))],
     Ok (Tiles (FloatArr [1; 2]) (FloatArr [1; 2]) (PyFloat 2)
               (Params.set_antennas packed_baselines (FloatArr [1; 2]) (FloatArr [1; 2]))
               true)).
Proof.
  assert (Hcols : has_antenna_columns packed_baselines = ret false).
  { unfold has_antenna_columns, packed_baselines; cbn [Params.antenna1 np_max fold_left].
    rewrite bind_ret. cbn [to_R]. change (Z.max 0 0) with 0%Z. now rewrite Rltb_false by lra. }
  assert (Hmin : np_min_R (Params.baseline_arr packed_baselines) = ret 258).
  { cbn [packed_baselines Params.baseline_arr np_min_R fold_left]. now rewrite Rmin_left by lra. }
  assert (HA : decode_tile_A (Params.baseline_arr packed_baselines) 256 = FloatArr [1; 2]).
  { unfold decode_tile_A, np_floor; cbn [packed_baselines Params.baseline_arr map].
    rewrite (Zfloor_quotient 258 256 1), (Zfloor_quotient 515 256 2) by lra. reflexivity. }
  assert (HB : decode_tile_B (Params.baseline_arr packed_baselines) 256 = FloatArr [1; 2]).
  { unfold decode_tile_B; cbn [packed_baselines Params.baseline_arr map].
    rewrite (trunc_quotient 258 256 1), (trunc_quotient 515 256 2) by lra. reflexivity. }
  unfold resolve_tiles. rewrite Hcols, bind_ret. unfold decode_baselines.
  rewrite Hmin, bind_ret, (Rleb_false 258 0), antenna_mod_index_258, HA, HB by lra.
  cbn [np_max np_max_R fold_left]. rewrite !bind_ret.
  replace (py_max (PyFloat (Rmax 1 2)) (PyFloat (Rmax 1 2))) with (PyFloat 2).
  2:{ unfold py_max; cbn [to_R]. rewrite Rmax_right by lra. now rewrite Rltb_false by lra. }
  cbn [to_R small_header Header.n_tile]. rewrite (Reqb_false 2 3) by lra.
  reflexivity.
Qed.

Lemma packed_tiles_coincide_witness :
  exists lg t,
    resolve_tiles small_header packed_baselines = (lg, Ok t) /\
    antenna_flag t = true /\
    tile_A t = tile_B t.
Proof.
  eexists _, _. split; [ exact packed_example_run | split; [ reflexivity | ] ].
  exact (proj2 (packed_tiles_coincide small_header packed_baselines _ _
                  packed_example_run eq_refl)).
Defined.

(* ================================================================== *)
(** * The slant orthographic projection *)
(* ================================================================== *)



Section Projection.

Context {astronomy : Astronomy}.



End Projection.



(* ================================================================== *)
(** * The metadata reader *)
(* ================================================================== *)

(** ** Index arrays *)

Lemma np_take_at {A} (pre : list A) (x : A) (post : list A) :
  nth_error (pre ++ x :: post) (length pre) = Some x.
Proof. induction pre as [ | y pre IH]; cbn; [ reflexivity | exact IH ]. Qed.

(** Reading at the positions [np.where] returns never leaves the array,
    and gives the selected elements in order. *)
Lemma np_take_where_from {A B} (f : A -> B) (p : A -> bool) (l pre : list A) :
  np_take (map f (pre ++ l)) (where_from p (length pre) l) = ret (map f (filter p l)).
Proof.
  revert pre; induction l as [ | x l IH]; intros pre; cbn [where_from filter].
  - reflexivity.
  - assert (Hstep : np_take (map f (pre ++ x :: l)) (where_from p (S (length pre)) l)
                    = ret (map f (filter p l))).
    { specialize (IH (pre ++ [x])). rewrite <- app_assoc, length_app in IH.
      cbn in IH. now rewrite Nat.add_1_r in IH. }
    destruct (p x); [ | exact Hstep ].
    cbn [np_take map]. rewrite map_app. cbn [map].
    rewrite <- (length_map f pre), np_take_at, length_map.
    rewrite <- (map_app f pre (x :: l)) at 1. cbn [map] in Hstep.
    rewrite map_app in Hstep. cbn [map] in Hstep. rewrite map_app. cbn [map].
    rewrite Hstep. now rewrite bind_ret.
Qed.

Lemma np_take_where {A B} (f : A -> B) (p : A -> bool) (l : list A) :
  np_take (map f l) (np_where p l) = ret (map f (filter p l)).
Proof. exact (np_take_where_from f p l []). Qed.

Lemma np_take_in_range {A} (a : list A) (idx : list nat) :
  Forall (fun i => (i < length a)%nat) idx ->
  exists xs, np_take a idx = ret xs /\ length xs = length idx.
Proof.
  induction 1 as [ | i idx Hi _ (xs & Hxs & Hlen)]; cbn [np_take].
  - now exists [].
  - destruct (nth_error a i) as [x | ] eqn:Hx.
    + exists (x :: xs). rewrite Hxs, bind_ret. cbn. now rewrite Hlen.
    + apply nth_error_None in Hx. lia.
Qed.

(** ** The time steps *)

Lemma argunique_from_range (l : list R) (i : nat) :
  Forall (fun z => (Z.of_nat i <= z < Z.of_nat (i + length l))%Z) (argunique_from i l).
Proof.
  revert i; induction l as [ | x l IH]; intros i; cbn [argunique_from].
  - constructor.
  - assert (Htail : Forall (fun z => (Z.of_nat i <= z < Z.of_nat (i + length (x :: l)))%Z)
                           (argunique_from (S i) l)).
    { eapply Forall_impl; [ | apply IH ]. cbn [length]. intros z Hz. lia. }
    destruct l as [ | y l'].
    + constructor; [ cbn [length]; lia | constructor ].
    + destruct (Reqb x y); [ exact Htail | ].
      constructor; [ cbn [length]; lia | exact Htail ].
Qed.

Lemma argunique_from_nonempty (l : list R) (i : nat) :
  l <> [] -> argunique_from i l <> [].
Proof.
  revert i; induction l as [ | x l IH]; intros i Hl; [ easy | ].
  cbn [argunique_from]. destruct l as [ | y l']; [ easy | ].
  destruct (Reqb x y); [ apply IH; easy | easy ].
Qed.

(** Lines 168-173 run whenever there is a visibility. *)
Lemma julian_dates (time : list R) :
  time <> [] ->
  exists jdate JD0,
    np_take time (map Z.to_nat (idl_argunique time)) = ret jdate /\
    np_min_R jdate = ret JD0.
Proof.
  intros Htime.
  destruct (np_take_in_range time (map Z.to_nat (idl_argunique time))) as (jdate & Hj & Hlen).
  { apply Forall_map. eapply Forall_impl; [ | apply argunique_from_range ].
    cbn beta. intros z Hz. lia. }
  assert (Hne : jdate <> []).
  { intros ->. rewrite length_map in Hlen. cbn in Hlen.
    apply (argunique_from_nonempty time 0 Htime). now apply length_zero_iff_nil. }
  destruct jdate as [ | j jdate]; [ easy | ].
  now exists (j :: jdate), (fold_left Rmin jdate j).
Qed.

(** ** The tile table *)

Lemma insert_row_perm (r : Metafits.row) (l : list Metafits.row) :
  Permutation (r :: l) (insert_row r l).
Proof.
  induction l as [ | r' l IH]; cbn [insert_row]; [ reflexivity | ].
  destruct (Metafits.Antenna r' <=? Metafits.Antenna r)%Z; [ | reflexivity ].
  rewrite perm_swap. now apply perm_skip.
Qed.

Lemma sort_by_antenna_perm (l : list Metafits.row) : Permutation l (sort_by_antenna l).
Proof.
  unfold sort_by_antenna.
  enough (H : forall acc, Permutation (l ++ acc)
                            (fold_left (fun acc r => insert_row r acc) l acc)).
  { specialize (H []). now rewrite app_nil_r in H. }
  induction l as [ | r l IH]; intros acc; cbn [fold_left app]; [ reflexivity | ].
  rewrite <- IH. rewrite <- insert_row_perm. apply Permutation_middle.
Qed.

Lemma fold_left_add_from (l : list Z) (a : Z) :
  fold_left Z.add l a = (a + np_sum l)%Z.
Proof.
  unfold np_sum. revert a; induction l as [ | x l IH]; intros a; cbn [fold_left]; [ lia | ].
  rewrite (IH (a + x)%Z), (IH (0 + x)%Z). lia.
Qed.

Lemma np_sum_cons (x : Z) (l : list Z) : np_sum (x :: l) = (x + np_sum l)%Z.
Proof. unfold np_sum at 1; cbn [fold_left]. now rewrite fold_left_add_from. Qed.

Lemma np_sum_perm (l l' : list Z) : Permutation l l' -> np_sum l = np_sum l'.
Proof.
  induction 1 as [ | x l l' _ IH | x y l | l l' l'' _ IH1 _ IH2 ].
  - reflexivity.
  - now rewrite !np_sum_cons, IH.
  - rewrite !np_sum_cons. lia.
  - now rewrite IH1.
Qed.

Lemma np_sum_n_flagged (flags : list Z) :
  flags_01 flags -> np_sum flags = Z.of_nat (n_flagged flags).
Proof.
  unfold n_flagged. induction 1 as [ | f flags Hf _ IH]; [ reflexivity | ].
  rewrite np_sum_cons, IH. cbn [filter].
  destruct Hf as [-> | ->]; cbn [Z.eqb Pos.eqb length]; lia.
Qed.

Example sort_by_antenna_example :
  map (fun r => (Metafits.Antenna r, Metafits.pol r))
      (sort_by_antenna (Metafits.data example_metafits))
  = [(1, "X"); (1, "Y"); (2, "X"); (2, "Y")]%Z%string.
Proof. reflexivity. Qed.

Example split_on_example :
  split_on ","%char "0,0,0,0" = ["0"; "0"; "0"; "0"]%string.
Proof. reflexivity. Qed.

(** Lines 187-192, case by case. *)
Lemma check_tile_flags_cases (cfg : Config.t) (tile_flag : list Z) :
  check_tile_flags cfg tile_flag =
    if (np_sum tile_flag =? Z.of_nat (length tile_flag) - 1)%Z then
      if Config.run_simulation cfg
      then ([LogRecord WARNING all_flagged_message], Ok tt)
      else ([LogRecord ERROR all_flagged_message], Raise SystemExit)
    else ([], Ok tt).
Proof.
  unfold check_tile_flags.
  destruct (_ =? _)%Z; [ | reflexivity ].
  now destruct (Config.run_simulation cfg).
Qed.

(** Lines 177-198 as one run of the flag check followed by the record. *)
Lemma metafits_branch_run (hdr : Header.t) (cfg : Config.t) (metadata : Metafits.file) :
  Metafits.data metadata <> [] ->
  exists names heights,
    metafits_branch hdr cfg metadata =
      (check_tile_flags cfg (map Metafits.flag (sort_by_antenna (Metafits.data metadata))) ;;;
       ret (TileMeta names heights
              (map Metafits.flag (sort_by_antenna (Metafits.data metadata)))
              (Metafits.RA metadata) (Metafits.DEC metadata)
              (Metafits.RAPHASE metadata) (Metafits.DECPHASE metadata)
              (Metafits.INTTIME metadata)
              (Some (split_on ","%char (Metafits.DELAYS metadata))))).
Proof.
  intros Hdata. unfold metafits_branch.
  assert (Hperm := sort_by_antenna_perm (Metafits.data metadata)).
  destruct (sort_by_antenna (Metafits.data metadata)) as [ | first rest] eqn:Hsort.
  - apply Permutation_sym, Permutation_nil in Hperm. contradiction.
  - rewrite !np_take_where, !bind_ret. eexists _, _. reflexivity.
Qed.

Section Reader.

Context {astronomy : Astronomy}.

(** [read_metafits] ends as its branch does: with the branch's log and a
    record holding what the branch wrote, or with its exception. *)
Lemma read_metafits_returns (obs : Obs.t) (hdr : Header.t) (params : Params.t)
    (cfg : Config.t) (fs : filesystem) lg tm :
  Params.time params <> [] ->
  match metafits_of cfg fs with
  | Some metadata => metafits_branch hdr cfg metadata
  | None => header_branch obs hdr params (idl_argunique (Params.time params))
  end = (lg, Ok tm) ->
  exists meta,
    read_metafits obs hdr params cfg fs = (lg, Ok meta) /\
    Meta.tile_flag meta = tm_tile_flag tm /\
    Meta.tile_names meta = tm_tile_names tm /\
    Meta.delays meta = tm_delays tm.
Proof.
  intros Htime Hbranch. unfold read_metafits.
  destruct (julian_dates _ Htime) as (jdate & JD0 & Hj & Hmin).
  rewrite Hj, bind_ret, Hmin, bind_ret.
  rewrite Hbranch, bind_Ok.
  destruct (altaz_to_radec _ _ _ _ _ _) as [zenra zendec].
  destruct (project_slant_orthographic _ _ _) as [[astr zenx] zeny].
  destruct (radec_to_altaz _ _ _ _ _ _) as [obsalt obsaz].
  cbn [ret fst snd]. rewrite app_nil_r. eexists. split; [ reflexivity | ].
  now cbn.
Qed.

Lemma read_metafits_raises (obs : Obs.t) (hdr : Header.t) (params : Params.t)
    (cfg : Config.t) (fs : filesystem) lg e :
  Params.time params <> [] ->
  match metafits_of cfg fs with
  | Some metadata => metafits_branch hdr cfg metadata
  | None => header_branch obs hdr params (idl_argunique (Params.time params))
  end = (lg, Raise e) ->
  read_metafits obs hdr params cfg fs = (lg, Raise e).
Proof.
  intros Htime Hbranch. unfold read_metafits.
  destruct (julian_dates _ Htime) as (jdate & JD0 & Hj & Hmin).
  rewrite Hj, bind_ret, Hmin, bind_ret.
  now rewrite Hbranch.
Qed.

(** The test of line 187 in terms of the rows of the table, for a table
    whose flags are 0 or 1: when
    all rows but one are flagged the run logs an error and exits if
    [run_simulation] is off, and logs a warning and goes on if it is on;
    when fewer rows are flagged nothing is logged and the run goes on. *)
Theorem all_but_one_row_flagged (obs : Obs.t) (hdr : Header.t) (params : Params.t)
    (cfg : Config.t) (fs : filesystem) (metadata : Metafits.file) :
  Params.time params <> [] ->
  metafits_of cfg fs = Some metadata ->
  Metafits.data metadata <> [] ->
  flags_01 (map Metafits.flag (Metafits.data metadata)) ->
  let flags := map Metafits.flag (Metafits.data metadata) in
  (S (n_flagged flags) = length flags ->
   Config.run_simulation cfg = false ->
   read_metafits obs hdr params cfg fs =
     ([LogRecord ERROR all_flagged_message], Raise SystemExit)) /\
  (S (n_flagged flags) = length flags ->
   Config.run_simulation cfg = true ->
   exists meta,
     read_metafits obs hdr params cfg fs =
       ([LogRecord WARNING all_flagged_message], Ok meta)) /\
  ((S (n_flagged flags) < length flags)%nat ->
   exists meta, read_metafits obs hdr params cfg fs = ([], Ok meta)).
Proof.
  intros Htime Hfile Hdata H01 flags.
  destruct (metafits_branch_run hdr cfg metadata Hdata) as (names & heights & Hrun).
  assert (Hperm := sort_by_antenna_perm (Metafits.data metadata)).
  assert (Hsum : np_sum (map Metafits.flag (sort_by_antenna (Metafits.data metadata)))
                 = Z.of_nat (n_flagged flags)).
  { rewrite <- (np_sum_perm flags); [ now apply np_sum_n_flagged | ].
    now apply Permutation_map. }
  assert (Hlen : length (map Metafits.flag (sort_by_antenna (Metafits.data metadata)))
                 = length flags).
  { unfold flags. rewrite !length_map. symmetry. now apply Permutation_length. }
  rewrite check_tile_flags_cases, Hsum, Hlen in Hrun.
  split; [ | split ].
  - intros Hall Hsim. apply read_metafits_raises; [ exact Htime | ].
    rewrite Hfile, Hrun, Hsim.
    replace (_ =? _)%Z with true by (symmetry; apply Z.eqb_eq; lia).
    reflexivity.
  - intros Hall Hsim.
    destruct (read_metafits_returns obs hdr params cfg fs
                [LogRecord WARNING all_flagged_message]
                (TileMeta names heights
                   (map Metafits.flag (sort_by_antenna (Metafits.data metadata)))
                   (Metafits.RA metadata) (Metafits.DEC metadata)
                   (Metafits.RAPHASE metadata) (Metafits.DECPHASE metadata)
                   (Metafits.INTTIME metadata)
                   (Some (split_on ","%char (Metafits.DELAYS metadata)))) Htime)
      as (meta & Hmeta & _).
    { rewrite Hfile, Hrun, Hsim.
      replace (_ =? _)%Z with true by (symmetry; apply Z.eqb_eq; lia).
      reflexivity. }
    now exists meta.
  - intros Hfewer.
    destruct (read_metafits_returns obs hdr params cfg fs []
                (TileMeta names heights
                   (map Metafits.flag (sort_by_antenna (Metafits.data metadata)))
                   (Metafits.RA metadata) (Metafits.DEC metadata)
                   (Metafits.RAPHASE metadata) (Metafits.DECPHASE metadata)
                   (Metafits.INTTIME metadata)
                   (Some (split_on ","%char (Metafits.DELAYS metadata)))) Htime)
      as (meta & Hmeta & _).
    { rewrite Hfile, Hrun.
      replace (_ =? _)%Z with false by (symmetry; apply Z.eqb_neq; lia).
      reflexivity. }
    now exists meta.
Qed.

End Reader.

(** ** The fallback: flags from the antennas that occur in no baseline *)

Lemma where_from_length {A} (p : A -> bool) (l : list A) (i : nat) :
  length (where_from p i l) = length (filter p l).
Proof.
  revert i; induction l as [ | x l IH]; intros i; cbn [where_from filter]; [ reflexivity | ].
  destruct (p x); cbn [length]; now rewrite IH.
Qed.

Lemma where_count_zero {A} (p : A -> bool) (l : list A) :
  length (np_where p l) = 0%nat <-> forall x, In x l -> p x = false.
Proof.
  unfold np_where. rewrite where_from_length.
  induction l as [ | x l IH]; cbn [filter]; [ easy | ].
  destruct (p x) eqn:Hp; cbn [length].
  - split; [ lia | ]. intros H. specialize (H x (or_introl eq_refl)). congruence.
  - rewrite IH. split.
    + intros H y [<- | Hy]; [ exact Hp | now apply H ].
    + intros H y Hy. apply H. now right.
Qed.

(** Writing one value at the positions [np.where] returns, into an array
    that is otherwise constant. *)
Lemma np_fill_where_from {A B} (p : A -> bool) (z v : B) (l : list A) (pre : list B) :
  np_fill (pre ++ repeat z (length l)) (where_from p (length pre) l) v
  = ret (pre ++ map (fun x => if p x then v else z) l).
Proof.
  revert pre; induction l as [ | x l IH]; intros pre; cbn [where_from length repeat map].
  - reflexivity.
  - destruct (p x).
    + cbn [np_fill].
      assert (Hlt : (length pre <? length (pre ++ z :: repeat z (length l)))%nat = true).
      { apply Nat.ltb_lt. rewrite length_app. cbn [length]. lia. }
      rewrite Hlt.
      assert (Hset : set_nth (pre ++ z :: repeat z (length l)) (length pre) v
                     = (pre ++ [v]) ++ repeat z (length l)).
      { clear. induction pre as [ | y pre IHp]; cbn; [ reflexivity | now rewrite IHp ]. }
      rewrite Hset. specialize (IH (pre ++ [v])).
      rewrite length_app in IH. cbn [length] in IH. rewrite Nat.add_1_r in IH.
      rewrite IH, <- app_assoc. reflexivity.
    + specialize (IH (pre ++ [z])).
      rewrite length_app in IH. cbn [length] in IH. rewrite Nat.add_1_r in IH.
      rewrite <- !app_assoc in IH. exact IH.
Qed.

Lemma np_fill_where {A B} (p : A -> bool) (z v : B) (l : list A) :
  np_fill (repeat z (length l)) (np_where p l) v
  = ret (map (fun x => if p x then v else z) l).
Proof. exact (np_fill_where_from p z v l []). Qed.

Lemma zip_with_map {A B C D} (f : B -> C -> D) (g : A -> B) (h : A -> C) (l : list A) :
  zip_with f (map g l) (map h l) = map (fun x => f (g x) (h x)) l.
Proof. induction l as [ | x l IH]; cbn; [ reflexivity | now rewrite IH ]. Qed.

(** The modelled [histogram] with [min = 1], [max = n] and unit bins has
    one bin for each of [1 .. n]. *)
Lemma histogram_unit_bins (data : list R) (n : Z) :
  exists bins ri,
    histogram data 1 (Some 1) (Some (IZR n))
    = ret (map (fun b => Z.of_nat (unit_bin_count data n b)) (seq 0 (Z.to_nat n)), bins, ri).
Proof.
  unfold histogram. rewrite !bind_ret, (Rleb_false 1 0) by lra.
  assert (Hn : Zfloor ((IZR n - 1) / 1) = (n - 1)%Z).
  { apply Zfloor_eq. rewrite minus_IZR. lra. }
  rewrite Hn. replace (n - 1 + 1)%Z with n by lia.
  rewrite !map_map. eexists _, _. reflexivity.
Qed.

Lemma integral_IntArr (l : list Z) : integral (IntArr l).
Proof.
  unfold integral; cbn [values]. apply Forall_map, Forall_forall.
  intros z _. now exists z.
Qed.

(** Bin [k - 1] is empty exactly when antenna [k] does not occur. *)
Lemma unit_bin_empty (a : ndarray) (n k : Z) :
  integral a ->
  (1 <= k <= n)%Z ->
  unit_bin_count (values a) n (Z.to_nat (k - 1)) = 0%nat <-> ~ In (IZR k) (values a).
Proof.
  intros Hint Hk. unfold unit_bin_count. rewrite where_count_zero.
  assert (Hbin : forall z : Z,
             in_bin 1 (IZR n) 1 (Z.to_nat (k - 1)) (IZR z) = true <-> z = k).
  { intros z. unfold in_bin, bin_index.
    assert (Hz : Zfloor ((IZR z - 1) / 1) = (z - 1)%Z)
      by (apply Zfloor_eq; rewrite minus_IZR; lra).
    rewrite Hz, !andb_true_iff, !Rleb_iff, Z.eqb_eq, Z2Nat.id by lia.
    split.
    - intros [_ H]. lia.
    - intros ->. repeat split; try apply IZR_le; lia. }
  split.
  - intros Hnone Hin. specialize (Hnone _ Hin).
    assert (Ht : in_bin 1 (IZR n) 1 (Z.to_nat (k - 1)) (IZR k) = true) by now apply Hbin.
    congruence.
  - intros Hnot x Hx. unfold integral in Hint. rewrite Forall_forall in Hint.
    destruct (Hint x Hx) as [z ->].
    destruct (in_bin 1 (IZR n) 1 (Z.to_nat (k - 1)) (IZR z)) eqn:Hb; [ | reflexivity ].
    apply Hbin in Hb. subst z. contradiction.
Qed.

(** Lines 200-221 for an integer tile count: the flag of each tile tells
    whether both histograms are empty at its bin. *)
Lemma header_branch_run (obs : Obs.t) (hdr : Header.t) (params : Params.t)
    (b0i : list Z) (n : Z) :
  Obs.n_tile obs = PyInt n ->
  (0 <= n)%Z ->
  exists tm,
    header_branch obs hdr params b0i = ([LogRecord WARNING no_metafits_message], Ok tm) /\
    tm_tile_flag tm =
      map (fun b =>
             if (Z.of_nat (unit_bin_count (values (Params.antenna1 params)) n b)
                 + Z.of_nat (unit_bin_count (values (Params.antenna2 params)) n b) =? 0)%Z
             then 1%Z else 0%Z)
          (seq 0 (Z.to_nat n)) /\
    tm_delays tm = None.
Proof.
  intros Hn Hpos. unfold header_branch. rewrite Hn. cbn [to_R].
  destruct (histogram_unit_bins (values (Params.antenna1 params)) n) as (binsA & riA & HA).
  destruct (histogram_unit_bins (values (Params.antenna2 params)) n) as (binsB & riB & HB).
  rewrite HA, HB. unfold warning. rewrite bind_Ok, !bind_ret.
  unfold np_zeros. replace (n <? 0)%Z with false by (symmetry; apply Z.ltb_ge; lia).
  rewrite !bind_ret, zip_with_map.
  set (hist_AB := map _ (seq 0 (Z.to_nat n))).
  set (tile_use := np_where _ hist_AB).
  assert (Hfill : (if (0 <? length tile_use)%nat
                   then np_fill (repeat 0%Z (Z.to_nat n)) tile_use 1%Z
                   else ret (repeat 0%Z (Z.to_nat n)))
                  = ret (map (fun h => if (h =? 0)%Z then 1%Z else 0%Z) hist_AB)).
  { assert (Hlen : length hist_AB = Z.to_nat n)
      by (unfold hist_AB; now rewrite length_map, length_seq).
    transitivity (np_fill (repeat 0%Z (Z.to_nat n)) tile_use 1%Z).
    - destruct tile_use; reflexivity.
    - rewrite <- Hlen. apply np_fill_where. }
  rewrite Hfill, bind_ret. cbn [fst snd ret app].
  eexists. split; [ reflexivity | split; [ | reflexivity ] ].
  cbn [tm_tile_flag]. unfold hist_AB. now rewrite map_map.
Qed.

(** A float tile count, such as the packed branch leaves when it replaces
    the header's count by the decoded one, stops the fallback at
    [np.zeros]. *)
Lemma header_branch_float_tile_count (obs : Obs.t) (hdr : Header.t) (params : Params.t)
    (b0i : list Z) (r : R) :
  Obs.n_tile obs = PyFloat r ->
  header_branch obs hdr params b0i
    = ([LogRecord WARNING no_metafits_message], Raise TypeError).
Proof.
  intros Hn. unfold header_branch, histogram. rewrite Hn.
  rewrite !bind_ret, (Rleb_false 1 0) by lra. rewrite !bind_ret.
  reflexivity.
Qed.

Section Fallback.

Context {astronomy : Astronomy}.

(** The fallback on an integer tile count: without a METAFITS file, for
    an integer tile count [n] and antenna
    columns of whole numbers, [read_metafits] logs the warning and returns
    a [meta] whose [tile_flag] has [n] entries; the entry of antenna [k]
    (at index [k - 1]) is 1 when [k] occurs in neither antenna column and
    0 when it occurs in one of them. *)
Theorem missing_metafits_fallback (obs : Obs.t) (hdr : Header.t) (params : Params.t)
    (cfg : Config.t) (fs : filesystem) (n : Z) :
  Params.time params <> [] ->
  metafits_of cfg fs = None ->
  Obs.n_tile obs = PyInt n ->
  (0 <= n)%Z ->
  integral (Params.antenna1 params) ->
  integral (Params.antenna2 params) ->
  exists meta,
    read_metafits obs hdr params cfg fs
      = ([LogRecord WARNING no_metafits_message], Ok meta) /\
    length (Meta.tile_flag meta) = Z.to_nat n /\
    forall k : Z,
      (1 <= k <= n)%Z ->
      let occurs :=
        In (IZR k) (values (Params.antenna1 params))
        \/ In (IZR k) (values (Params.antenna2 params)) in
      (~ occurs -> nth_error (Meta.tile_flag meta) (Z.to_nat (k - 1)) = Some 1%Z) /\
      (occurs -> nth_error (Meta.tile_flag meta) (Z.to_nat (k - 1)) = Some 0%Z).
Proof.
  intros Htime Hfile Hn Hpos Hint1 Hint2.
  destruct (header_branch_run obs hdr params (idl_argunique (Params.time params)) n Hn Hpos)
    as (tm & Hrun & Hflag & _).
  destruct (read_metafits_returns obs hdr params cfg fs
              [LogRecord WARNING no_metafits_message] tm Htime) as (meta & Hmeta & Hmf & _).
  { now rewrite Hfile. }
  exists meta. split; [ exact Hmeta | ]. rewrite Hmf, Hflag. split.
  - now rewrite length_map, length_seq.
  - intros k Hk occurs.
    assert (Hnth : nth_error (seq 0 (Z.to_nat n)) (Z.to_nat (k - 1)) = Some (Z.to_nat (k - 1))).
    { rewrite nth_error_seq.
      replace (Z.to_nat (k - 1) <? Z.to_nat n)%nat with true
        by (symmetry; apply Nat.ltb_lt; lia).
      reflexivity. }
    rewrite nth_error_map, Hnth. cbn [option_map].
    assert (H1 := unit_bin_empty _ n k Hint1 Hk).
    assert (H2 := unit_bin_empty _ n k Hint2 Hk).
    split.
    + intros Hnot.
      assert (E1 : unit_bin_count (values (Params.antenna1 params)) n (Z.to_nat (k - 1)) = 0%nat).
      { apply H1. intros Hin. apply Hnot. now left. }
      assert (E2 : unit_bin_count (values (Params.antenna2 params)) n (Z.to_nat (k - 1)) = 0%nat).
      { apply H2. intros Hin. apply Hnot. now right. }
      now rewrite E1, E2.
    + intros Hocc.
      destruct (Z.eqb_spec
                  (Z.of_nat (unit_bin_count (values (Params.antenna1 params)) n (Z.to_nat (k - 1)))
                   + Z.of_nat (unit_bin_count (values (Params.antenna2 params)) n (Z.to_nat (k - 1))))
                  0) as [Hzero | Hnz]; [ | reflexivity ].
      exfalso. destruct Hocc as [Hin | Hin].
      * apply (proj1 H1); [ lia | exact Hin ].
      * apply (proj1 H2); [ lia | exact Hin ].
Qed.

End Fallback.

Lemma time_bins_two_steps : exists r, time_bins [1; 2] = ret r /\ fst (fst r) = 2%nat.
Proof.
  unfold time_bins, idl_argunique. cbn [argunique_from].
  rewrite (Reqb_false 1 2) by lra.
  cbn -[IZR trunc]. eexists; split; reflexivity.
Qed.

Lemma freq_bins_one_channel :
  exists r, freq_bins small_header full_config = ret r.
Proof.
  unfold freq_bins, histogram. cbn [small_header full_config Header.frequency_array Header.freq_res Header.n_freq Config.beam_nfreq_avg np_min_R np_max_R fold_left].
  rewrite ?bind_ret. rewrite (Rleb_false (1 * 1) 0) by lra.
  replace (Zfloor ((1 - 1) / (1 * 1))) with 0%Z by (symmetry; apply Zfloor_eq; lra).
  change (Z.to_nat (0 + 1)) with 1%nat.
  assert (Hbin : in_bin 1 1 (1 * 1) 0 1 = true).
  { unfold in_bin, bin_index. rewrite !Rleb_true by lra.
    replace (Zfloor ((1 - 1) / (1 * 1))) with 0%Z by (symmetry; apply Zfloor_eq; lra).
    reflexivity. }
  cbn [seq map]. unfold np_where. cbn [where_from]. rewrite Hbin.
  cbn -[IZR INR np_median Rmult Rplus]. eexists; reflexivity.
Qed.

Lemma resolve_two_baselines :
  resolve_tiles small_header two_baselines =
    ret (Tiles (IntArr [1; 2]%Z) (IntArr [2; 3]%Z) (PyInt 3) two_baselines false).
Proof.
  unfold resolve_tiles, has_antenna_columns, two_baselines.
  cbn [Params.antenna1 Params.antenna2 np_max fold_left].
  change (Z.max 1 2) with 2%Z. change (Z.max 2 3) with 3%Z.
  rewrite ?bind_ret. cbn [to_R]. rewrite (Rltb_true 0 2) by lra.
  rewrite ?bind_ret. rewrite (Rltb_true 0 3) by lra. rewrite ?bind_ret.
  unfold py_max. cbn [to_R]. now rewrite (Rltb_true 2 3) by lra.
Qed.

Lemma baseline_extent_two_baselines :
  baseline_extent [1] [1; 1] [0; 0] =
    ret ([[1 * 1; 1 * 1]], [[1 * 0; 1 * 0]],
         [[sqrt ((1 * 1) ^ 2 + (1 * 0) ^ 2); sqrt ((1 * 1) ^ 2 + (1 * 0) ^ 2)]],
         py_max_R (Rmax (Rabs (1 * 1)) (Rabs (1 * 1))) (Rmax (Rabs (1 * 0)) (Rabs (1 * 0)))).
Proof. reflexivity. Qed.

Lemma baseline_limits_two_baselines :
  exists r,
    baseline_limits full_config [1; 1] [0; 0]
      [[1 * 1; 1 * 1]] [[1 * 0; 1 * 0]]
      [[sqrt ((1 * 1) ^ 2 + (1 * 0) ^ 2); sqrt ((1 * 1) ^ 2 + (1 * 0) ^ 2)]]
      1 4 4 = ret r.
Proof.
  assert (Hs : sqrt ((1 * 1) ^ 2 + (1 * 0) ^ 2) = 1).
  { replace ((1 * 1) ^ 2 + (1 * 0) ^ 2) with 1 by ring. apply sqrt_1. }
  assert (Hin : in_support 1 4 4 (1 * 1) (1 * 0) = true).
  { unfold in_support. rewrite (Reqb_false 1 0) by lra.
    rewrite Rmult_1_l, Rmult_0_r, Rabs_R0, Rabs_R1.
    now rewrite !Rltb_true by lra. }
  unfold baseline_limits, bcast2. cbn [length bcast_ok Nat.eqb orb zip_with bcast_row].
  rewrite Hin, Hs, bind_ret.
  unfold where_2d, np_where. cbn [length seq combine map fst snd where_from concat app].
  cbn [take_2d nth_error]. rewrite ?bind_ret.
  rewrite (Reqb_false 1 0) by lra.
  cbn [negb map fst snd where_from concat app take_2d nth_error np_max_R np_min_R fold_left].
  rewrite ?bind_ret. cbn [full_config Config.min_baseline].
  eexists; reflexivity.
Qed.

Lemma imaging_degpix_full_config : imaging_degpix full_config = ret (180 / PI / (1 * 4)).
Proof.
  unfold imaging_degpix; cbn [full_config Config.kbinsize Config.dimension].
  apply py_div_ok. lra.
Qed.

Lemma imaging_kbinsize_full_config : imaging_kbinsize full_config = ret 1.
Proof.
  unfold imaging_kbinsize; cbn [full_config Config.FoV Config.kbinsize].
  rewrite py_div_ok by lra. now rewrite ?bind_ret.
Qed.

(** Lines 34-138 put together from the runs of their blocks (here for
    blocks that log nothing). *)
Lemma obs_before_metafits_run (hdr : Header.t) (params : Params.t) (cfg : Config.t)
    n_time bin_width bin_offset beam fbin_i freq_center t kx ky kr max_baseline
    kbinsize dimension elements degpix longest shortest :
  time_bins (Params.time params) = ret (n_time, bin_width, bin_offset) ->
  (0 <= Header.n_freq hdr)%Z ->
  freq_bins hdr cfg = ret (beam, fbin_i, freq_center) ->
  resolve_tiles hdr params = ret t ->
  baseline_extent (Header.frequency_array hdr)
    (Params.uu (tiles_params t)) (Params.vv (tiles_params t))
    = ret (kx, ky, kr, max_baseline) ->
  imaging_kbinsize cfg = ret kbinsize ->
  imaging_dimension cfg max_baseline = ret (dimension, elements) ->
  imaging_degpix cfg = ret degpix ->
  baseline_limits cfg (Params.uu (tiles_params t)) (Params.vv (tiles_params t))
    kx ky kr kbinsize dimension elements = ret (longest, shortest) ->
  obs_before_metafits hdr params cfg =
    ret (Obs.Build (Header.n_pol hdr) (tiles_n_tile t) (Header.n_freq hdr)
           (Config.instrument cfg) n_time (nth 0 bin_width 0)
           (Z.of_nat (length (Params.time params)) * Header.n_freq hdr)
           (Z.of_nat (length (Params.time params)) * Header.n_freq hdr)
           (Z.of_nat (length (Params.time params)) * Header.n_freq hdr)
           (repeat 0%Z (Z.to_nat (Header.n_freq hdr)))
           (Header.freq_res hdr) beam freq_center kbinsize
           dimension elements degpix longest shortest,
         BaselineInfo.Build bin_offset (Header.frequency_array hdr) fbin_i
           (tile_A t) (tile_B t) (Header.n_freq hdr + 1) (py_succ (tiles_n_tile t)),
         tiles_params t).
Proof.
  intros Htime Hnf Hfreq Htiles Hext Hk Hdim Hdeg Hlim.
  unfold obs_before_metafits.
  rewrite Htime, bind_ret. unfold np_zeros.
  replace (Header.n_freq hdr <? 0)%Z with false by (symmetry; apply Z.ltb_ge; lia).
  rewrite bind_ret, Hfreq, bind_ret, Htiles, bind_ret, Hext, bind_ret.
  rewrite Hk, bind_ret, Hdim, bind_ret, Hdeg, bind_ret, Hlim, bind_ret.
  reflexivity.
Qed.

Lemma imaging_dimension_full_config (max_baseline : R) :
  imaging_dimension full_config max_baseline = ret (4, 4)%Z.
Proof.
  unfold imaging_dimension.
  cbn [full_config Config.dimension Config.elements config_int option_map is_None
       andb negb py_int_value py_int].
  now rewrite ?bind_ret.
Qed.

(** The run of lines 34-138 on the example: two time steps, one channel,
    the baselines (1, 2) and (2, 3), a configured resolution and grid. *)
Lemma obs_two_baselines :
  exists obs baseline_info,
    obs_before_metafits small_header two_baselines full_config
      = ret (obs, baseline_info, two_baselines) /\
    Obs.n_tile obs = PyInt 3 /\
    Obs.kbinsize obs = 1 /\
    Obs.dimension obs = 4%Z.
Proof.
  destruct time_bins_two_steps as ([[n_time bin_width] bin_offset] & Htime & _).
  destruct freq_bins_one_channel as ([[beam fbin_i] freq_center] & Hfreq).
  destruct baseline_limits_two_baselines as ([longest shortest] & Hlimits).
  eexists _, _. split.
  - apply (obs_before_metafits_run small_header two_baselines full_config
             _ _ _ _ _ _ _ _ _ _ _ _ _ _ _ _ _
             Htime ltac:(cbn; lia) Hfreq resolve_two_baselines
             baseline_extent_two_baselines imaging_kbinsize_full_config
             (imaging_dimension_full_config _) imaging_degpix_full_config Hlimits).
  - now cbn.
Qed.

(* ================================================================== *)
(** * [create_obs] as a whole *)
(* ================================================================== *)

(** A run of lines 34-138 that returns has passed lines 108-131, and
    [obs] holds what they computed. *)
Lemma obs_before_metafits_imaging (hdr : Header.t) (params : Params.t) (cfg : Config.t)
    lg obs baseline_info params' :
  obs_before_metafits hdr params cfg = (lg, Ok (obs, baseline_info, params')) ->
  exists l1 l2 l3 max_baseline,
    imaging_kbinsize cfg = (l1, Ok (Obs.kbinsize obs)) /\
    imaging_dimension cfg max_baseline = (l2, Ok (Obs.dimension obs, Obs.elements obs)) /\
    imaging_degpix cfg = (l3, Ok (Obs.degpix obs)).
Proof.
  unfold obs_before_metafits; intros H.
  bind_inv H as [[n_time bin_width] bin_offset] Htime.
  bind_inv H as n_vis_arr Hvis.
  bind_inv H as [[beam fbin_i] freq_center] Hfreq.
  bind_inv H as t Htiles.
  bind_inv H as [[[kx ky] kr] max_baseline] Hext.
  bind_inv H as kbinsize Hk.
  bind_inv H as [dimension elements] Hdim.
  bind_inv H as degpix Hdeg.
  bind_inv H as [longest shortest] Hlim.
  apply ret_inv in H as [_ Heq]. injection Heq as <- <- <-.
  do 3 eexists. exists max_baseline. cbn.
  split; [ eassumption | split; eassumption ].
Qed.

Lemma imaging_degpix_configured (cfg : Config.t) l degpix :
  imaging_degpix cfg = (l, Ok degpix) ->
  Config.kbinsize cfg <> None /\ Config.dimension cfg <> None.
Proof.
  unfold imaging_degpix.
  destruct (Config.kbinsize cfg), (Config.dimension cfg); try discriminate.
  now intros _.
Qed.

(** Line 131 when one of the two configured values is missing. *)
Lemma imaging_degpix_unset (cfg : Config.t) :
  Config.kbinsize cfg = None \/ Config.dimension cfg = None ->
  imaging_degpix cfg = raise TypeError.
Proof.
  unfold imaging_degpix. intros [-> | ->]; [ reflexivity | ].
  now destruct (Config.kbinsize cfg).
Qed.

(** Line 117 without a configured [kbinsize]. *)
Lemma derived_dimension_unset (cfg : Config.t) (max_baseline : R) :
  Config.kbinsize cfg = None ->
  derived_dimension cfg max_baseline = raise TypeError.
Proof. unfold derived_dimension. now intros ->. Qed.

Section Builder.

Context {astronomy : Astronomy}.

(** What [create_obs] returns is the [obs] of line 138. *)
Lemma create_obs_inv (hdr : Header.t) (params : Params.t) (cfg : Config.t)
    (fs : filesystem) lg obs :
  create_obs hdr params cfg fs = (lg, Ok obs) ->
  exists l baseline_info params' l' meta,
    obs_before_metafits hdr params cfg = (l, Ok (obs, baseline_info, params')) /\
    read_metafits obs hdr params' cfg fs = (l', Ok meta) /\
    lg = l ++ l'.
Proof.
  unfold create_obs, create_obs_locals; intros H.
  bind_inv H as [[obs' baseline_info] meta] Hlocals.
  apply ret_inv in H as [-> ->].
  bind_inv Hlocals as [[obs'' bi] params'] Hbefore.
  bind_inv Hlocals as meta' Hmeta.
  apply ret_inv in Hlocals as [-> Heq]. injection Heq as -> -> ->.
  do 5 eexists. split; [ eassumption | split; [ eassumption | ] ].
  subst. now rewrite !app_nil_r.
Qed.

Lemma create_obs_run (hdr : Header.t) (params : Params.t) (cfg : Config.t)
    (fs : filesystem) l obs baseline_info params' l' meta :
  obs_before_metafits hdr params cfg = (l, Ok (obs, baseline_info, params')) ->
  read_metafits obs hdr params' cfg fs = (l', Ok meta) ->
  create_obs_locals hdr params cfg fs = (l ++ l', Ok (obs, baseline_info, meta)) /\
  create_obs hdr params cfg fs = (l ++ l', Ok obs).
Proof.
  intros Hbefore Hmeta.
  assert (Hlocals : create_obs_locals hdr params cfg fs
                    = (l ++ l', Ok (obs, baseline_info, meta))).
  { unfold create_obs_locals. rewrite Hbefore, bind_Ok. cbn beta iota.
    rewrite Hmeta, bind_Ok. cbn [ret fst snd]. now rewrite app_nil_r. }
  split; [ exact Hlocals | ].
  unfold create_obs. rewrite Hlocals, bind_Ok. cbn [ret fst snd]. now rewrite app_nil_r.
Qed.

(** C2: a run of [create_obs] that returns had both [kbinsize] and
    [dimension] configured: line 131 multiplies the two configured values,
    and [None] there raises [TypeError]. *)
Theorem create_obs_needs_kbinsize_and_dimension (hdr : Header.t) (params : Params.t)
    (cfg : Config.t) (fs : filesystem) lg obs :
  create_obs hdr params cfg fs = (lg, Ok obs) ->
  Config.kbinsize cfg <> None /\ Config.dimension cfg <> None.
Proof.
  intros H. apply create_obs_inv in H as (l & bi & p & l' & meta & Hbefore & _ & _).
  apply obs_before_metafits_imaging in Hbefore as (l1 & l2 & l3 & mb & _ & _ & Hdeg).
  exact (imaging_degpix_configured _ _ _ Hdeg).
Qed.

(** C10: [create_obs] reads [meta] (line 140) and returns [obs] alone
    (line 143).  The value returned does not depend on the METAFITS file
    that [meta] is read from: two runs on the same header, parameters and
    configuration have each computed a [meta] and return the same [obs],
    whatever the file system holds. *)
Theorem create_obs_returns_obs_only (hdr : Header.t) (params : Params.t)
    (cfg : Config.t) (fs1 fs2 : filesystem) lg1 lg2 obs1 obs2 :
  create_obs hdr params cfg fs1 = (lg1, Ok obs1) ->
  create_obs hdr params cfg fs2 = (lg2, Ok obs2) ->
  obs1 = obs2 /\
  (exists baseline_info meta,
      create_obs_locals hdr params cfg fs1 = (lg1, Ok (obs1, baseline_info, meta))) /\
  (exists baseline_info meta,
      create_obs_locals hdr params cfg fs2 = (lg2, Ok (obs2, baseline_info, meta))).
Proof.
  intros H1 H2.
  apply create_obs_inv in H1 as (l1 & bi1 & p1 & l1' & meta1 & Hb1 & Hm1 & ->).
  apply create_obs_inv in H2 as (l2 & bi2 & p2 & l2' & meta2 & Hb2 & Hm2 & ->).
  split; [ | split ].
  - rewrite Hb1 in Hb2. now injection Hb2.
  - exists bi1, meta1. exact (proj1 (create_obs_run _ _ _ _ _ _ _ _ _ _ Hb1 Hm1)).
  - exists bi2, meta2. exact (proj1 (create_obs_run _ _ _ _ _ _ _ _ _ _ Hb2 Hm2)).
Qed.

(** In every run that returns, [obs['kbinsize']] is the configured
    [kbinsize], with or without a configured field of view. *)
Lemma returned_kbinsize (hdr : Header.t) (params : Params.t)
    (cfg : Config.t) (fs : filesystem) lg obs :
  create_obs hdr params cfg fs = (lg, Ok obs) ->
  Config.kbinsize cfg = Some (Obs.kbinsize obs).
Proof.
  intros H. apply create_obs_inv in H as (l & bi & p & l' & meta & Hbefore & _ & _).
  apply obs_before_metafits_imaging in Hbefore as (l1 & l2 & l3 & mb & Hk & _ & Hdeg).
  apply imaging_kbinsize_value in Hk.
  apply imaging_degpix_configured in Hdeg as [Hset _].
  destruct (Config.kbinsize cfg) as [k | ]; [ now rewrite Hk | contradiction ].
Qed.

(** In every run that returns, [obs['dimension']] is the configured
    [dimension] and [obs['elements']] the configured [elements], or the
    [dimension] again when there is none. *)
Lemma returned_dimension (hdr : Header.t) (params : Params.t)
    (cfg : Config.t) (fs : filesystem) lg obs :
  create_obs hdr params cfg fs = (lg, Ok obs) ->
  Config.dimension cfg = Some (Obs.dimension obs) /\
  Obs.elements obs =
    match Config.elements cfg with
    | Some e => e
    | None => Obs.dimension obs
    end.
Proof.
  intros H. apply create_obs_inv in H as (l & bi & p & l' & meta & Hbefore & _ & _).
  apply obs_before_metafits_imaging in Hbefore as (l1 & l2 & l3 & mb & _ & Hdim & Hdeg).
  apply imaging_degpix_configured in Hdeg as [_ Hset].
  unfold imaging_dimension, config_int in Hdim.
  destruct (Config.dimension cfg) as [d | ]; [ | contradiction ].
  destruct (Config.elements cfg) as [e | ];
    cbn [option_map is_None negb andb py_int_value py_int] in Hdim;
    rewrite ?bind_ret in Hdim; apply ret_inv in Hdim as [_ Heq];
    injection Heq as <- <-; now split.
Qed.

End Builder.

(* ================================================================== *)
(** * The example runs *)
(* ================================================================== *)

Lemma all_but_one_row_flagged_witness :
  @read_metafits example_astronomy small_obs small_header two_baselines
    full_config flagged_files
    = ([LogRecord ERROR all_flagged_message], Raise SystemExit) /\
  exists meta,
    @read_metafits example_astronomy small_obs small_header two_baselines
      simulation_config flagged_files
      = ([LogRecord WARNING all_flagged_message], Ok meta).
Proof.
  assert (Htime : Params.time two_baselines <> []) by discriminate.
  assert (Hdata : Metafits.data flagged_metafits <> []) by discriminate.
  assert (H01 : flags_01 (map Metafits.flag (Metafits.data flagged_metafits)))
    by (repeat constructor; auto).
  split.
  - exact (proj1 (@all_but_one_row_flagged example_astronomy small_obs small_header
                    two_baselines full_config flagged_files flagged_metafits
                    Htime eq_refl Hdata H01) eq_refl eq_refl).
  - exact (proj1 (proj2 (@all_but_one_row_flagged example_astronomy small_obs small_header
                    two_baselines simulation_config flagged_files flagged_metafits
                    Htime eq_refl Hdata H01)) eq_refl eq_refl).
Defined.

Lemma missing_metafits_fallback_witness :
  exists meta,
    @read_metafits example_astronomy four_tile_obs small_header two_baselines
      full_config no_files
      = ([LogRecord WARNING no_metafits_message], Ok meta) /\
    length (Meta.tile_flag meta) = 4%nat /\
    nth_error (Meta.tile_flag meta) 0 = Some 0%Z /\
    nth_error (Meta.tile_flag meta) 3 = Some 1%Z.
Proof.
  destruct (@missing_metafits_fallback example_astronomy four_tile_obs small_header
              two_baselines full_config no_files 4
              ltac:(discriminate) eq_refl eq_refl ltac:(lia)
              (integral_IntArr _) (integral_IntArr _))
    as (meta & Hrun & Hlen & Hflags).
  exists meta. split; [ exact Hrun | split; [ exact Hlen | split ] ].
  - apply (proj2 (Hflags 1%Z ltac:(lia))). left. now left.
  - apply (proj1 (Hflags 4%Z ltac:(lia))).
    cbn. intros [[H | [H | []]] | [H | [H | []]]]; lra.
Defined.

(** The example with and without its METAFITS file: the same [obs] comes
    back, while the two [meta] records differ; the run without the file
    logs the warning of the fallback. *)
Lemma example_runs :
  exists obs baseline_info meta1 meta2,
    @create_obs_locals example_astronomy small_header two_baselines full_config no_files
      = ([LogRecord WARNING no_metafits_message], Ok (obs, baseline_info, meta1)) /\
    @create_obs_locals example_astronomy small_header two_baselines full_config metafits_files
      = ([], Ok (obs, baseline_info, meta2)) /\
    @create_obs example_astronomy small_header two_baselines full_config no_files
      = ([LogRecord WARNING no_metafits_message], Ok obs) /\
    @create_obs example_astronomy small_header two_baselines full_config metafits_files
      = ([], Ok obs) /\
    Meta.delays meta1 = None /\
    Meta.delays meta2 = Some ["0"; "0"; "0"; "0"]%string.
Proof.
  destruct obs_two_baselines as (obs & bi & Hbefore & Hn & _ & _).
  assert (Htime : Params.time two_baselines <> []) by discriminate.
  destruct (header_branch_run obs small_header two_baselines
              (idl_argunique (Params.time two_baselines)) 3 Hn ltac:(lia))
    as (tm1 & Hrun1 & _ & Hdelays1).
  destruct (@read_metafits_returns example_astronomy obs small_header two_baselines
              full_config no_files _ tm1 Htime Hrun1)
    as (meta1 & Hmeta1 & _ & _ & Hd1).
  destruct (metafits_branch_run small_header full_config example_metafits
              ltac:(discriminate)) as (names & heights & Hrun2).
  rewrite check_tile_flags_cases in Hrun2.
  replace (_ =? _)%Z with false in Hrun2 by reflexivity.
  rewrite bind_Ok in Hrun2. cbn [ret fst snd app] in Hrun2.
  destruct (@read_metafits_returns example_astronomy obs small_header two_baselines
              full_config metafits_files _ _ Htime Hrun2)
    as (meta2 & Hmeta2 & _ & _ & Hd2).
  destruct (@create_obs_run example_astronomy _ _ _ _ _ _ _ _ _ _ Hbefore Hmeta1)
    as [Hlocals1 Hobs1].
  destruct (@create_obs_run example_astronomy _ _ _ _ _ _ _ _ _ _ Hbefore Hmeta2)
    as [Hlocals2 Hobs2].
  exists obs, bi, meta1, meta2.
  split; [ exact Hlocals1 | ].
  split; [ exact Hlocals2 | ].
  split; [ exact Hobs1 | ].
  split; [ exact Hobs2 | ].
  split; [ now rewrite Hd1 | now rewrite Hd2 ].
Qed.

Lemma example_run_without_file :
  exists lg obs,
    @create_obs example_astronomy small_header two_baselines full_config no_files
      = (lg, Ok obs).
Proof.
  destruct example_runs as (obs & _ & _ & _ & _ & _ & H & _).
  now exists [LogRecord WARNING no_metafits_message], obs.
Qed.

Lemma example_run_with_file :
  exists lg obs,
    @create_obs example_astronomy small_header two_baselines full_config metafits_files
      = (lg, Ok obs).
Proof.
  destruct example_runs as (obs & _ & _ & _ & _ & _ & _ & H & _).
  now exists [], obs.
Qed.

Lemma create_obs_needs_kbinsize_and_dimension_witness :
  exists lg obs,
    @create_obs example_astronomy small_header two_baselines full_config no_files
      = (lg, Ok obs) /\
    Config.kbinsize full_config <> None /\
    Config.dimension full_config <> None.
Proof.
  destruct example_run_without_file as (lg & obs & Hrun).
  exists lg, obs. split; [ exact Hrun | ].
  exact (@create_obs_needs_kbinsize_and_dimension example_astronomy _ _ _ _ _ _ Hrun).
Defined.

Lemma create_obs_returns_obs_only_witness :
  exists lg1 lg2 obs1 obs2,
    @create_obs example_astronomy small_header two_baselines full_config no_files
      = (lg1, Ok obs1) /\
    @create_obs example_astronomy small_header two_baselines full_config metafits_files
      = (lg2, Ok obs2) /\
    obs1 = obs2.
Proof.
  destruct example_run_without_file as (lg1 & obs1 & Hrun1).
  destruct example_run_with_file as (lg2 & obs2 & Hrun2).
  exists lg1, lg2, obs1, obs2. split; [ exact Hrun1 | split; [ exact Hrun2 | ] ].
  exact (proj1 (@create_obs_returns_obs_only example_astronomy _ _ _ _ _ _ _ _ _
                  Hrun1 Hrun2)).
Defined.

(* ================================================================== *)
(** * Flagged tiles and flagged rows *)
(* ================================================================== *)

Section FlaggedTiles.

Context {astronomy : Astronomy}.

(** C6: the test of line 187 counts the rows of the table, two per tile,
    where lines 184-185 keep one row per tile.  On the table of three
    tiles in which tiles 2 and 3 are flagged in both polarisations every
    tile but one is flagged, in four rows of six: 4 is not 6 - 1, and
    [read_metafits] logs nothing and returns, with [run_simulation] off
    as with it on. *)
Theorem two_of_three_tiles_flagged :
  let rows := Metafits.data two_of_three_metafits in
  table_tiles rows = [1; 2; 3]%Z /\
  flagged_tiles rows = [2; 3]%Z /\
  Config.run_simulation full_config = false /\
  (exists meta,
     read_metafits small_obs small_header two_baselines full_config two_of_three_files
       = ([], Ok meta) /\
     Meta.tile_flag meta = [0; 0; 1; 1; 1; 1]%Z) /\
  (exists meta,
     read_metafits small_obs small_header two_baselines simulation_config
       two_of_three_files = ([], Ok meta)).
Proof.
  assert (Htime : Params.time two_baselines <> []) by discriminate.
  assert (Hdata : Metafits.data two_of_three_metafits <> []) by discriminate.
  assert (Hflags : map Metafits.flag (sort_by_antenna (Metafits.data two_of_three_metafits))
                   = [0; 0; 1; 1; 1; 1]%Z) by reflexivity.
  assert (Hbranch : forall cfg, exists tm,
            metafits_branch small_header cfg two_of_three_metafits = ([], Ok tm) /\
            tm_tile_flag tm = [0; 0; 1; 1; 1; 1]%Z).
  { intros cfg.
    destruct (metafits_branch_run small_header cfg two_of_three_metafits Hdata)
      as (names & heights & Hrun).
    rewrite Hflags in Hrun.
    rewrite check_tile_flags_cases in Hrun.
    change (np_sum [0; 0; 1; 1; 1; 1] =? Z.of_nat (length [0; 0; 1; 1; 1; 1]%Z) - 1)%Z
      with false in Hrun.
    eexists. split; [ exact Hrun | reflexivity ]. }
  cbv zeta.
  split; [ reflexivity | split; [ reflexivity | split; [ reflexivity | split ] ] ].
  - destruct (Hbranch full_config) as (tm & Hrun & Htm).
    destruct (read_metafits_returns small_obs small_header two_baselines full_config
                two_of_three_files [] tm Htime Hrun) as (meta & Hmeta & Hmf & _).
    exists meta. split; [ exact Hmeta | now rewrite Hmf ].
  - destruct (Hbranch simulation_config) as (tm & Hrun & _).
    destruct (read_metafits_returns small_obs small_header two_baselines simulation_config
                two_of_three_files [] tm Htime Hrun) as (meta & Hmeta & _).
    now exists meta.
Qed.

End FlaggedTiles.

(* ================================================================== *)
(** * The fallback after a corrected tile count *)
(* ================================================================== *)

(** Lines 34-138 put together from the runs of their blocks, when the
    tile block has logged. *)
Lemma obs_before_metafits_logged (hdr : Header.t) (params : Params.t) (cfg : Config.t)
    n_time bin_width bin_offset beam fbin_i freq_center lt t kx ky kr max_baseline
    kbinsize dimension elements degpix longest shortest :
  time_bins (Params.time params) = ret (n_time, bin_width, bin_offset) ->
  (0 <= Header.n_freq hdr)%Z ->
  freq_bins hdr cfg = ret (beam, fbin_i, freq_center) ->
  resolve_tiles hdr params = (lt, Ok t) ->
  baseline_extent (Header.frequency_array hdr)
    (Params.uu (tiles_params t)) (Params.vv (tiles_params t))
    = ret (kx, ky, kr, max_baseline) ->
  imaging_kbinsize cfg = ret kbinsize ->
  imaging_dimension cfg max_baseline = ret (dimension, elements) ->
  imaging_degpix cfg = ret degpix ->
  baseline_limits cfg (Params.uu (tiles_params t)) (Params.vv (tiles_params t))
    kx ky kr kbinsize dimension elements = ret (longest, shortest) ->
  obs_before_metafits hdr params cfg =
    (lt,
     Ok (Obs.Build (Header.n_pol hdr) (tiles_n_tile t) (Header.n_freq hdr)
           (Config.instrument cfg) n_time (nth 0 bin_width 0)
           (Z.of_nat (length (Params.time params)) * Header.n_freq hdr)
           (Z.of_nat (length (Params.time params)) * Header.n_freq hdr)
           (Z.of_nat (length (Params.time params)) * Header.n_freq hdr)
           (repeat 0%Z (Z.to_nat (Header.n_freq hdr)))
           (Header.freq_res hdr) beam freq_center kbinsize
           dimension elements degpix longest shortest,
         BaselineInfo.Build bin_offset (Header.frequency_array hdr) fbin_i
           (tile_A t) (tile_B t) (Header.n_freq hdr + 1) (py_succ (tiles_n_tile t)),
         tiles_params t)).
Proof.
  intros Htime Hnf Hfreq Htiles Hext Hk Hdim Hdeg Hlim.
  unfold obs_before_metafits.
  rewrite Htime, bind_ret. unfold np_zeros.
  replace (Header.n_freq hdr <? 0)%Z with false by (symmetry; apply Z.ltb_ge; lia).
  rewrite bind_ret, Hfreq, bind_ret, Htiles, bind_Ok, Hext, bind_ret.
  rewrite Hk, bind_ret, Hdim, bind_ret, Hdeg, bind_ret, Hlim, bind_ret.
  cbn [ret fst snd]. now rewrite app_nil_r.
Qed.

(** The run of lines 34-138 on the packed example: the announced three
    tiles are corrected to the two of the data, and [n_tile] is left as
    the float that [np.max] read off the decoded columns (line 94). *)
Lemma obs_packed_baselines :
  exists obs baseline_info params',
    obs_before_metafits small_header packed_baselines full_config
      = ([LogRecord WARNING (MismatchedTiles (PyInt 3) (PyFloat 2))],
         Ok (obs, baseline_info, params')) /\
    Obs.n_tile obs = PyFloat 2 /\
    Params.time params' = [1; 2].
Proof.
  destruct time_bins_two_steps as ([[n_time bin_width] bin_offset] & Htime & _).
  destruct freq_bins_one_channel as ([[beam fbin_i] freq_center] & Hfreq).
  destruct baseline_limits_two_baselines as ([longest shortest] & Hlimits).
  eexists _, _, _. split.
  - apply (obs_before_metafits_logged small_header packed_baselines full_config
             _ _ _ _ _ _ _ _ _ _ _ _ _ _ _ _ _ _
             Htime ltac:(cbn; lia) Hfreq packed_example_run
             baseline_extent_two_baselines imaging_kbinsize_full_config
             (imaging_dimension_full_config _) imaging_degpix_full_config Hlimits).
  - now cbn.
Qed.

Section FallbackFloat.

Context {astronomy : Astronomy}.

(** C7: the fallback on the tile count that [create_obs] itself leaves.
    For the packed example (header of three tiles, baselines 258 and 515,
    no METAFITS file) lines 90-96 log the mismatch and store the float 2.0
    in [obs['n_tile']]; [read_metafits] then takes the fallback, logs its
    warning, and [np.zeros] of line 208 raises [TypeError] on the float:
    no [tile_flag] is produced, and [create_obs] ends with that error. *)
Theorem fallback_float_tile_count :
  exists obs baseline_info params',
    obs_before_metafits small_header packed_baselines full_config
      = ([LogRecord WARNING (MismatchedTiles (PyInt 3) (PyFloat 2))],
         Ok (obs, baseline_info, params')) /\
    Obs.n_tile obs = PyFloat 2 /\
    metafits_of full_config no_files = None /\
    read_metafits obs small_header params' full_config no_files
      = ([LogRecord WARNING no_metafits_message], Raise TypeError) /\
    create_obs small_header packed_baselines full_config no_files
      = ([LogRecord WARNING (MismatchedTiles (PyInt 3) (PyFloat 2));
          LogRecord WARNING no_metafits_message], Raise TypeError).
Proof.
  destruct obs_packed_baselines as (obs & bi & params' & Hbefore & Hn & Htime).
  assert (Hmeta : read_metafits obs small_header params' full_config no_files
                  = ([LogRecord WARNING no_metafits_message], Raise TypeError)).
  { apply read_metafits_raises; [ rewrite Htime; discriminate | ].
    change (metafits_of full_config no_files) with (@None Metafits.file).
    eapply header_branch_float_tile_count. exact Hn. }
  exists obs, bi, params'.
  split; [ exact Hbefore | split; [ exact Hn | split; [ reflexivity | split; [ exact Hmeta | ] ] ] ].
  unfold create_obs, create_obs_locals.
  rewrite Hbefore, bind_Ok. cbn beta iota.
  rewrite Hmeta. reflexivity.
Qed.

End FallbackFloat.

(* ================================================================== *)
(** * Further properties of [create_obs] *)
(* ================================================================== *)

(** ** The time steps *)

Lemma argunique_from_constant (t0 : R) (l : list R) (i : nat) :
  Forall (fun t => t = t0) l -> (length (argunique_from i l) <= 1)%nat.
Proof.
  revert i; induction l as [ | x l IH]; intros i Hall; cbn [argunique_from]; [ cbn; lia | ].
  destruct l as [ | y l']; [ cbn; lia | ].
  inversion Hall as [ | ? ? Hx Hrest]; subst.
  inversion Hrest as [ | ? ? Hy _]; subst.
  rewrite Reqb_true by reflexivity. now apply IH.
Qed.

Section SingleTimeStep.

Context {astronomy : Astronomy}.

(** X1: a time column that holds one time only stops [create_obs] at
    line 50 with [TypeError], before anything is logged: [bin_width] is
    then the int [time.size], which takes no item assignment. *)
Theorem one_time_step_raises (hdr : Header.t) (params : Params.t)
    (cfg : Config.t) (fs : filesystem) (t0 : R) :
  Params.time params <> [] ->
  Forall (fun t => t = t0) (Params.time params) ->
  create_obs hdr params cfg fs = ([], Raise TypeError).
Proof.
  intros _ Hall. unfold create_obs, create_obs_locals, obs_before_metafits, time_bins.
  assert (Hlen := argunique_from_constant t0 _ 0%nat Hall).
  fold (idl_argunique (Params.time params)) in Hlen.
  replace (1 <? length (idl_argunique (Params.time params)))%nat with false
    by (symmetry; apply Nat.ltb_ge; exact Hlen).
  reflexivity.
Qed.

End SingleTimeStep.

Lemma one_time_step_raises_witness :
  @create_obs example_astronomy small_header one_time_step full_config no_files
    = ([], Raise TypeError).
Proof.
  apply (@one_time_step_raises example_astronomy _ _ _ _ 1).
  - discriminate.
  - repeat constructor.
Defined.

(** Reading and writing a run of consecutive positions. *)
Lemma np_take_seq {A} (pre l post : list A) :
  np_take (pre ++ l ++ post) (seq (length pre) (length l)) = ret l.
Proof.
  revert pre; induction l as [ | x l IH]; intros pre; cbn [length seq np_take]; [ reflexivity | ].
  cbn [app]. rewrite np_take_at.
  specialize (IH (pre ++ [x])). rewrite length_app, <- app_assoc in IH.
  cbn [length app] in IH. rewrite Nat.add_1_r in IH.
  now rewrite IH, bind_ret.
Qed.

Lemma set_nth_at {A} (pre : list A) (x v : A) (post : list A) :
  set_nth (pre ++ x :: post) (length pre) v = pre ++ v :: post.
Proof. induction pre as [ | y pre IH]; cbn; [ reflexivity | now rewrite IH ]. Qed.

Lemma np_put_seq {A} (pre old vals post : list A) :
  length old = length vals ->
  np_put (pre ++ old ++ post) (seq (length pre) (length vals)) vals
  = ret (pre ++ vals ++ post).
Proof.
  revert pre old; induction vals as [ | v vals IH]; intros pre old Hlen.
  - destruct old; [ reflexivity | discriminate ].
  - destruct old as [ | o old]; [ discriminate | ].
    cbn [length seq np_put app].
    assert (Hlt : (length pre <? length (pre ++ o :: old ++ post))%nat = true).
    { apply Nat.ltb_lt. rewrite length_app. cbn [length]. lia. }
    rewrite Hlt, set_nth_at.
    specialize (IH (pre ++ [v]) old). rewrite length_app, <- !app_assoc in IH.
    cbn [length app] in IH. rewrite Nat.add_1_r in IH.
    apply IH. now injection Hlen.
Qed.

Lemma zip_with_length_l {A B C} (f : A -> B -> C) (l1 : list A) (l2 : list B) :
  (length l1 <= length l2)%nat -> length (zip_with f l1 l2) = length l1.
Proof.
  revert l2; induction l1 as [ | a l1 IH]; intros [ | b l2] H; cbn in *; try lia.
  rewrite IH; lia.
Qed.

(** Lines 46-50 on an index list of at least two entries. *)
Lemma zip_with_steps (x : Z) (l : list Z) :
  zip_with (fun a b => IZR (a - b)) l (x :: l) = map IZR (steps x l).
Proof.
  revert x; induction l as [ | y l IH]; intros x; cbn; [ reflexivity | ].
  now rewrite IH.
Qed.

Lemma zip_with_firstn {A B C} (f : A -> B -> C) (l1 : list A) (l2 : list B) :
  zip_with f l1 (firstn (length l1) l2) = zip_with f l1 l2.
Proof.
  revert l2; induction l1 as [ | a l1 IH]; intros [ | b l2]; cbn; try reflexivity.
  now rewrite IH.
Qed.

Lemma trunc_IZR (z : Z) : trunc (IZR z) = z.
Proof.
  unfold trunc, Rleb. destruct (Rle_dec 0 (IZR z)).
  - apply ZfloorZ.
  - unfold Zceil. rewrite <- opp_IZR, ZfloorZ. lia.
Qed.

Lemma cumsum_from_IZR (acc : Z) (l : list Z) :
  map trunc (cumsum_from (IZR acc) (map IZR l))
  = map (fun k => (acc + Zsum (firstn (S k) l))%Z) (seq 0 (length l)).
Proof.
  revert acc; induction l as [ | x l IH]; intros acc; cbn [map cumsum_from length seq]; [ reflexivity | ].
  rewrite <- plus_IZR, trunc_IZR, IH. f_equal.
  - cbn. lia.
  - rewrite <- seq_shift, map_map. apply map_ext. intros k. cbn [firstn Zsum fold_right].
    unfold Zsum. lia.
Qed.

Lemma last_default {A} (l : list A) (d d' : A) : l <> [] -> last l d = last l d'.
Proof.
  induction l as [ | x l IH]; intros H; [ easy | ].
  destruct l as [ | y l]; [ reflexivity | ].
  cbn [last] in *. apply IH. easy.
Qed.

Lemma Zsum_steps (prev : Z) (l : list Z) :
  Zsum (steps prev l) = (last l prev - prev)%Z.
Proof.
  revert prev; induction l as [ | x l IH]; intros prev; cbn [steps Zsum fold_right]; [ cbn; lia | ].
  fold (Zsum (steps x l)). rewrite IH. destruct l as [ | y l]; [ cbn; lia | ].
  rewrite (last_default (y :: l) x prev) by easy.
  change (last (x :: y :: l) prev) with (last (y :: l) prev). lia.
Qed.

Lemma Rsum_map_IZR (l : list Z) : Rsum (map IZR l) = IZR (Zsum l).
Proof.
  induction l as [ | x l IH]; cbn; [ reflexivity | ].
  fold (Rsum (map IZR l)) (Zsum l). now rewrite IH, plus_IZR.
Qed.

(** The indices [idl_argunique] returns increase, and the last one is the
    last index of the column. *)
Lemma argunique_from_last (l : list R) (i : nat) (d : Z) :
  l <> [] -> last (argunique_from i l) d = Z.of_nat (i + length l - 1).
Proof.
  revert i; induction l as [ | x l IH]; intros i Hl; [ easy | ].
  cbn [argunique_from]. destruct l as [ | y l'].
  - cbn. f_equal. lia.
  - assert (Hne : y :: l' <> []) by easy.
    specialize (IH (S i) Hne).
    replace (i + length (x :: y :: l') - 1)%nat with (S i + length (y :: l') - 1)%nat
      by (cbn [length]; lia).
    destruct (Reqb x y); [ exact IH | ].
    assert (Hne' := argunique_from_nonempty (y :: l') (S i) Hne).
    destruct (argunique_from (S i) (y :: l')) eqn:E; [ contradiction | ].
    exact IH.
Qed.

Lemma steps_positive (prev : Z) (l : list Z) :
  StronglySorted Z.lt (prev :: l) -> Forall (fun w => (1 <= w)%Z) (steps prev l).
Proof.
  revert prev; induction l as [ | x l IH]; intros prev Hs; cbn [steps]; constructor.
  - inversion Hs as [ | ? ? _ Hall]; subst. inversion Hall; subst. lia.
  - apply IH. now inversion Hs.
Qed.

Lemma argunique_from_sorted (l : list R) (i : nat) (prev : Z) :
  (prev < Z.of_nat i)%Z -> StronglySorted Z.lt (prev :: argunique_from i l).
Proof.
  revert i prev; induction l as [ | x l IH]; intros i prev Hp; cbn [argunique_from].
  - repeat constructor.
  - assert (Hrange : forall j, (i <= j)%nat ->
                       Forall (Z.lt prev) (argunique_from j l)).
    { intros j Hj. eapply Forall_impl; [ | apply argunique_from_range ].
      cbn beta. intros z Hz. lia. }
    destruct l as [ | y l'].
    + repeat constructor. exact Hp.
    + destruct (Reqb x y).
      * apply IH. lia.
      * constructor.
        -- apply IH. lia.
        -- constructor; [ exact Hp | apply Hrange; lia ].
Qed.

Lemma np_take_tail {A} (x : A) (l : list A) :
  np_take (x :: l) (seq 1 (length l)) = ret l.
Proof.
  pose proof (np_take_seq [x] l []) as H.
  cbn [app length] in H. now rewrite app_nil_r in H.
Qed.

Lemma np_take_init {A} (l : list A) (m : nat) :
  (m <= length l)%nat -> np_take l (seq 0 m) = ret (firstn m l).
Proof.
  intros Hm.
  assert (Hl : length (firstn m l) = m) by (rewrite length_firstn; lia).
  pose proof (np_take_seq [] (firstn m l) (skipn m l)) as H.
  cbn [app length] in H. now rewrite firstn_skipn, Hl in H.
Qed.

Lemma np_put_tail {A} (x : A) (old vals : list A) (m : nat) :
  length old = m -> length vals = m ->
  np_put (x :: old) (seq 1 m) vals = ret (x :: vals).
Proof.
  intros Hold Hvals. subst m. assert (Hlen : length old = length vals) by easy.
  rewrite <- Hvals.
  pose proof (np_put_seq [x] old vals [] Hlen) as H.
  cbn [app length] in H. now rewrite !app_nil_r in H.
Qed.

Lemma length_steps (prev : Z) (l : list Z) : length (steps prev l) = length l.
Proof. revert prev; induction l as [ | x l IH]; intros prev; cbn; [ easy | now rewrite IH ]. Qed.

(** Lines 41-56 in closed form: the widths are the steps of the index list
    from -1, the offsets their running sums. *)
Lemma time_bins_run (time : list R) (b0 : Z) (rest : list Z) :
  idl_argunique time = b0 :: rest -> rest <> [] ->
  time_bins time
  = ret (S (length rest), map IZR (steps (-1) (b0 :: rest)),
         0%Z :: map trunc (np_cumsum (firstn (length rest)
                                        (map IZR (steps (-1) (b0 :: rest)))))).
Proof.
  intros Hb Hrest. unfold time_bins. rewrite Hb. cbn [length].
  assert (Hn : (1 <? S (length rest))%nat = true).
  { apply Nat.ltb_lt. destruct rest; [ easy | cbn; lia ]. }
  rewrite Hn. replace (S (length rest) - 1)%nat with (length rest) by lia.
  rewrite np_take_tail, bind_ret.
  rewrite <- seq_shift, map_map. cbn [Nat.pred]. rewrite map_id.
  rewrite np_take_init by (cbn [length]; lia).
  rewrite bind_ret, zip_with_firstn, zip_with_steps, seq_shift.
  cbn [map].
  rewrite (np_put_tail _ _ _ (length rest))
    by (now rewrite !length_map, ?length_steps).
  rewrite bind_ret. cbn [steps map].
  now replace (b0 - -1)%Z with (b0 + 1)%Z by lia.
Qed.

Lemma time_bins_inv (time : list R) lg r :
  time_bins time = (lg, Ok r) ->
  exists b0 rest, idl_argunique time = b0 :: rest /\ rest <> [].
Proof.
  unfold time_bins. destruct (idl_argunique time) as [ | b0 [ | b1 rest]]; cbn [length Nat.ltb Nat.leb].
  - discriminate.
  - discriminate.
  - intros _. now exists b0, (b1 :: rest).
Qed.

Lemma nth_running_sums (ws : list Z) (m i : nat) :
  (i <= m)%nat ->
  nth i (0%Z :: map (fun k => Zsum (firstn (S k) ws)) (seq 0 m)) 0%Z
  = Zsum (firstn i ws).
Proof.
  intros Hi. destruct i as [ | i]; [ reflexivity | ].
  cbn [nth].
  rewrite (nth_indep _ 0%Z (Zsum (firstn (S 0) ws)))
    by (rewrite length_map, length_seq; lia).
  rewrite (map_nth (fun k => Zsum (firstn (S k) ws)) (seq 0 m) 0%nat i).
  rewrite seq_nth by lia. reflexivity.
Qed.

(** X2: the time bins of lines 41-56, for a chronological time column.
    When [time_bins] returns, there are at least two time steps; every bin
    width is a whole number of at least one visibility, the widths add up
    to the number of visibilities, and the offset of a time step is the
    number of visibilities before it. *)
Theorem time_bins_partition (time : list R) lg n_time bin_width bin_offset :
  chronological time ->
  time_bins time = (lg, Ok (n_time, bin_width, bin_offset)) ->
  lg = [] /\
  (1 < n_time)%nat /\
  length bin_width = n_time /\
  length bin_offset = n_time /\
  Forall (fun w => exists k : Z, (1 <= k)%Z /\ w = IZR k) bin_width /\
  Rsum bin_width = INR (length time) /\
  forall i, (i < n_time)%nat ->
    IZR (nth i bin_offset 0%Z) = Rsum (firstn i bin_width).
Proof.
  intros _ H. destruct (time_bins_inv _ _ _ H) as (b0 & rest & Hb & Hrest).
  rewrite (time_bins_run time b0 rest Hb Hrest) in H.
  apply ret_inv in H as [-> Heq]. injection Heq as <- <- <-.
  set (ws := steps (-1) (b0 :: rest)).
  change (IZR (b0 - -1) :: map IZR (steps b0 rest)) with (map IZR ws).
  assert (Hwlen : length ws = S (length rest)) by apply length_steps.
  assert (Htime : time <> []) by (intros ->; discriminate).
  assert (Hsorted : StronglySorted Z.lt ((-1)%Z :: b0 :: rest)).
  { rewrite <- Hb. apply argunique_from_sorted. lia. }
  assert (Hlast : last (b0 :: rest) (-1)%Z = Z.of_nat (length time - 1)).
  { rewrite <- Hb. unfold idl_argunique.
    now rewrite (argunique_from_last time 0 (-1)%Z Htime). }
  assert (Hoff : map trunc (np_cumsum (firstn (length rest) (map IZR ws)))
                 = map (fun k => Zsum (firstn (S k) ws)) (seq 0 (length rest))).
  { unfold np_cumsum. rewrite firstn_map.
    change 0 with (IZR 0). rewrite cumsum_from_IZR.
    rewrite length_firstn, Hwlen, Nat.min_l by lia.
    apply map_ext_in. intros k Hk. apply in_seq in Hk.
    rewrite firstn_firstn, Nat.min_l by lia. lia. }
  rewrite Hoff.
  split; [ reflexivity | ].
  split; [ destruct rest; [ easy | cbn; lia ] | ].
  split; [ now rewrite length_map | ].
  split; [ cbn [length]; now rewrite length_map, length_seq | ].
  split.
  { apply Forall_map. eapply Forall_impl; [ | apply (steps_positive _ _ Hsorted) ].
    cbn beta. intros k Hk. now exists k. }
  split.
  { rewrite Rsum_map_IZR. unfold ws. rewrite Zsum_steps, Hlast.
    rewrite INR_IZR_INZ. f_equal.
    destruct time; [ easy | cbn [length]; lia ]. }
  intros i Hi. rewrite nth_running_sums by lia.
  now rewrite firstn_map, Rsum_map_IZR.
Qed.

Lemma time_bins_partition_witness :
  exists bin_width bin_offset,
    chronological [1; 1; 2] /\
    time_bins [1; 1; 2] = ([], Ok (2%nat, bin_width, bin_offset)) /\
    Rsum bin_width = INR 3 /\
    forall i, (i < 2)%nat ->
      IZR (nth i bin_offset 0%Z) = Rsum (firstn i bin_width).
Proof.
  assert (Hu : idl_argunique [1; 1; 2] = [1; 2]%Z).
  { unfold idl_argunique; cbn [argunique_from].
    rewrite (Reqb_true 1 1), (Reqb_false 1 2) by lra. reflexivity. }
  pose proof (time_bins_run [1; 1; 2] 1 [2]%Z Hu ltac:(discriminate)) as Hrun.
  assert (Hord : chronological [1; 1; 2]) by (repeat constructor; lra).
  eexists _, _. split; [ exact Hord | split; [ exact Hrun | ] ].
  destruct (time_bins_partition _ _ _ _ _ Hord Hrun) as (_ & _ & _ & _ & _ & Hs & Ho).
  split; [ exact Hs | exact Ho ].
Defined.

(* ================================================================== *)
(** * Further properties of the tile columns *)
(* ================================================================== *)

(** X3: the tile count of the packed branch (lines 90-96).  A run that
    returns has decoded two columns of floats; the tile count it leaves is
    numerically their largest entry.  When the announced count equals it,
    the announced count is kept and nothing is logged; otherwise one
    warning is logged and the count becomes the float read off the data. *)
Theorem packed_tile_count (n_tile : pynum) (params : Params.t) lg t :
  decode_baselines n_tile params = (lg, Ok t) ->
  exists data : R,
    is_maximum data (values (tile_A t) ++ values (tile_B t)) /\
    to_R (tiles_n_tile t) = data /\
    (data = to_R n_tile -> lg = [] /\ tiles_n_tile t = n_tile) /\
    (data <> to_R n_tile ->
       lg = [LogRecord WARNING (MismatchedTiles n_tile (PyFloat data))] /\
       tiles_n_tile t = PyFloat data).
Proof.
  unfold decode_baselines.
  destruct (Params.baseline_arr params) as [ | b bs] eqn:Hb; [ discriminate | ].
  cbn [np_min_R]. rewrite bind_ret.
  set (baseline_min := fold_left Rmin bs b).
  destruct (Rleb baseline_min 0); [ discriminate | ].
  set (m := antenna_mod_index baseline_min).
  unfold decode_tile_A, decode_tile_B. cbn [map np_max np_max_R]. rewrite !bind_ret.
  set (max_A := fold_left Rmax (map (fun b => IZR (np_floor (b / m))) bs)
                          (IZR (np_floor (b / m)))).
  set (max_B := fold_left Rmax (map (fun b => IZR (trunc (b / m))) bs)
                          (IZR (trunc (b / m)))).
  assert (Hdata : py_max (PyFloat max_A) (PyFloat max_B) = PyFloat (Rmax max_A max_B)).
  { unfold py_max. cbn [to_R]. fold (py_max_R max_A max_B).
    rewrite <- py_max_R_Rmax. unfold py_max_R. now destruct (Rltb max_A max_B). }
  rewrite Hdata. cbn [to_R].
  assert (Hmax : is_maximum (Rmax max_A max_B)
                   ((IZR (np_floor (b / m)) :: map (fun b => IZR (np_floor (b / m))) bs)
                    ++ (IZR (trunc (b / m)) :: map (fun b => IZR (trunc (b / m))) bs))).
  { apply is_maximum_app; apply fold_left_Rmax_is_maximum. }
  intros H. exists (Rmax max_A max_B).
  destruct (Reqb (Rmax max_A max_B) (to_R n_tile)) eqn:Heq; cbn [negb] in H.
  - rewrite bind_ret in H. apply ret_inv in H as [-> <-].
    cbn [tile_A tile_B tiles_n_tile values].
    apply Reqb_iff in Heq.
    split; [ exact Hmax | split; [ now symmetry | split; [ easy | intros Hne; contradiction ] ] ].
  - unfold warning in H. rewrite bind_Ok in H. cbn [ret fst snd app] in H.
    rewrite bind_Ok in H. cbn [ret fst snd app] in H.
    injection H as <- <-. cbn [tile_A tile_B tiles_n_tile values to_R].
    split; [ exact Hmax | split; [ reflexivity | split; [ | easy ] ] ].
    intros Hyes. apply Reqb_iff in Hyes. congruence.
Qed.

Lemma packed_tile_count_witness :
  exists lg t data,
    decode_baselines (PyInt 3) packed_baselines = (lg, Ok t) /\
    to_R (tiles_n_tile t) = data /\
    (data <> 3 ->
       lg = [LogRecord WARNING (MismatchedTiles (PyInt 3) (PyFloat data))] /\
       tiles_n_tile t = PyFloat data).
Proof.
  destruct (resolve_tiles_packed_inv _ _ _ _ packed_example_run eq_refl) as (lg & Hrun).
  destruct (packed_tile_count _ _ _ _ Hrun) as (data & _ & Hn & _ & Hne).
  eexists lg, _, data. split; [ exact Hrun | split; [ exact Hn | exact Hne ] ].
Defined.

(** The tile count a returning run of the packed branch leaves: the
    announced one, or a float. *)
Lemma decode_baselines_n_tile (n_tile : pynum) (params : Params.t) lg t :
  decode_baselines n_tile params = (lg, Ok t) ->
  (tiles_n_tile t = n_tile /\ lg = []) \/ exists r, tiles_n_tile t = PyFloat r.
Proof.
  unfold decode_baselines.
  destruct (Params.baseline_arr params) as [ | b bs]; [ discriminate | ].
  cbn [np_min_R]. rewrite bind_ret.
  destruct (Rleb _ 0); [ discriminate | ].
  unfold decode_tile_A, decode_tile_B. cbn [map np_max np_max_R]. rewrite !bind_ret.
  intros H.
  destruct (negb _).
  - right. unfold warning in H. rewrite bind_Ok in H. cbn [ret fst snd app] in H.
    rewrite bind_Ok in H. cbn [ret fst snd app] in H.
    injection H as <- <-. cbn [tiles_n_tile]. unfold py_max.
    destruct (Rltb _ _); eexists; reflexivity.
  - left. rewrite bind_ret in H. apply ret_inv in H as [-> <-]. now cbn.
Qed.

(** The fallback of lines 200-221 returns only for a tile count that is an
    integer and not negative. *)
Lemma header_branch_inv (obs : Obs.t) (hdr : Header.t) (params : Params.t)
    (b0i : list Z) lg tm :
  header_branch obs hdr params b0i = (lg, Ok tm) ->
  exists n, Obs.n_tile obs = PyInt n /\ (0 <= n)%Z.
Proof.
  intros H. destruct (Obs.n_tile obs) as [n | r] eqn:Hn.
  - exists n. split; [ reflexivity | ].
    destruct (Z.ltb_spec n 0) as [Hneg | Hpos]; [ exfalso | exact Hpos ].
    revert H. unfold header_branch, histogram. rewrite Hn.
    rewrite !bind_ret, (Rleb_false 1 0) by lra. rewrite !bind_ret.
    unfold np_zeros. replace (n <? 0)%Z with true by (symmetry; now apply Z.ltb_lt).
    discriminate.
  - rewrite (header_branch_float_tile_count obs hdr params b0i r Hn) in H. discriminate.
Qed.

Lemma bind_pure {A B} (a : A) (k : A -> M B) : bind ([], Ok a) k = k a.
Proof. exact (bind_ret a k). Qed.

(** Reading an array logs nothing. *)
Lemma np_take_logs {A} (a : list A) (idx : list nat) : fst (np_take a idx) = [].
Proof.
  induction idx as [ | i idx IH]; cbn [np_take]; [ reflexivity | ].
  destruct (nth_error a i); [ | reflexivity ].
  destruct (np_take a idx) as [l r]; cbn [fst] in IH; subst l.
  now destruct r.
Qed.

(* ================================================================== *)
(** * Further properties of [create_obs] as a whole *)
(* ================================================================== *)

Section WholeRuns.

Context {astronomy : Astronomy}.

Lemma read_metafits_inv (obs : Obs.t) (hdr : Header.t) (params : Params.t)
    (cfg : Config.t) (fs : filesystem) lg meta :
  read_metafits obs hdr params cfg fs = (lg, Ok meta) ->
  exists jdate JD0 tm,
    np_take (Params.time params) (map Z.to_nat (idl_argunique (Params.time params)))
      = ret jdate /\
    np_min_R jdate = ret JD0 /\
    match metafits_of cfg fs with
    | Some metadata => metafits_branch hdr cfg metadata
    | None => header_branch obs hdr params (idl_argunique (Params.time params))
    end = (lg, Ok tm) /\
    Meta.jdate meta = jdate /\
    Meta.JD0 meta = JD0 /\
    Meta.tile_names meta = tm_tile_names tm /\
    Meta.tile_height meta = tm_tile_height tm /\
    Meta.tile_flag meta = tm_tile_flag tm /\
    Meta.time_res meta = tm_time_res tm /\
    Meta.phasera meta = tm_phasera tm /\
    Meta.phasedec meta = tm_phasedec tm /\
    Meta.obsx meta = IZR (Obs.dimension obs) / 2 /\
    Meta.obsy meta = IZR (Obs.elements obs) / 2.
Proof.
  unfold read_metafits; intros H.
  destruct (np_take _ _) as [lj [jdate | e]] eqn:Hj; [ | discriminate ].
  assert (Hlj : lj = []).
  { pose proof (np_take_logs (Params.time params)
                  (map Z.to_nat (idl_argunique (Params.time params)))) as Hl.
    now rewrite Hj in Hl. }
  subst lj. rewrite bind_pure in H.
  destruct jdate as [ | j jdate]; [ discriminate | ].
  cbn [np_min_R] in H. rewrite bind_ret in H.
  bind_inv H as tm Htm.
  destruct (altaz_to_radec _ _ _ _ _ _) as [zenra zendec].
  destruct (project_slant_orthographic _ _ _) as [[astr zenx] zeny].
  destruct (radec_to_altaz _ _ _ _ _ _) as [obsalt obsaz].
  apply ret_inv in H as [-> <-]. rewrite app_nil_r in Elog. subst lg.
  exists (j :: jdate), (fold_left Rmin jdate j), tm.
  repeat split; try reflexivity. exact Htm.
Qed.

(** X4: without a METAFITS file, a run of [create_obs] that returns has
    an integer tile count that is not negative; in the packed branch it is
    the count the header announces and the branch has logged nothing, for a
    count corrected from the data is a float, on which [np.zeros] of the
    fallback raises. *)
Theorem fallback_keeps_announced_tile_count (hdr : Header.t) (params : Params.t)
    (cfg : Config.t) (fs : filesystem) lg obs :
  create_obs hdr params cfg fs = (lg, Ok obs) ->
  metafits_of cfg fs = None ->
  (exists n, Obs.n_tile obs = PyInt n /\ (0 <= n)%Z) /\
  (has_antenna_columns params = ret false ->
   Obs.n_tile obs = PyInt (Header.n_tile hdr) /\
   exists t, resolve_tiles hdr params = ([], Ok t)).
Proof.
  intros H Hnone.
  apply create_obs_inv in H as (l & bi & params' & l' & meta & Hbefore & Hmeta & _).
  apply read_metafits_inv in Hmeta as (jdate & JD0 & tm & _ & _ & Hbranch & _).
  rewrite Hnone in Hbranch.
  apply header_branch_inv in Hbranch as (n & Hn & Hpos).
  split; [ now exists n | ].
  intros Hpacked.
  apply obs_before_metafits_tiles in Hbefore as (lt & t & Htiles & _ & _ & Hcount & _).
  assert (Hdecode : decode_baselines (PyInt (Header.n_tile hdr)) params = (lt, Ok t)).
  { unfold resolve_tiles in Htiles. now rewrite Hpacked, bind_ret in Htiles. }
  destruct (decode_baselines_n_tile _ _ _ _ Hdecode) as [[Hkept ->] | [r Hfloat]].
  - split; [ congruence | now exists t ].
  - congruence.
Qed.


(** X5: in every run of [create_obs] that returns, the resolution and the
    grid size of [obs] are not zero and [degpix] is the angle of one
    radian, in degrees, divided by their product. *)
Theorem returned_degpix (hdr : Header.t) (params : Params.t)
    (cfg : Config.t) (fs : filesystem) lg obs :
  create_obs hdr params cfg fs = (lg, Ok obs) ->
  Obs.kbinsize obs <> 0 /\
  Obs.dimension obs <> 0%Z /\
  Obs.degpix obs = 180 / PI / (Obs.kbinsize obs * IZR (Obs.dimension obs)) /\
  Obs.degpix obs <> 0.
Proof.
  intros H.
  pose proof (returned_kbinsize _ _ _ _ _ _ H) as Hk.
  pose proof (returned_dimension _ _ _ _ _ _ H) as [Hd _].
  apply create_obs_inv in H as (l & bi & p & l' & meta & Hbefore & _ & _).
  apply obs_before_metafits_imaging in Hbefore as (l1 & l2 & l3 & mb & _ & _ & Hdeg).
  unfold imaging_degpix, py_div in Hdeg. rewrite Hk, Hd in Hdeg.
  destruct (Reqb _ 0) eqn:Hz; [ discriminate | ].
  apply ret_inv in Hdeg as [_ Hdeg].
  assert (Hprod : Obs.kbinsize obs * IZR (Obs.dimension obs) <> 0).
  { intros Heq. apply (Reqb_true _ 0) in Heq. congruence. }
  assert (Hkz : Obs.kbinsize obs <> 0) by (intros E; apply Hprod; rewrite E; lra).
  assert (Hdz : Obs.dimension obs <> 0%Z).
  { intros E; apply Hprod; rewrite E; lra. }
  split; [ exact Hkz | split; [ exact Hdz | split; [ now symmetry | ] ] ].
  rewrite <- Hdeg. assert (P := PI_RGT_0).
  unfold Rdiv. repeat apply Rmult_integral_contrapositive_currified;
    try lra; apply Rinv_neq_0_compat; lra || exact Hprod.
Qed.


(** X6: a field of view of zero.  Line 109 divides by it although the
    value is overwritten on the lines that follow: lines 108-113 raise
    [ZeroDivisionError] whatever [kbinsize] is configured, and no run of
    [create_obs] returns. *)
Theorem zero_FoV_raises (cfg : Config.t) :
  Config.FoV cfg = Some 0 ->
  imaging_kbinsize cfg = ([], Raise ZeroDivisionError) /\
  forall hdr params fs lg obs, create_obs hdr params cfg fs <> (lg, Ok obs).
Proof.
  intros Hfov.
  assert (Hraise : imaging_kbinsize cfg = ([], Raise ZeroDivisionError)).
  { unfold imaging_kbinsize, py_div. rewrite Hfov, (Reqb_true 0 0) by reflexivity.
    reflexivity. }
  split; [ exact Hraise | ].
  intros hdr params fs lg obs H.
  apply create_obs_inv in H as (l & bi & p & l' & meta & Hbefore & _ & _).
  apply obs_before_metafits_imaging in Hbefore as (l1 & l2 & l3 & mb & Hk & _ & _).
  rewrite Hraise in Hk. discriminate.
Qed.


End WholeRuns.

Lemma fallback_keeps_announced_tile_count_witness :
  exists lg obs n,
    @create_obs example_astronomy small_header two_baselines full_config no_files
      = (lg, Ok obs) /\
    Obs.n_tile obs = PyInt n /\ (0 <= n)%Z.
Proof.
  destruct example_run_without_file as (lg & obs & Hrun).
  destruct (proj1 (@fallback_keeps_announced_tile_count example_astronomy
                     _ _ _ _ _ _ Hrun eq_refl)) as (n & Hn & Hpos).
  now exists lg, obs, n.
Defined.

Lemma returned_degpix_witness :
  exists lg obs,
    @create_obs example_astronomy small_header two_baselines full_config no_files
      = (lg, Ok obs) /\
    Obs.degpix obs = 180 / PI / (Obs.kbinsize obs * IZR (Obs.dimension obs)).
Proof.
  destruct example_run_without_file as (lg & obs & Hrun).
  exists lg, obs. split; [ exact Hrun | ].
  exact (proj1 (proj2 (proj2 (@returned_degpix example_astronomy _ _ _ _ _ _ Hrun)))).
Defined.

Lemma zero_FoV_raises_witness :
  imaging_kbinsize zero_fov_config = ([], Raise ZeroDivisionError) /\
  Config.kbinsize zero_fov_config = Some 1.
Proof.
  split; [ | reflexivity ].
  exact (proj1 (@zero_FoV_raises example_astronomy zero_fov_config eq_refl)).
Defined.

(* ================================================================== *)
(** * Further properties of [read_metafits] *)
(* ================================================================== *)

(** ** The sort of line 182 *)

Lemma insert_row_sorted (r : Metafits.row) (l : list Metafits.row) :
  StronglySorted antenna_le l -> StronglySorted antenna_le (insert_row r l).
Proof.
  induction 1 as [ | r' l Hs IH Hall]; cbn [insert_row].
  - repeat constructor.
  - destruct (Z.leb_spec (Metafits.Antenna r') (Metafits.Antenna r)) as [Hle | Hgt].
    + constructor; [ exact IH | ].
      eapply Permutation_Forall; [ apply insert_row_perm | ].
      constructor; [ exact Hle | exact Hall ].
    + constructor; [ now constructor | ].
      constructor; [ unfold antenna_le; lia | ].
      eapply Forall_impl; [ | exact Hall ]. unfold antenna_le. cbn beta. intros r''. lia.
Qed.

Lemma insert_row_filter (a : Z) (r : Metafits.row) (l : list Metafits.row) :
  StronglySorted antenna_le l ->
  filter (has_antenna a) (insert_row r l)
  = filter (has_antenna a) l ++ (if has_antenna a r then [r] else []).
Proof.
  induction 1 as [ | r' l Hs IH Hall]; cbn [insert_row].
  - cbn [filter app]. now destruct (has_antenna a r).
  - destruct (Z.leb_spec (Metafits.Antenna r') (Metafits.Antenna r)) as [Hle | Hgt].
    + cbn [filter]. rewrite IH. now destruct (has_antenna a r').
    + cbn [filter]. destruct (has_antenna a r) eqn:Hr.
      * assert (Hnone : filter (has_antenna a) (r' :: l) = []).
        { unfold has_antenna in Hr. apply Z.eqb_eq in Hr.
          assert (Hall' : Forall (fun x => has_antenna a x = false) (r' :: l)).
          { constructor.
            - unfold has_antenna. apply Z.eqb_neq. lia.
            - eapply Forall_impl; [ | exact Hall ]. unfold antenna_le, has_antenna.
              cbn beta. intros x Hx. apply Z.eqb_neq. lia. }
          clear - Hall'. induction Hall' as [ | x l' Hx _ IH']; [ reflexivity | ].
          cbn [filter]. now rewrite Hx. }
        cbn [filter] in Hnone. now rewrite Hnone.
      * now rewrite app_nil_r.
Qed.

Lemma sort_by_antenna_from (a : Z) (l acc : list Metafits.row) :
  StronglySorted antenna_le acc ->
  StronglySorted antenna_le (fold_left (fun acc r => insert_row r acc) l acc) /\
  filter (has_antenna a) (fold_left (fun acc r => insert_row r acc) l acc)
  = filter (has_antenna a) acc ++ filter (has_antenna a) l.
Proof.
  revert acc; induction l as [ | r l IH]; intros acc Hacc; cbn [fold_left].
  - split; [ exact Hacc | now rewrite app_nil_r ].
  - destruct (IH (insert_row r acc) (insert_row_sorted r acc Hacc)) as [Hs Hf].
    split; [ exact Hs | ].
    rewrite Hf, insert_row_filter, <- app_assoc by exact Hacc.
    f_equal. cbn [filter]. now destruct (has_antenna a r).
Qed.

(** X7: line 182 is a stable sort by antenna number.  The sorted table is
    a permutation of the table of the file, its antenna numbers do not
    decrease, and the rows of one antenna keep the order they have in the
    file. *)
Theorem sort_by_antenna_stable (l : list Metafits.row) :
  Permutation l (sort_by_antenna l) /\
  StronglySorted antenna_le (sort_by_antenna l) /\
  forall a, filter (has_antenna a) (sort_by_antenna l) = filter (has_antenna a) l.
Proof.
  split; [ apply sort_by_antenna_perm | ].
  split.
  - exact (proj1 (sort_by_antenna_from 0 l [] (SSorted_nil _))).
  - intros a. exact (proj2 (sort_by_antenna_from a l [] (SSorted_nil _))).
Qed.

(** ** The flag check on a table that is flagged throughout *)

Lemma np_sum_ones (l : list Z) :
  Forall (fun f => f = 1%Z) l -> np_sum l = Z.of_nat (length l).
Proof.
  induction 1 as [ | f l Hf _ IH]; [ reflexivity | ].
  rewrite np_sum_cons, IH, Hf. cbn [length]. lia.
Qed.

Section FlaggedThroughout.

Context {astronomy : Astronomy}.

(** X8: a table in which every row is flagged.  The test of line 187
    compares the number of flagged rows with the number of rows less one,
    so that such a table passes it: nothing is logged, whatever
    [run_simulation] is, and [read_metafits] returns the flags. *)
Theorem all_tiles_flagged_silent (obs : Obs.t) (hdr : Header.t) (params : Params.t)
    (cfg : Config.t) (fs : filesystem) (metadata : Metafits.file) :
  Params.time params <> [] ->
  metafits_of cfg fs = Some metadata ->
  Metafits.data metadata <> [] ->
  Forall (fun r => Metafits.flag r = 1%Z) (Metafits.data metadata) ->
  exists meta,
    read_metafits obs hdr params cfg fs = ([], Ok meta) /\
    Meta.tile_flag meta = repeat 1%Z (length (Metafits.data metadata)).
Proof.
  intros Htime Hfile Hdata Hall.
  destruct (metafits_branch_run hdr cfg metadata Hdata) as (names & heights & Hrun).
  assert (Hperm := sort_by_antenna_perm (Metafits.data metadata)).
  assert (Hones : Forall (fun f => f = 1%Z)
                    (map Metafits.flag (sort_by_antenna (Metafits.data metadata)))).
  { apply Forall_map. eapply Permutation_Forall; [ exact Hperm | exact Hall ]. }
  assert (Hlen : length (map Metafits.flag (sort_by_antenna (Metafits.data metadata)))
                 = length (Metafits.data metadata)).
  { rewrite length_map. symmetry. now apply Permutation_length. }
  rewrite check_tile_flags_cases, (np_sum_ones _ Hones) in Hrun.
  replace (_ =? _)%Z with false in Hrun by (symmetry; apply Z.eqb_neq; lia).
  rewrite bind_Ok in Hrun. cbn [ret fst snd app] in Hrun.
  destruct (read_metafits_returns obs hdr params cfg fs [] _ Htime
              (eq_trans (f_equal (fun o => match o with
                                           | Some metadata => metafits_branch hdr cfg metadata
                                           | None => header_branch obs hdr params
                                                       (idl_argunique (Params.time params))
                                           end) Hfile) Hrun))
    as (meta & Hmeta & Hflag & _).
  exists meta. split; [ exact Hmeta | ].
  rewrite Hflag. cbn [tm_tile_flag]. rewrite <- Hlen.
  clear - Hones. induction Hones as [ | f l Hf _ IH]; [ reflexivity | ].
  cbn [length repeat]. now rewrite Hf, <- IH.
Qed.

End FlaggedThroughout.

Lemma all_tiles_flagged_silent_witness :
  exists meta,
    @read_metafits example_astronomy small_obs small_header two_baselines
      full_config all_flagged_files = ([], Ok meta) /\
    Meta.tile_flag meta = [1; 1; 1; 1]%Z.
Proof.
  exact (@all_tiles_flagged_silent example_astronomy small_obs small_header two_baselines
           full_config all_flagged_files all_flagged_metafits
           ltac:(discriminate) eq_refl ltac:(discriminate)
           ltac:(repeat constructor)).
Defined.

(** ** The columns read from the tile table *)

Lemma np_min_R_logs (l : list R) : fst (np_min_R l) = [].
Proof. now destruct l. Qed.

Lemma check_tile_flags_Ok (cfg : Config.t) (tile_flag : list Z) lg u :
  check_tile_flags cfg tile_flag = (lg, Ok u) ->
  lg = [] \/ lg = [LogRecord WARNING all_flagged_message].
Proof.
  rewrite check_tile_flags_cases.
  destruct (_ =? _)%Z; [ destruct (Config.run_simulation cfg) | ]; intros H;
    try discriminate; injection H as <- _; auto.
Qed.

Lemma metafits_branch_inv (hdr : Header.t) (cfg : Config.t) (metadata : Metafits.file)
    lg tm :
  metafits_branch hdr cfg metadata = (lg, Ok tm) ->
  exists first rest,
    sort_by_antenna (Metafits.data metadata) = first :: rest /\
    tm_tile_names tm
    = map Metafits.tile
        (filter (fun r => String.eqb (Metafits.pol r) (Metafits.pol first)) (first :: rest)) /\
    tm_tile_height tm
    = map (fun r => Metafits.height r - Header.alt hdr)
        (filter (fun r => String.eqb (Metafits.pol r) (Metafits.pol first)) (first :: rest)) /\
    tm_tile_flag tm = map Metafits.flag (first :: rest).
Proof.
  unfold metafits_branch.
  destruct (sort_by_antenna (Metafits.data metadata)) as [ | first rest]; [ discriminate | ].
  rewrite !np_take_where, !bind_ret. intros H.
  bind_inv H as u Hu. apply ret_inv in H as [_ <-].
  exists first, rest. cbn [tm_tile_names tm_tile_height tm_tile_flag].
  rewrite map_map. repeat split; reflexivity.
Qed.

Section TileTable.

Context {astronomy : Astronomy}.

(** X9: the columns [read_metafits] takes from a METAFITS table (lines
    182-186).  The table has a row; [tile_names] and [tile_height] hold one
    entry for each row whose polarisation is that of the first row of the
    sorted table, a row of the smallest antenna number, while [tile_flag]
    holds one entry for every row, so that the flag column is as long as
    the table and never shorter than the name column. *)
Theorem metafits_tile_columns (obs : Obs.t) (hdr : Header.t) (params : Params.t)
    (cfg : Config.t) (fs : filesystem) (metadata : Metafits.file) lg meta :
  metafits_of cfg fs = Some metadata ->
  read_metafits obs hdr params cfg fs = (lg, Ok meta) ->
  exists first,
    In first (Metafits.data metadata) /\
    (forall r, In r (Metafits.data metadata) -> antenna_le first r) /\
    let same_pol :=
      filter (fun r => String.eqb (Metafits.pol r) (Metafits.pol first))
             (sort_by_antenna (Metafits.data metadata)) in
    Meta.tile_names meta = map Metafits.tile same_pol /\
    Meta.tile_height meta = map (fun r => Metafits.height r - Header.alt hdr) same_pol /\
    Meta.tile_flag meta = map Metafits.flag (sort_by_antenna (Metafits.data metadata)) /\
    length (Meta.tile_flag meta) = length (Metafits.data metadata) /\
    (length (Meta.tile_names meta) <= length (Meta.tile_flag meta))%nat.
Proof.
  intros Hfile H.
  apply read_metafits_inv in H
    as (jdate & JD0 & tm & _ & _ & Hbranch & _ & _ & Hnames & Hheight & Hflag & _).
  rewrite Hfile in Hbranch.
  apply metafits_branch_inv in Hbranch as (first & rest & Hsort & Hn & Hh & Hf).
  assert (Hperm := sort_by_antenna_perm (Metafits.data metadata)).
  assert (Hsorted : StronglySorted antenna_le (first :: rest)).
  { rewrite <- Hsort. exact (proj1 (sort_by_antenna_from 0 _ [] (SSorted_nil _))). }
  exists first. rewrite Hsort in *.
  split; [ eapply Permutation_in; [ apply Permutation_sym; exact Hperm | now left ] | ].
  split.
  { intros r Hr. apply (Permutation_in _ Hperm) in Hr as [<- | Hr].
    - unfold antenna_le. lia.
    - inversion Hsorted as [ | ? ? _ Hall]; subst.
      rewrite Forall_forall in Hall. now apply Hall. }
  cbn zeta. rewrite Hnames, Hheight, Hflag, Hn, Hh, Hf.
  split; [ reflexivity | split; [ reflexivity | split; [ reflexivity | ] ] ].
  rewrite !length_map.
  split; [ symmetry; now apply Permutation_length | apply filter_length_le ].
Qed.

End TileTable.

Lemma metafits_tile_columns_witness :
  exists lg meta,
    @read_metafits example_astronomy small_obs small_header two_baselines
      full_config metafits_files = (lg, Ok meta) /\
    length (Meta.tile_flag meta) = 4%nat /\
    (length (Meta.tile_names meta) <= length (Meta.tile_flag meta))%nat.
Proof.
  destruct (metafits_branch_run small_header full_config example_metafits
              ltac:(discriminate)) as (names & heights & Hrun).
  rewrite check_tile_flags_cases in Hrun.
  replace (_ =? _)%Z with false in Hrun by reflexivity.
  rewrite bind_Ok in Hrun. cbn [ret fst snd app] in Hrun.
  destruct (@read_metafits_returns example_astronomy small_obs small_header two_baselines
              full_config metafits_files _ _ ltac:(discriminate) Hrun)
    as (meta & Hmeta & _).
  destruct (@metafits_tile_columns example_astronomy _ _ _ _ _ _ _ _ eq_refl Hmeta)
    as (first & _ & _ & _ & _ & _ & Hlen & Hle).
  exists [], meta. split; [ exact Hmeta | split; [ exact Hlen | exact Hle ] ].
Defined.

(** ** The Julian dates *)

Lemma np_take_argunique (pre l : list R) :
  np_take (pre ++ l) (map Z.to_nat (argunique_from (length pre) l)) = ret (run_ends l).
Proof.
  revert pre; induction l as [ | x l IH]; intros pre; [ reflexivity | ].
  assert (Hstep : np_take (pre ++ x :: l) (map Z.to_nat (argunique_from (S (length pre)) l))
                  = ret (run_ends l)).
  { specialize (IH (pre ++ [x])). rewrite length_app, <- app_assoc in IH.
    cbn [length app] in IH. now rewrite Nat.add_1_r in IH. }
  cbn [argunique_from run_ends]. destruct l as [ | y l'].
  - cbn [map np_take]. rewrite Nat2Z.id, np_take_at. reflexivity.
  - destruct (Reqb x y); [ exact Hstep | ].
    cbn [map np_take]. rewrite Nat2Z.id, np_take_at, Hstep. reflexivity.
Qed.

Lemma run_ends_In (l : list R) (x : R) : In x (run_ends l) <-> In x l.
Proof.
  induction l as [ | a l IH]; [ reflexivity | ].
  cbn [run_ends]. destruct l as [ | b l'].
  - reflexivity.
  - destruct (Reqb a b) eqn:Hab.
    + apply Reqb_iff in Hab. subst b. rewrite IH. cbn [In]. tauto.
    + change (In x (a :: run_ends (b :: l'))) with (a = x \/ In x (run_ends (b :: l'))).
      rewrite IH. reflexivity.
Qed.

Lemma run_ends_head (x : R) (l : list R) : hd_error (run_ends (x :: l)) = Some x.
Proof.
  revert x; induction l as [ | y l IH]; intros x; [ reflexivity | ].
  cbn [run_ends]. destruct (Reqb x y) eqn:Hxy; [ | reflexivity ].
  apply Reqb_iff in Hxy. subst y. apply IH.
Qed.

Lemma run_ends_distinct (l : list R) (i : nat) (a b : R) :
  nth_error (run_ends l) i = Some a ->
  nth_error (run_ends l) (S i) = Some b ->
  a <> b.
Proof.
  revert i; induction l as [ | x l IH]; intros i; [ now destruct i | ].
  cbn [run_ends]. destruct l as [ | y l'].
  - destruct i as [ | [ | i]]; discriminate.
  - destruct (Reqb x y) eqn:Hxy; [ apply IH | ].
    destruct i as [ | i].
    + cbn [nth_error]. intros Ha Hb. injection Ha as <-.
      pose proof (run_ends_head y l') as Hy.
      destruct (run_ends (y :: l')) as [ | z zs]; [ discriminate | ].
      cbn [hd_error nth_error] in Hy, Hb. injection Hy as ->. injection Hb as <-.
      intros Heq. apply (Reqb_true x y) in Heq. congruence.
    + cbn [nth_error]. apply IH.
Qed.

Lemma is_minimum_ext (m : R) (l l' : list R) :
  (forall x, In x l <-> In x l') -> is_minimum m l -> is_minimum m l'.
Proof.
  intros Hext [Hin Hle]. split; [ now apply Hext | ].
  intros x Hx. apply Hle. now apply Hext.
Qed.

Section JulianDates.

Context {astronomy : Astronomy}.

(** X10: the Julian dates of lines 168-173, for a chronological time
    column.  [jdate] holds the time stamp of every time step once: the
    values of [time] with each run of equal neighbours contracted, so that
    neighbours in [jdate] differ and it has the values of [time]; [JD0] is
    the earliest time stamp of [time]. *)
Theorem julian_date_zero (obs : Obs.t) (hdr : Header.t) (params : Params.t)
    (cfg : Config.t) (fs : filesystem) lg meta :
  chronological (Params.time params) ->
  read_metafits obs hdr params cfg fs = (lg, Ok meta) ->
  Meta.jdate meta = run_ends (Params.time params) /\
  (forall x, In x (Meta.jdate meta) <-> In x (Params.time params)) /\
  (forall i a b, nth_error (Meta.jdate meta) i = Some a ->
                 nth_error (Meta.jdate meta) (S i) = Some b -> a <> b) /\
  is_minimum (Meta.JD0 meta) (Params.time params).
Proof.
  intros _ H.
  apply read_metafits_inv in H
    as (jdate & JD0 & tm & Hj & Hmin & _ & Hjd & HJD0 & _).
  unfold idl_argunique in Hj.
  pose proof (np_take_argunique [] (Params.time params)) as Hends.
  cbn [app length] in Hends. rewrite Hends in Hj.
  apply ret_inv in Hj as [_ Hj].
  rewrite Hjd, HJD0, <- Hj.
  split; [ reflexivity | ].
  split; [ intros x; apply run_ends_In | ].
  split; [ apply run_ends_distinct | ].
  apply (is_minimum_ext _ (run_ends (Params.time params))); [ intros x; apply run_ends_In | ].
  rewrite Hj. eapply np_min_R_is_minimum. exact Hmin.
Qed.

(** X11: the astrometry that [read_metafits] stores (lines 171-172, 227
    and 266-290).  The grid of [astr] is that of [obs]; its reference
    pixel is the centre [dimension / 2], [elements / 2] moved by one; its
    pixel size is [degpix] on both axes; its reference value is the phase
    centre of [meta], its equinox 2000, and its modified Julian date is
    [JD0] less 2400000.5. *)
Theorem stored_astrometry (obs : Obs.t) (hdr : Header.t) (params : Params.t)
    (cfg : Config.t) (fs : filesystem) lg meta :
  read_metafits obs hdr params cfg fs = (lg, Ok meta) ->
  exists astr,
    Meta.astr meta = Some astr /\
    Astr.naxis astr = (Obs.dimension obs, Obs.elements obs) /\
    Astr.crpix astr = (IZR (Obs.dimension obs) / 2 + 1, IZR (Obs.elements obs) / 2 + 1) /\
    Astr.cdelt astr = (Obs.degpix obs, Obs.degpix obs) /\
    Astr.crval astr = (Meta.phasera meta, Meta.phasedec meta) /\
    Astr.pv2 astr = (xi meta, eta meta) /\
    Astr.equinox astr = 2000 /\
    Astr.mjd_obs astr = Meta.JD0 meta - 2400000.5.
Proof.
  unfold read_metafits, project_slant_orthographic; intros H.
  destruct (np_take _ _) as [lj [jdate | e]] eqn:Hj; [ | discriminate ].
  bind_inv H as jdate' Hjd. injection Hjd as -> <-.
  bind_inv H as JD0 Hmin.
  bind_inv H as tm Htm.
  destruct (altaz_to_radec _ _ _ _ _ _) as [zenra zendec].
  destruct (radec_to_pixel _ _ _) as [zenx zeny].
  destruct (radec_to_altaz _ _ _ _ _ _) as [obsalt obsaz].
  apply ret_inv in H as [_ <-].
  eexists. split; [ reflexivity | ].
  cbn. repeat split; reflexivity.
Qed.

End JulianDates.

Lemma julian_date_zero_witness :
  exists lg meta,
    @read_metafits example_astronomy small_obs small_header two_baselines
      full_config no_files = (lg, Ok meta) /\
    is_minimum (Meta.JD0 meta) (Params.time two_baselines).
Proof.
  destruct (header_branch_run small_obs small_header two_baselines
              (idl_argunique (Params.time two_baselines)) 3 eq_refl ltac:(lia))
    as (tm & Hrun & _).
  destruct (@read_metafits_returns example_astronomy small_obs small_header two_baselines
              full_config no_files _ tm ltac:(discriminate) Hrun)
    as (meta & Hmeta & _).
  exists [LogRecord WARNING no_metafits_message], meta. split; [ exact Hmeta | ].
  exact (proj2 (proj2 (proj2 (@julian_date_zero example_astronomy _ _ _ _ _ _ _
                                two_baselines_chronological Hmeta)))).
Defined.

Lemma stored_astrometry_witness :
  exists lg meta astr,
    @read_metafits example_astronomy small_obs small_header two_baselines
      full_config no_files = (lg, Ok meta) /\
    Meta.astr meta = Some astr /\
    Astr.naxis astr = (4, 4)%Z.
Proof.
  destruct (header_branch_run small_obs small_header two_baselines
              (idl_argunique (Params.time two_baselines)) 3 eq_refl ltac:(lia))
    as (tm & Hrun & _).
  destruct (@read_metafits_returns example_astronomy small_obs small_header two_baselines
              full_config no_files _ tm ltac:(discriminate) Hrun)
    as (meta & Hmeta & _).
  destruct (@stored_astrometry example_astronomy _ _ _ _ _ _ _ Hmeta)
    as (astr & Hastr & Hnaxis & _).
  exists [LogRecord WARNING no_metafits_message], meta, astr.
  split; [ exact Hmeta | split; [ exact Hastr | exact Hnaxis ] ].
Defined.

(* ================================================================== *)
(** * Further properties of the projection *)
(* ================================================================== *)

Section ProjectionOffsets.

Context {astronomy : Astronomy}.

(** X12: when [parallactic_angle] returns a number [p] (not nan), the
    offsets [xi] and [eta] of lines 259-260 are numbers: the components of
    a vector of length [tan] of the zenith angle, at right angles to the
    direction of [p], so that the sum of their squares is the square of
    that tangent. *)
Theorem slant_offsets_norm (meta : Meta.t) (p : R) :
  parallactic_ang meta = Some p ->
  exists x e : R,
    xi meta = Some x /\
    eta meta = Some e /\
    x ^ 2 + e ^ 2 = (tan (radians (zenith_ang meta))) ^ 2 /\
    x * cos (radians p) + e * sin (radians p) = 0.
Proof.
  intros Hp. unfold xi, eta. rewrite Hp.
  set (t := tan (radians (zenith_ang meta))).
  set (a := radians p).
  pose proof (sin2_cos2 a) as Ha. unfold Rsqr in Ha.
  exists (-1 * t * sin a), (t * cos a).
  split; [ reflexivity | split; [ reflexivity | split; [ | ring ] ] ].
  replace ((-1 * t * sin a) ^ 2 + (t * cos a) ^ 2)
    with (t ^ 2 * (sin a * sin a + cos a * cos a)) by ring.
  rewrite Ha. ring.
Qed.

(** X13: the longitude offset of lines 252-255, for right ascensions in
    [0, 360).  It is the difference [d] of the two right ascensions, moved
    by one full turn when [d] exceeds 90 degrees in size; it lies between
    -270 and 270, and when it was moved its sign is opposite to that of
    [d]. *)
Theorem lon_offset_turn (meta : Meta.t) :
  0 <= Meta.phasera meta < 360 ->
  0 <= Meta.zenra meta < 360 ->
  let d := Meta.phasera meta - Meta.zenra meta in
  (Rabs d <= 90 -> lon_offset meta = d) /\
  (90 < d -> lon_offset meta = d - 360 /\ -270 < lon_offset meta < 0) /\
  (d < -90 -> lon_offset meta = d + 360 /\ 0 < lon_offset meta < 270) /\
  -270 < lon_offset meta < 270.
Proof.
  intros Hp Hz d. unfold lon_offset. fold d.
  unfold Rltb, Rabs.
  destruct (Rcase_abs d) as [Hneg | Hpos];
    destruct (Rlt_dec 90 _) as [Hfar | Hnear];
    destruct (Rlt_dec (Meta.zenra meta) (Meta.phasera meta)) as [Hlt | Hge];
    repeat split; intros; unfold d in *; lra.
Qed.

End ProjectionOffsets.

Lemma slant_offsets_norm_witness :
  exists x e : R,
    @xi example_astronomy zenith_meta = Some x /\
    @eta example_astronomy zenith_meta = Some e /\
    x ^ 2 + e ^ 2 = (tan (radians (zenith_ang zenith_meta))) ^ 2.
Proof.
  destruct (@slant_offsets_norm example_astronomy zenith_meta (lon_offset zenith_meta)
              eq_refl) as (x & e & Hx & He & Hnorm & _).
  exists x, e. split; [ exact Hx | split; [ exact He | exact Hnorm ] ].
Defined.

Lemma lon_offset_turn_witness :
  @lon_offset zenith_meta = 0 /\ -270 < @lon_offset zenith_meta < 270.
Proof.
  destruct (lon_offset_turn zenith_meta ltac:(cbn; lra) ltac:(cbn; lra))
    as (Hnear & _ & _ & Hrange).
  split; [ | exact Hrange ].
  rewrite Hnear; cbn [zenith_meta Meta.phasera Meta.zenra].
  - lra.
  - replace (0 - 0) with 0 by lra. rewrite Rabs_R0. lra.
Defined.

(* ================================================================== *)
(** * Further properties of the time steps *)
(* ================================================================== *)

Lemma np_take_nth {A} (a : list A) (idx : list nat) (xs : list A) (d : A) :
  np_take a idx = ret xs ->
  forall k, (k < length idx)%nat -> nth k xs d = nth (nth k idx 0%nat) a d.
Proof.
  revert xs; induction idx as [ | i idx IH]; intros xs H k Hk; [ cbn in Hk; lia | ].
  cbn [np_take] in H. destruct (nth_error a i) as [x | ] eqn:Hx; [ | discriminate ].
  destruct (np_take a idx) as [l [ys | e]] eqn:Hys; [ | discriminate ].
  pose proof (np_take_logs a idx) as Hl. rewrite Hys in Hl. cbn [fst] in Hl. subst l.
  rewrite bind_pure in H. apply ret_inv in H as [_ <-].
  destruct k as [ | k]; cbn [nth].
  - symmetry. now apply nth_error_nth.
  - apply (IH ys eq_refl). cbn [length] in Hk. lia.
Qed.

Lemma length_argunique_from (l : list R) (i : nat) :
  length (argunique_from i l) = length (run_ends l).
Proof.
  revert i; induction l as [ | x l IH]; intros i; [ reflexivity | ].
  cbn [argunique_from run_ends]. destruct l as [ | y l']; [ reflexivity | ].
  destruct (Reqb x y); [ apply IH | cbn [length]; now rewrite IH ].
Qed.

(** The time stamp at the [k]-th index of [idl_argunique] is the [k]-th
    Julian date. *)
Lemma time_at_argunique (time : list R) (k : nat) :
  (k < length (run_ends time))%nat ->
  nth (Z.to_nat (nth k (idl_argunique time) 0%Z)) time 0 = nth k (run_ends time) 0.
Proof.
  intros Hk.
  pose proof (np_take_argunique [] time) as Hends. cbn [app length] in Hends.
  rewrite (np_take_nth _ _ _ 0 Hends k)
    by (rewrite length_map, length_argunique_from; exact Hk).
  f_equal. change 0%nat with (Z.to_nat 0). now rewrite map_nth.
Qed.

Lemma np_fill_logs {A} (a : list A) (idx : list nat) (v : A) : fst (np_fill a idx v) = [].
Proof.
  revert a; induction idx as [ | i idx IH]; intros a; cbn [np_fill]; [ reflexivity | ].
  destruct (i <? length a)%nat; [ apply IH | reflexivity ].
Qed.

Lemma np_zeros_logs {A} (zero : A) (n : pynum) : fst (np_zeros zero n) = [].
Proof.
  unfold np_zeros. destruct n as [z | r]; [ | reflexivity ].
  now destruct (z <? 0)%Z.
Qed.

(** A step that logs nothing, in front of a run that returns. *)
Lemma bind_silent_inv {A B} (m : M A) (k : A -> M B) lg b :
  fst m = [] ->
  bind m k = (lg, Ok b) ->
  exists a, m = ret a /\ k a = (lg, Ok b).
Proof.
  intros Hm H. bind_inv H as a Ha. exists a.
  rewrite Ha in Hm. cbn [fst] in Hm. subst. split; [ reflexivity | ].
  now cbn [app].
Qed.

(** Lines 200-221 when they return. *)
Lemma header_branch_record (obs : Obs.t) (hdr : Header.t) (params : Params.t)
    (b0i : list Z) lg tm :
  header_branch obs hdr params b0i = (lg, Ok tm) ->
  lg = [LogRecord WARNING no_metafits_message] /\
  tm_obsra tm = Header.obsra hdr /\ tm_obsdec tm = Header.obsdec hdr /\
  tm_phasera tm = Header.obsra hdr /\ tm_phasedec tm = Header.obsdec hdr /\
  tm_delays tm = None /\
  tm_time_res tm =
    (if (1 <? length b0i)%nat
     then (nth (Z.to_nat (nth 1 b0i 0%Z)) (Params.time params) 0
           - nth (Z.to_nat (nth 0 b0i 0%Z)) (Params.time params) 0) * 24 * 3600
     else 1).
Proof.
  unfold header_branch, histogram.
  rewrite !bind_ret, (Rleb_false 1 0) by lra. rewrite !bind_ret.
  unfold warning. rewrite bind_Ok. cbn [fst snd].
  intros H. injection H as Hlg H.
  match type of H with
  | snd ?m = _ => destruct m as [l r] eqn:Hrest
  end.
  cbn [fst snd] in Hlg, H. subst r.
  apply bind_silent_inv in Hrest as (heights & _ & Hrest); [ | apply np_zeros_logs ].
  apply bind_silent_inv in Hrest as (flags & _ & Hrest); [ | apply np_zeros_logs ].
  apply bind_silent_inv in Hrest as (flags' & _ & Hrest);
    [ | destruct (0 <? _)%nat; [ apply np_fill_logs | reflexivity ] ].
  apply ret_inv in Hrest as [-> <-]. subst lg.
  cbn. repeat split; reflexivity.
Qed.

Section TimeResolution.

Context {astronomy : Astronomy}.

Lemma julian_dates_of_meta (obs : Obs.t) (hdr : Header.t) (params : Params.t)
    (cfg : Config.t) (fs : filesystem) lg meta :
  read_metafits obs hdr params cfg fs = (lg, Ok meta) ->
  Meta.jdate meta = run_ends (Params.time params) /\
  (forall i a b, nth_error (Meta.jdate meta) i = Some a ->
                 nth_error (Meta.jdate meta) (S i) = Some b -> a <> b).
Proof.
  intros H.
  apply read_metafits_inv in H as (jdate & JD0 & tm & Hj & _ & _ & Hjd & _).
  unfold idl_argunique in Hj.
  pose proof (np_take_argunique [] (Params.time params)) as Hends.
  cbn [app length] in Hends. rewrite Hends in Hj.
  apply ret_inv in Hj as [_ Hj]. rewrite Hjd, <- Hj.
  split; [ reflexivity | apply run_ends_distinct ].
Qed.

(** X14: the time resolution of the fallback (lines 213-221), for a
    chronological time column.  Without a
    METAFITS file [time_res] is the step between the first two Julian
    dates in seconds, and 1 when there is one date only; it is never
    zero.  The phase centre and the pointing are both the [obsra] and
    [obsdec] of the header, there are no delays, and the one record
    logged is the warning. *)
Theorem fallback_time_res (obs : Obs.t) (hdr : Header.t) (params : Params.t)
    (cfg : Config.t) (fs : filesystem) lg meta :
  chronological (Params.time params) ->
  metafits_of cfg fs = None ->
  read_metafits obs hdr params cfg fs = (lg, Ok meta) ->
  lg = [LogRecord WARNING no_metafits_message] /\
  Meta.time_res meta =
    match Meta.jdate meta with
    | j0 :: j1 :: _ => (j1 - j0) * 24 * 3600
    | _ => 1
    end /\
  Meta.time_res meta <> 0 /\
  Meta.phasera meta = Header.obsra hdr /\
  Meta.phasedec meta = Header.obsdec hdr.
Proof.
  intros _ Hnone H.
  pose proof (julian_dates_of_meta obs hdr params cfg fs lg meta H) as (Hjd & Hdiff).
  apply read_metafits_inv in H
    as (jdate & JD0 & tm & _ & _ & Hbranch & _ & _ & _ & _ & _ & Hres & Hra & Hdec & _).
  rewrite Hnone in Hbranch.
  apply header_branch_record in Hbranch as (Hlg & _ & _ & Hpra & Hpdec & _ & Htr).
  rewrite Hra, Hdec, Hpra, Hpdec.
  assert (Hval : Meta.time_res meta =
                 match Meta.jdate meta with
                 | j0 :: j1 :: _ => (j1 - j0) * 24 * 3600
                 | _ => 1
                 end).
  { rewrite Hres, Htr, Hjd. unfold idl_argunique at 1.
    rewrite length_argunique_from.
    destruct (run_ends (Params.time params)) as [ | j0 [ | j1 js]] eqn:Hends;
      cbn [length Nat.ltb Nat.leb]; try reflexivity.
    rewrite (time_at_argunique (Params.time params) 1),
            (time_at_argunique (Params.time params) 0)
      by (rewrite Hends; cbn [length]; lia).
    now rewrite Hends. }
  split; [ exact Hlg | split; [ exact Hval | split; [ | easy ] ] ].
  rewrite Hval.
  destruct (Meta.jdate meta) as [ | j0 [ | j1 js]] eqn:Hm; try lra.
  assert (Hne : j0 <> j1) by (apply (Hdiff 0%nat); reflexivity).
  intros Hz. apply Hne. nra.
Qed.

End TimeResolution.

Lemma fallback_time_res_witness :
  exists lg meta,
    @read_metafits example_astronomy small_obs small_header two_baselines
      full_config no_files = (lg, Ok meta) /\
    Meta.time_res meta <> 0.
Proof.
  destruct (header_branch_run small_obs small_header two_baselines
              (idl_argunique (Params.time two_baselines)) 3 eq_refl ltac:(lia))
    as (tm & Hrun & _).
  destruct (@read_metafits_returns example_astronomy small_obs small_header two_baselines
              full_config no_files _ tm ltac:(discriminate) Hrun)
    as (meta & Hmeta & _).
  exists [LogRecord WARNING no_metafits_message], meta. split; [ exact Hmeta | ].
  exact (proj1 (proj2 (proj2 (@fallback_time_res example_astronomy _ _ _ _ _ _ _
                                two_baselines_chronological eq_refl Hmeta)))).
Defined.

(** ** The counts of [obs] *)

(** The first index [idl_argunique] returns closes the run of the first
    time stamp. *)
Lemma argunique_first_run (x : R) (l : list R) (i : nat) :
  exists a,
    argunique_from i (x :: l)
    = Z.of_nat (i + a) :: argunique_from (i + S a) (skipn (S a) (x :: l)) /\
    firstn (S a) (x :: l) = repeat x (S a) /\
    forall y, hd_error (skipn (S a) (x :: l)) = Some y -> x <> y.
Proof.
  revert x i; induction l as [ | y l IH]; intros x i.
  - exists 0%nat. cbn. rewrite Nat.add_0_r. repeat split. discriminate.
  - change (argunique_from i (x :: y :: l))
      with (if Reqb x y then argunique_from (S i) (y :: l)
            else Z.of_nat i :: argunique_from (S i) (y :: l)).
    destruct (Reqb x y) eqn:Hxy.
    + apply Reqb_iff in Hxy. subst y.
      destruct (IH x (S i)) as (a & Hidx & Hrun & Hnext).
      exists (S a). rewrite Hidx.
      replace (S i + a)%nat with (i + S a)%nat by lia.
      replace (S i + S a)%nat with (i + S (S a))%nat by lia.
      split; [ reflexivity | ].
      split; [ change (firstn (S (S a)) (x :: x :: l)) with (x :: firstn (S a) (x :: l));
               now rewrite Hrun | exact Hnext ].
    + exists 0%nat. rewrite Nat.add_0_r, Nat.add_1_r. cbn [skipn firstn repeat hd_error].
      repeat split. intros z Hz. injection Hz as <-.
      intros Heq. apply (Reqb_true x y) in Heq. congruence.
Qed.

Lemma obs_before_metafits_times (hdr : Header.t) (params : Params.t) (cfg : Config.t)
    lg obs baseline_info params' :
  obs_before_metafits hdr params cfg = (lg, Ok (obs, baseline_info, params')) ->
  exists l bin_width,
    time_bins (Params.time params)
    = (l, Ok (Obs.n_time obs, bin_width, BaselineInfo.bin_offset baseline_info)) /\
    Obs.n_baselines obs = nth 0 bin_width 0 /\
    Obs.n_vis obs = (Z.of_nat (length (Params.time params)) * Header.n_freq hdr)%Z /\
    Obs.n_vis_raw obs = Obs.n_vis obs /\
    Obs.n_vis_in obs = Obs.n_vis obs /\
    Obs.n_freq obs = Header.n_freq hdr /\
    length (Obs.n_vis_arr obs) = Z.to_nat (Header.n_freq hdr) /\
    (0 <= Header.n_freq hdr)%Z.
Proof.
  unfold obs_before_metafits; intros H.
  bind_inv H as [[n_time bin_width] bin_offset] Htime.
  bind_inv H as n_vis_arr Hvis.
  bind_inv H as [[beam fbin_i] freq_center] Hfreq.
  bind_inv H as t Htiles.
  bind_inv H as [[[kx ky] kr] max_baseline] Hext.
  bind_inv H as kbinsize Hk.
  bind_inv H as [dimension elements] Hdim.
  bind_inv H as degpix Hdeg.
  bind_inv H as [longest shortest] Hlim.
  apply ret_inv in H as [_ Heq]. injection Heq as <- <- <-.
  exists l, bin_width. cbn.
  unfold np_zeros in Hvis. destruct (Z.ltb_spec (Header.n_freq hdr) 0); [ discriminate | ].
  apply ret_inv in Hvis as [_ <-]. rewrite repeat_length.
  repeat split; try reflexivity; try assumption.
Qed.

Section Counts.

Context {astronomy : Astronomy}.

(** X15: the counts of a returned [obs] (lines 43-57), for a chronological
    time column.  There are at least
    two time steps, as many as [time] has runs of equal neighbours;
    [n_vis], [n_vis_raw] and [n_vis_in] are all the number of entries of
    [time] times the number of channels, and [n_vis_arr] has one entry per
    channel.  [n_baselines] is the length of the first run of [time]: the
    number of visibilities that carry the first time stamp before the
    first change. *)
Theorem returned_counts (hdr : Header.t) (params : Params.t)
    (cfg : Config.t) (fs : filesystem) lg obs :
  chronological (Params.time params) ->
  create_obs hdr params cfg fs = (lg, Ok obs) ->
  (2 <= Obs.n_time obs)%nat /\
  Obs.n_time obs = length (run_ends (Params.time params)) /\
  Obs.n_vis obs = (Z.of_nat (length (Params.time params)) * Obs.n_freq obs)%Z /\
  Obs.n_vis_raw obs = Obs.n_vis obs /\
  Obs.n_vis_in obs = Obs.n_vis obs /\
  length (Obs.n_vis_arr obs) = Z.to_nat (Obs.n_freq obs) /\
  exists a t1 t2 later,
    Params.time params = repeat t1 (S a) ++ t2 :: later /\
    t1 <> t2 /\
    Obs.n_baselines obs = INR (S a).
Proof.
  intros _ H.
  apply create_obs_inv in H as (l & bi & p & l' & meta & Hbefore & _ & _).
  apply obs_before_metafits_times in Hbefore
    as (lt & bin_width & Htime & Hnb & Hvis & Hraw & Hin & Hfreq & Harr & _).
  destruct (time_bins_inv _ _ _ Htime) as (b0 & rest & Hb & Hrest).
  rewrite (time_bins_run _ b0 rest Hb Hrest) in Htime.
  apply ret_inv in Htime as [_ Heq]. injection Heq as Hn Hw _.
  assert (Hlen : length (run_ends (Params.time params)) = S (length rest)).
  { rewrite <- length_argunique_from with (i := 0%nat).
    fold (idl_argunique (Params.time params)). now rewrite Hb. }
  split; [ rewrite <- Hn; destruct rest; [ easy | cbn [length]; lia ] | ].
  split; [ now rewrite Hlen | ].
  rewrite Hfreq.
  split; [ exact Hvis | split; [ exact Hraw | split; [ exact Hin | split; [ exact Harr | ] ] ] ].
  destruct (Params.time params) as [ | t1 time'] eqn:Ht; [ discriminate | ].
  destruct (argunique_first_run t1 time' 0) as (a & Hidx & Hrun & Hnext).
  unfold idl_argunique in Hb. rewrite Hidx in Hb. injection Hb as Hb0 Hbrest.
  destruct (skipn (S a) (t1 :: time')) as [ | t2 later] eqn:Hskip.
  { cbn [skipn] in Hskip. rewrite Hskip in Hbrest.
    cbn [argunique_from] in Hbrest. exfalso. apply Hrest. now symmetry. }
  exists a, t1, t2, later.
  split; [ rewrite <- Hrun, <- Hskip; symmetry; apply firstn_skipn | ].
  split; [ now apply Hnext | ].
  rewrite Hnb, <- Hw. cbn [steps map nth]. rewrite <- Hb0, INR_IZR_INZ.
  f_equal. lia.
Qed.

End Counts.

Lemma returned_counts_witness :
  exists lg obs,
    @create_obs example_astronomy small_header two_baselines full_config no_files
      = (lg, Ok obs) /\
    (2 <= Obs.n_time obs)%nat /\
    Obs.n_vis_raw obs = Obs.n_vis obs.
Proof.
  destruct example_run_without_file as (lg & obs & Hrun).
  destruct (@returned_counts example_astronomy _ _ _ _ _ _
              two_baselines_chronological Hrun)
    as (Hn & _ & _ & Hraw & _).
  exists lg, obs. split; [ exact Hrun | split; [ exact Hn | exact Hraw ] ].
Defined.

(* ================================================================== *)
(** * Further properties of the baseline limits *)
(* ================================================================== *)

(** ** Two-dimensional reads *)

Lemma take_2d_logs {A} (x : list (list A)) (inds : list (nat * nat)) :
  fst (take_2d x inds) = [].
Proof.
  induction inds as [ | [i j] inds IH]; cbn [take_2d]; [ reflexivity | ].
  destruct (nth_error x i) as [row | ]; [ | reflexivity ].
  destruct (nth_error row j) as [v | ]; [ | reflexivity ].
  destruct (take_2d x inds) as [l r]; cbn [fst] in IH; subst l.
  now destruct r.
Qed.

Lemma take_2d_app {A} (x : list (list A)) (i1 i2 : list (nat * nat)) :
  take_2d x (i1 ++ i2)
  = (v1 <- take_2d x i1 ;; v2 <- take_2d x i2 ;; ret (v1 ++ v2)).
Proof.
  induction i1 as [ | [i j] i1 IH]; cbn [app take_2d].
  - rewrite bind_ret.
    pose proof (take_2d_logs x i2) as Hl.
    destruct (take_2d x i2) as [l [v | e]]; cbn [fst] in Hl; subst l; reflexivity.
  - destruct (nth_error x i) as [row | ]; [ | reflexivity ].
    destruct (nth_error row j) as [v | ]; [ | reflexivity ].
    rewrite IH.
    pose proof (take_2d_logs x i1) as Hl1.
    destruct (take_2d x i1) as [l1 [v1 | e]]; cbn [fst] in Hl1; subst l1; [ | reflexivity ].
    rewrite !bind_pure.
    pose proof (take_2d_logs x i2) as Hl2.
    destruct (take_2d x i2) as [l2 [v2 | e]]; cbn [fst] in Hl2; subst l2; reflexivity.
Qed.

Lemma take_2d_row {A} (x : list (list A)) (i : nat) (row : list A) (idx : list nat) :
  nth_error x i = Some row ->
  take_2d x (map (fun j => (i, j)) idx) = np_take row idx.
Proof.
  intros Hrow. induction idx as [ | j idx IH]; cbn [map take_2d np_take]; [ reflexivity | ].
  rewrite Hrow. destruct (nth_error row j); [ now rewrite IH | reflexivity ].
Qed.

(** The index pairs of [where_2d], for rows that start at row [length pre]. *)
Lemma where_2d_cons {B} (p : B -> bool) (n : nat) (row : list B) (s : list (list B)) :
  concat (map (fun ir : nat * list B => map (fun j => (fst ir, j)) (np_where p (snd ir)))
              (combine (seq n (S (length s))) (row :: s)))
  = map (fun j => (n, j)) (np_where p row)
    ++ concat (map (fun ir : nat * list B => map (fun j => (fst ir, j)) (np_where p (snd ir)))
                   (combine (seq (S n) (length s)) s)).
Proof. reflexivity. Qed.

Lemma take_2d_where_from {A} (p : A -> bool) (pre x : list (list A)) :
  take_2d (pre ++ x)
    (concat (map (fun ir : nat * list A => map (fun j => (fst ir, j)) (np_where p (snd ir)))
                 (combine (seq (length pre) (length x)) x)))
  = ret (filter p (concat x)).
Proof.
  revert pre; induction x as [ | row x IH]; intros pre; [ reflexivity | ].
  cbn [length]. rewrite where_2d_cons, take_2d_app.
  rewrite (take_2d_row _ _ row) by apply np_take_at.
  pose proof (np_take_where (fun v => v) p row) as Hrow. rewrite !map_id in Hrow.
  rewrite Hrow, bind_ret.
  specialize (IH (pre ++ [row])). rewrite length_app, <- app_assoc in IH.
  cbn [length app] in IH. rewrite Nat.add_1_r in IH.
  rewrite IH, bind_ret. cbn [concat]. now rewrite filter_app.
Qed.

Lemma take_2d_where_2d {A} (p : A -> bool) (x : list (list A)) :
  take_2d x (where_2d p x) = ret (filter p (concat x)).
Proof. exact (take_2d_where_from p [] x). Qed.

(** ** Broadcast rows *)

Lemma where_from_In {A} (p : A -> bool) (l : list A) (n j : nat) :
  In j (where_from p n l) ->
  exists x, nth_error l (j - n) = Some x /\ p x = true /\ (n <= j)%nat.
Proof.
  revert n; induction l as [ | x l IH]; intros n; cbn [where_from]; [ easy | ].
  intros Hj.
  assert (Hlater : In j (where_from p (S n) l) ->
                   exists y, nth_error (x :: l) (j - n) = Some y /\ p y = true /\ (n <= j)%nat).
  { intros H. apply IH in H as (y & Hy & Hp & Hle). exists y.
    replace (j - n)%nat with (S (j - S n)) by lia. cbn [nth_error].
    split; [ exact Hy | split; [ exact Hp | lia ] ]. }
  destruct (p x) eqn:Hpx; [ | now apply Hlater ].
  destruct Hj as [<- | Hj]; [ | now apply Hlater ].
  exists x. rewrite Nat.sub_diag. cbn [nth_error]. now split.
Qed.

Lemma nth_error_zip_with {A B C} (f : A -> B -> C) (r1 : list A) (r2 : list B) j c a :
  nth_error (zip_with f r1 r2) j = Some c ->
  nth_error r1 j = Some a ->
  exists b, nth_error r2 j = Some b /\ c = f a b.
Proof.
  revert r2 j; induction r1 as [ | a1 r1 IH]; intros [ | b1 r2] j; cbn [zip_with];
    try (destruct j; discriminate).
  destruct j as [ | j]; cbn [nth_error].
  - intros Hc Ha. injection Hc as <-. injection Ha as <-. now exists b1.
  - apply IH.
Qed.

Lemma bcast_row_true {A B} (f : A -> B -> bool) (r1 : list A) (r2 : list B) j v :
  nth_error (bcast_row f r1 r2) j = Some true ->
  nth_error r1 j = Some v ->
  exists w, f v w = true.
Proof.
  assert (Hl : forall a, r1 = [a] ->
                 nth_error (map (f a) r2) j = Some true ->
                 nth_error r1 j = Some v -> exists w, f v w = true).
  { intros a -> Ht Hv. destruct j as [ | j]; [ | now destruct j ].
    injection Hv as <-. destruct r2 as [ | b r2]; [ discriminate | ].
    injection Ht as Ht. now exists b. }
  assert (Hr : forall b, nth_error (map (fun a => f a b) r1) j = Some true ->
                 nth_error r1 j = Some v -> exists w, f v w = true).
  { intros b Ht Hv. rewrite nth_error_map, Hv in Ht. injection Ht as Ht. now exists b. }
  assert (Hz : nth_error (zip_with f r1 r2) j = Some true ->
               nth_error r1 j = Some v -> exists w, f v w = true).
  { intros Ht Hv. destruct (nth_error_zip_with _ _ _ _ _ _ Ht Hv) as (b & _ & Hb).
    now exists b. }
  unfold bcast_row.
  destruct r1 as [ | a [ | a' r1]].
  - destruct r2 as [ | b [ | b' r2]]; [ apply Hz | apply (Hr b) | apply Hz ].
  - apply (Hl a eq_refl).
  - destruct r2 as [ | b [ | b' r2]]; [ apply Hz | apply (Hr b) | apply Hz ].
Qed.

Lemma bcast_row_Forall {A B C} (f : A -> B -> C) (P : C -> Prop) (r1 : list A) (r2 : list B) :
  (forall a b, P (f a b)) -> Forall P (bcast_row f r1 r2).
Proof.
  intros Hf.
  assert (Hz : forall r1 r2, Forall P (zip_with f r1 r2)).
  { clear r1 r2. induction r1 as [ | a r1 IH]; intros [ | b r2]; cbn [zip_with];
      constructor; [ apply Hf | apply IH ]. }
  unfold bcast_row.
  destruct r1 as [ | a [ | a' r1]]; destruct r2 as [ | b [ | b' r2]];
    try apply Hz; apply Forall_map, Forall_forall; intros; apply Hf.
Qed.

Lemma bcast_rows_Forall {A B C} (f : A -> B -> C) (P : C -> Prop)
    (x : list (list A)) (y : list (list B)) :
  (forall a b, P (f a b)) -> Forall P (concat (zip_with (bcast_row f) x y)).
Proof.
  intros Hf. revert y; induction x as [ | r1 x IH]; intros [ | r2 y]; cbn [zip_with concat];
    try constructor.
  apply Forall_app. split; [ now apply bcast_row_Forall | apply IH ].
Qed.

(** Reading one array at the places where the broadcast test of two
    arrays holds gives entries that pass the test with some partner. *)
Lemma take_2d_support {A B} (f : A -> B -> bool) (pre x : list (list A))
    (y : list (list B)) lg vs :
  take_2d (pre ++ x)
    (concat (map (fun ir : nat * list bool =>
                    map (fun j => (fst ir, j)) (np_where (fun b : bool => b) (snd ir)))
                 (combine (seq (length pre) (length (zip_with (bcast_row f) x y)))
                          (zip_with (bcast_row f) x y))))
  = (lg, Ok vs) ->
  Forall (fun v => exists w, f v w = true) vs.
Proof.
  revert pre y lg vs; induction x as [ | r1 x IH]; intros pre [ | r2 y] lg vs;
    try (cbn [zip_with length seq combine map concat take_2d];
         intros H; apply ret_inv in H as [_ <-]; constructor).
  cbn [zip_with length]. rewrite where_2d_cons, take_2d_app.
  rewrite (take_2d_row _ _ r1) by apply np_take_at.
  intros H. bind_inv H as v1 H1. bind_inv H as v2 H2. apply ret_inv in H as [_ <-].
  apply Forall_app. split.
  - clear - H1.
    assert (Hidx : Forall (fun j => forall v, nth_error r1 j = Some v ->
                                     exists w, f v w = true)
                     (np_where (fun b : bool => b) (bcast_row f r1 r2))).
    { apply Forall_forall. intros j Hj v Hv.
      apply where_from_In in Hj as (b & Hb & Hp & _). rewrite Nat.sub_0_r in Hb. subst b.
      exact (bcast_row_true f r1 r2 j v Hb Hv). }
    revert l v1 H1. induction Hidx as [ | j idx Hj _ IHidx]; intros l v1 H1; cbn [np_take] in H1.
    + apply ret_inv in H1 as [_ <-]. constructor.
    + destruct (nth_error r1 j) as [v | ] eqn:Hv; [ | discriminate ].
      bind_inv H1 as vs' Hvs. apply ret_inv in H1 as [_ <-].
      constructor; [ now apply Hj | now apply (IHidx _ _ Hvs) ].
  - specialize (IH (pre ++ [r1]) y l1 v2). rewrite length_app, <- app_assoc in IH.
    cbn [length app] in IH. rewrite Nat.add_1_r in IH. now apply IH.
Qed.

(** ** Lines 133-138 *)

Lemma in_support_true (kbinsize : R) (dimension elements : Z) (kx ky : R) :
  in_support kbinsize dimension elements kx ky = true ->
  kbinsize <> 0 /\
  Rabs kx / kbinsize < IZR dimension / 2 /\
  Rabs ky / kbinsize < IZR elements / 2.
Proof.
  unfold in_support. intros H.
  apply andb_prop in H as [H Hy]. apply andb_prop in H as [Hk Hx].
  apply Rltb_iff in Hx, Hy.
  split; [ | now split ].
  intros Hz. apply (Reqb_true kbinsize 0) in Hz. now rewrite Hz in Hk.
Qed.

Lemma baseline_limits_inv (cfg : Config.t) (uu vv : list R)
    (kx_arr ky_arr kr_arr : list (list R)) (kbinsize : R) (dimension elements : Z)
    lg longest shortest :
  baseline_limits cfg uu vv kx_arr ky_arr kr_arr kbinsize dimension elements
    = (lg, Ok (longest, shortest)) ->
  (exists kx ky,
      In kx (concat kx_arr) /\ longest = Rabs kx /\
      in_support kbinsize dimension elements kx ky = true) /\
  (exists s,
      is_minimum s (filter (fun r => negb (Reqb r 0)) (concat kr_arr)) /\
      shortest = match Config.min_baseline cfg with
                 | None => s
                 | Some m => py_max_R m s
                 end).
Proof.
  unfold baseline_limits, bcast2; intros H.
  destruct (bcast_ok _ _); [ | discriminate ].
  rewrite bind_ret in H.
  bind_inv H as inside Hinside. bind_inv H as obs_max Hmax.
  rewrite take_2d_where_2d, bind_ret in H.
  bind_inv H as s Hmin.
  split.
  - apply np_max_R_is_maximum in Hmax as [Hin _].
    apply in_map_iff in Hin as (kx & Habs & Hkx).
    assert (Hsupport := take_2d_support (in_support kbinsize dimension elements)
                          [] kx_arr ky_arr _ _ Hinside).
    rewrite Forall_forall in Hsupport. destruct (Hsupport kx Hkx) as (ky & Hky).
    exists kx, ky.
    assert (Hmem : In kx (concat kx_arr)).
    { clear - Hinside Hkx. revert l inside Hinside kx Hkx.
      generalize (where_2d (fun b : bool => b)
                    (zip_with (bcast_row (in_support kbinsize dimension elements))
                              kx_arr ky_arr)).
      induction l as [ | [i j] inds IH]; intros lg inside H kx Hkx; cbn [take_2d] in H.
      - apply ret_inv in H as [_ <-]. contradiction.
      - destruct (nth_error kx_arr i) as [row | ] eqn:Hrow; [ | discriminate ].
        destruct (nth_error row j) as [v | ] eqn:Hv; [ | discriminate ].
        bind_inv H as vs Hvs. apply ret_inv in H as [_ <-].
        destruct Hkx as [<- | Hkx]; [ | now apply (IH _ _ Hvs) ].
        apply in_concat. exists row.
        split; [ eapply nth_error_In; exact Hrow | eapply nth_error_In; exact Hv ]. }
    split; [ exact Hmem | ].
    split; [ | exact Hky ].
    destruct (Config.min_baseline cfg); apply ret_inv in H as [_ Heq];
      injection Heq as <- _; now symmetry.
  - exists s. split; [ eapply np_min_R_is_minimum; exact Hmin | ].
    destruct (Config.min_baseline cfg); apply ret_inv in H as [_ Heq];
      now injection Heq as _ <-.
Qed.

Lemma baseline_extent_lengths (freq uu vv : list R) lg kx ky kr mb :
  baseline_extent freq uu vv = (lg, Ok (kx, ky, kr, mb)) ->
  Forall (fun r => 0 <= r) (concat kr) /\ 0 <= mb.
Proof.
  intros H. pose proof (baseline_extent_max _ _ _ _ _ _ _ _ H) as (_ & _ & [Hin _]).
  unfold baseline_extent, bcast2 in H.
  destruct (bcast_ok _ _); [ | discriminate ].
  rewrite bind_ret in H.
  bind_inv H as max_kx Hkx. bind_inv H as max_ky Hky.
  apply ret_inv in H as [_ Heq]. injection Heq as _ _ <- _.
  split.
  - apply bcast_rows_Forall. intros a b. apply sqrt_pos.
  - apply in_app_or in Hin as [Hin | Hin];
      apply in_map_iff in Hin as (v & <- & _); apply Rabs_pos.
Qed.

Lemma obs_before_metafits_limits (hdr : Header.t) (params : Params.t) (cfg : Config.t)
    lg obs baseline_info params' :
  obs_before_metafits hdr params cfg = (lg, Ok (obs, baseline_info, params')) ->
  exists l1 l2 kx ky kr mb,
    baseline_extent (Header.frequency_array hdr) (Params.uu params') (Params.vv params')
      = (l1, Ok (kx, ky, kr, mb)) /\
    baseline_limits cfg (Params.uu params') (Params.vv params') kx ky kr
      (Obs.kbinsize obs) (Obs.dimension obs) (Obs.elements obs)
      = (l2, Ok (Obs.max_baseline obs, Obs.min_baseline obs)).
Proof.
  unfold obs_before_metafits; intros H.
  bind_inv H as [[n_time bin_width] bin_offset] Htime.
  bind_inv H as n_vis_arr Hvis.
  bind_inv H as [[beam fbin_i] freq_center] Hfreq.
  bind_inv H as t Htiles.
  bind_inv H as [[[kx ky] kr] max_baseline] Hext.
  bind_inv H as kbinsize Hk.
  bind_inv H as [dimension elements] Hdim.
  bind_inv H as degpix Hdeg.
  bind_inv H as [longest shortest] Hlim.
  apply ret_inv in H as [_ Heq]. injection Heq as <- <- <-.
  do 2 eexists. exists kx, ky, kr, max_baseline. cbn.
  split; eassumption.
Qed.

Section BaselineLimits.

Context {astronomy : Astronomy}.

(** X16: the baseline limits of a returned [obs] (lines 133-138).
    [max_baseline] is the size of a [kx] entry that lies inside the grid:
    it is not negative and, measured in cells of [kbinsize], it stays
    below half the [dimension].  [min_baseline] is positive, since it is
    at least the shortest of the baseline lengths that are not zero, and
    it is at least the configured [min_baseline] when there is one. *)
Theorem returned_baseline_limits (hdr : Header.t) (params : Params.t)
    (cfg : Config.t) (fs : filesystem) lg obs :
  create_obs hdr params cfg fs = (lg, Ok obs) ->
  0 <= Obs.max_baseline obs /\
  Obs.max_baseline obs / Obs.kbinsize obs < IZR (Obs.dimension obs) / 2 /\
  0 < Obs.min_baseline obs /\
  forall m, Config.min_baseline cfg = Some m -> m <= Obs.min_baseline obs.
Proof.
  intros H.
  apply create_obs_inv in H as (l & bi & p & l' & meta & Hbefore & _ & _).
  apply obs_before_metafits_limits in Hbefore
    as (l1 & l2 & kx & ky & kr & mb & Hext & Hlim).
  apply baseline_extent_lengths in Hext as [Hkr _].
  apply baseline_limits_inv in Hlim
    as [(x & y & _ & Hlong & Hsup) (s & [Hs _] & Hshort)].
  apply in_support_true in Hsup as (_ & Hx & _).
  apply filter_In in Hs as [Hs Hnz].
  rewrite Forall_forall in Hkr. apply Hkr in Hs.
  assert (Hpos : 0 < s).
  { destruct (Req_dec_T s 0) as [Hz | Hz]; [ | lra ].
    apply (Reqb_true s 0) in Hz. now rewrite Hz in Hnz. }
  rewrite Hlong.
  split; [ apply Rabs_pos | split; [ exact Hx | ] ].
  rewrite Hshort. destruct (Config.min_baseline cfg) as [m | ].
  - rewrite py_max_R_Rmax.
    split; [ apply Rlt_le_trans with s; [ exact Hpos | apply Rmax_r ] | ].
    intros m' Hm. injection Hm as <-. apply Rmax_l.
  - split; [ exact Hpos | discriminate ].
Qed.

End BaselineLimits.

Lemma returned_baseline_limits_witness :
  exists lg obs,
    @create_obs example_astronomy small_header two_baselines full_config no_files
      = (lg, Ok obs) /\
    Obs.max_baseline obs / Obs.kbinsize obs < IZR (Obs.dimension obs) / 2 /\
    0 < Obs.min_baseline obs.
Proof.
  destruct example_run_without_file as (lg & obs & Hrun).
  destruct (@returned_baseline_limits example_astronomy _ _ _ _ _ _ Hrun)
    as (_ & Hmax & Hmin & _).
  exists lg, obs. split; [ exact Hrun | split; [ exact Hmax | exact Hmin ] ].
Defined.

(** ** Lines 102-105 *)

Lemma In_np_outer (freq uu : list R) (f u : R) :
  In f freq -> In u uu -> In (f * u) (concat (np_outer freq uu)).
Proof.
  intros Hf Hu. apply in_concat. exists (map (fun y => f * y) uu).
  split; [ | now apply in_map ].
  unfold np_outer. now apply (in_map (fun x => map (fun y => x * y) uu)).
Qed.

Lemma np_outer_empty (freq uu : list R) :
  freq = [] \/ uu = [] -> concat (np_outer freq uu) = [].
Proof.
  intros [-> | ->]; [ reflexivity | ].
  induction freq as [ | f freq IH]; [ reflexivity | exact IH ].
Qed.

Lemma np_max_R_nonempty (l : list R) : l <> [] -> exists m, np_max_R l = ret m.
Proof. destruct l as [ | x l]; [ easy | intros _; now eexists ]. Qed.

(** X17: when lines 102-105 go through.  For columns [uu] and [vv] whose
    lengths broadcast and that are not empty, as the frequencies are not,
    the block returns the two outer products, and [max_baseline] bounds
    the size of every product of a frequency with an entry of either
    column; in every other case it raises [ValueError]. *)
Theorem baseline_extent_returns (freq uu vv : list R) :
  (bcast_ok (length uu) (length vv) = true /\ freq <> [] /\ uu <> [] /\ vv <> [] ->
   exists kr max_baseline,
     baseline_extent freq uu vv
     = ret (np_outer freq uu, np_outer freq vv, kr, max_baseline) /\
     (forall f u, In f freq -> In u uu -> Rabs (f * u) <= max_baseline) /\
     (forall f v, In f freq -> In v vv -> Rabs (f * v) <= max_baseline)) /\
  (bcast_ok (length uu) (length vv) = false \/ freq = [] \/ uu = [] \/ vv = [] ->
   baseline_extent freq uu vv = ([], Raise ValueError)).
Proof.
  split.
  - intros (Hok & Hfreq & Huu & Hvv).
    assert (Hx : map Rabs (concat (np_outer freq uu)) <> []).
    { destruct freq as [ | f freq]; [ easy | ]. destruct uu as [ | u uu]; [ easy | ].
      discriminate. }
    assert (Hy : map Rabs (concat (np_outer freq vv)) <> []).
    { destruct freq as [ | f freq]; [ easy | ]. destruct vv as [ | v vv]; [ easy | ].
      discriminate. }
    destruct (np_max_R_nonempty _ Hx) as (max_kx & Hkx).
    destruct (np_max_R_nonempty _ Hy) as (max_ky & Hky).
    assert (Hrun : baseline_extent freq uu vv
                   = ret (np_outer freq uu, np_outer freq vv,
                          zip_with (bcast_row (fun x y => sqrt (x ^ 2 + y ^ 2)))
                                   (np_outer freq uu) (np_outer freq vv),
                          py_max_R max_kx max_ky)).
    { unfold baseline_extent, bcast2. now rewrite Hok, bind_ret, Hkx, bind_ret, Hky, bind_ret. }
    eexists _, _. split; [ exact Hrun | ].
    destruct (baseline_extent_max _ _ _ _ _ _ _ _ Hrun) as (_ & _ & [_ Hle]).
    split; intros f w Hf Hw; apply Hle, in_or_app; [ left | right ];
      apply in_map; now apply In_np_outer.
  - intros Hbad. unfold baseline_extent, bcast2.
    destruct (bcast_ok _ _) eqn:Hok; [ | reflexivity ].
    rewrite bind_ret.
    destruct Hbad as [Hbad | [Hfreq | [Huu | Hvv]]]; [ discriminate | | | ].
    + now rewrite (np_outer_empty freq uu) by now left.
    + now rewrite (np_outer_empty freq uu) by now right.
    + rewrite (np_outer_empty freq vv) by now right.
      destruct (map Rabs (concat (np_outer freq uu))); [ reflexivity | ].
      cbn [np_max_R]. now rewrite bind_ret.
Qed.

Lemma baseline_extent_returns_witness :
  exists kr max_baseline,
    baseline_extent [1] [1; 1] [0; 0]
    = ret (np_outer [1] [1; 1], np_outer [1] [0; 0], kr, max_baseline) /\
    (forall f u, In f [1] -> In u [1; 1] -> Rabs (f * u) <= max_baseline).
Proof.
  destruct (proj1 (baseline_extent_returns [1] [1; 1] [0; 0]))
    as (kr & mb & Hrun & Hu & _).
  - repeat split; discriminate.
  - now exists kr, mb.
Defined.

(* ================================================================== *)
(** * Further properties of the packed baseline numbers *)
(* ================================================================== *)

Lemma Zfloor_div (m d : Z) : (0 < d)%Z -> Zfloor (IZR m / IZR d) = (m / d)%Z.
Proof.
  intros Hd. apply Zfloor_quotient; [ now apply IZR_lt | ].
  pose proof (Z.mul_div_le m d Hd) as Hlo.
  pose proof (Z.mul_succ_div_gt m d Hd) as Hhi.
  rewrite <- (plus_IZR _ 1), <- !mult_IZR. split; [ apply IZR_le | apply IZR_lt ]; lia.
Qed.

Lemma np_mod_IZR (m d : Z) : (0 < d)%Z -> np_mod (IZR m) (IZR d) = IZR (m mod d).
Proof.
  intros Hd. unfold np_mod. rewrite Zfloor_div by exact Hd.
  rewrite <- mult_IZR, <- minus_IZR. f_equal.
  rewrite Z.mod_eq by lia. lia.
Qed.

Lemma pow2_pos (k : Z) : (0 <= k)%Z -> (0 < 2 ^ k)%Z.
Proof. intros Hk. apply Z.pow_pos_nonneg; lia. Qed.

Lemma pow2_succ (k : Z) : (0 <= k)%Z -> (2 ^ (k + 1) = 2 * 2 ^ k)%Z.
Proof. intros Hk. rewrite Z.pow_add_r, Z.pow_1_r by lia. lia. Qed.

Lemma Zfloor_log2_IZR (m k : Z) :
  (0 <= k)%Z -> (2 ^ k <= m < 2 ^ (k + 1))%Z -> Zfloor (ln (IZR m) / ln 2) = k.
Proof.
  intros Hk [Hlo Hhi]. apply Zfloor_log2.
  rewrite <- !IZR_pow2 by lia. split; [ now apply IZR_le | now apply IZR_lt ].
Qed.

(** Lines 83-89 on a whole number between [2 ^ k] and [2 ^ (k + 1)]. *)
Lemma antenna_mod_index_IZR (m k : Z) :
  (0 <= k)%Z -> (2 ^ k <= m < 2 ^ (k + 1))%Z ->
  antenna_mod_index (IZR m)
  = if (1 <? m - 2 ^ k)%Z && Z.odd m
    then IZR (2 ^ k) / powerRZ 2 (np_floor (ln (IZR (m - 2 ^ k)) / ln 2))
    else IZR (2 ^ k).
Proof.
  intros Hk Hm. pose proof (pow2_pos k Hk) as Hp.
  unfold antenna_mod_index, np_floor.
  rewrite (Zfloor_log2_IZR m k Hk Hm), <- IZR_pow2 by exact Hk.
  rewrite np_mod_IZR by exact Hp.
  change 2 with (IZR 2) at 2. rewrite np_mod_IZR by lia.
  assert (Hr : (m mod 2 ^ k = m - 2 ^ k)%Z).
  { rewrite pow2_succ in Hm by exact Hk.
    symmetry. apply (Z.mod_unique_pos m (2 ^ k) 1); lia. }
  rewrite Hr.
  assert (Hlt : Rltb 1 (IZR (m - 2 ^ k)) = (1 <? m - 2 ^ k)%Z).
  { destruct (Z.ltb_spec 1 (m - 2 ^ k)) as [H | H].
    - apply Rltb_true. now apply IZR_lt.
    - apply Rltb_false. now apply IZR_le. }
  assert (Hodd : Reqb (IZR (m mod 2)) 1 = Z.odd m).
  { rewrite Zmod_odd. destruct (Z.odd m).
    - now apply Reqb_true.
    - apply Reqb_false. lra. }
  now rewrite Hlt, Hodd.
Qed.

Lemma is_minimum_unique (a b : R) (l : list R) :
  is_minimum a l -> is_minimum b l -> a = b.
Proof. intros [Ha Hla] [Hb Hlb]. apply Rle_antisym; auto. Qed.

(** X18: decoding packed baseline numbers (lines 83-91).  Let the column
    hold the packed numbers [2 ^ k * a + b] of tile pairs [(a, b)] with
    [b] below [2 ^ k], and let the smallest be that of a pair [(1, b0)]
    whose [b0] is even or at most 1.  Then the modulus found is [2 ^ k],
    and a run that returns has decoded the first tile [a] of every pair
    into [tile_A], and into [tile_B] as well. *)
Theorem packed_first_tile (n_tile : pynum) (params : Params.t) lg t
    (k b0 : Z) (pairs : list (Z * Z)) :
  decode_baselines n_tile params = (lg, Ok t) ->
  (1 <= k)%Z ->
  Params.baseline_arr params = map (packed k) pairs ->
  Forall (fun pair => (0 <= fst pair /\ 0 <= snd pair < 2 ^ k)%Z) pairs ->
  In (1%Z, b0) pairs ->
  (forall pair, In pair pairs -> packed k (1%Z, b0) <= packed k pair) ->
  (b0 <= 1)%Z \/ Z.even b0 = true ->
  tile_A t = FloatArr (map (fun pair => IZR (fst pair)) pairs) /\
  tile_B t = FloatArr (map (fun pair => IZR (fst pair)) pairs).
Proof.
  intros H Hk Harr Hpairs Hfirst Hleast Hb0.
  apply decode_baselines_inv in H as (baseline_min & Hmin & _ & HA & HB & _).
  pose proof (pow2_pos k ltac:(lia)) as Hp.
  assert (Hrange : (0 <= b0 < 2 ^ k)%Z).
  { rewrite Forall_forall in Hpairs. now destruct (Hpairs _ Hfirst) as [_ Hr]. }
  assert (Hm : baseline_min = IZR (2 ^ k + b0)).
  { apply (is_minimum_unique _ _ _ Hmin). rewrite Harr. split.
    - apply in_map_iff. exists (1%Z, b0). split; [ | exact Hfirst ].
      unfold packed. cbn [fst snd]. f_equal. lia.
    - intros x Hx. apply in_map_iff in Hx as (pair & <- & Hpair).
      specialize (Hleast pair Hpair). unfold packed in Hleast at 1. cbn [fst snd] in Hleast.
      now replace (2 ^ k + b0)%Z with (2 ^ k * 1 + b0)%Z by lia. }
  assert (Hmod : antenna_mod_index baseline_min = IZR (2 ^ k)).
  { rewrite Hm, (antenna_mod_index_IZR _ k) by (rewrite ?pow2_succ by lia; lia).
    replace (2 ^ k + b0 - 2 ^ k)%Z with b0 by lia.
    destruct Hb0 as [Hsmall | Heven].
    - now replace (1 <? b0)%Z with false by (symmetry; apply Z.ltb_ge; lia).
    - replace (Z.odd (2 ^ k + b0)) with false; [ now rewrite andb_false_r | ].
      rewrite Z.odd_add, <- !Z.negb_even, Heven.
      replace (Z.even (2 ^ k)) with true; [ reflexivity | ].
      symmetry. rewrite (Z.even_pow 2 k) by lia. reflexivity. }
  assert (Hfloor : forall pair, In pair pairs ->
                     np_floor (packed k pair / IZR (2 ^ k)) = fst pair /\
                     trunc (packed k pair / IZR (2 ^ k)) = fst pair).
  { intros [a b] Hin. rewrite Forall_forall in Hpairs.
    destruct (Hpairs _ Hin) as [Ha Hb]. cbn [fst snd] in Ha, Hb.
    assert (Hq : np_floor (packed k (a, b) / IZR (2 ^ k)) = a).
    { unfold np_floor, packed. cbn [fst snd]. rewrite Zfloor_div by exact Hp.
      symmetry. apply (Z.div_unique_pos _ _ a b); lia. }
    split; [ exact Hq | ].
    rewrite <- floor_fix_nonneg; [ exact Hq | now apply IZR_lt | ].
    unfold packed. cbn [fst snd]. apply IZR_le. nia. }
  rewrite HA, HB, Hmod, Harr. unfold decode_tile_A, decode_tile_B.
  rewrite !map_map.
  split; f_equal; apply map_ext_in; intros pair Hin;
    destruct (Hfloor pair Hin) as [Hq Hq']; now rewrite ?Hq, ?Hq'.
Qed.

Lemma packed_first_tile_witness :
  exists lg t,
    decode_baselines (PyInt 3) packed_baselines = (lg, Ok t) /\
    tile_A t = FloatArr [1; 2] /\
    tile_B t = FloatArr [1; 2].
Proof.
  destruct (resolve_tiles_packed_inv _ _ _ _ packed_example_run eq_refl) as (lg & Hrun).
  eexists lg, _. split; [ exact Hrun | ].
  apply (packed_first_tile _ _ _ _ 8 2 [(1, 2); (2, 3)]%Z Hrun); try lia.
  - cbn. repeat f_equal; lra.
  - repeat constructor; cbn; lia.
  - now left.
  - intros pair [<- | [<- | []]]; unfold packed; cbn [fst snd]; apply IZR_le; lia.
  - now right.
Defined.

(** X19: an odd smallest packed number.  When the smallest number
    [2 ^ k + b0] is odd with [b0] between [2 ^ j] and [2 ^ (j + 1)] for
    some [j] of at least 1, the test of line 88 divides the modulus, which
    becomes [2 ^ (k - j)]; the first tile decoded from that number is then
    at least [2 ^ j], and not the 1 that the modulus [2 ^ k] gives. *)
Theorem packed_odd_minimum (k j b0 : Z) :
  (1 <= j)%Z ->
  (2 ^ j <= b0 < 2 ^ (j + 1))%Z ->
  (b0 < 2 ^ k)%Z ->
  Z.odd b0 = true ->
  antenna_mod_index (IZR (2 ^ k + b0)) = IZR (2 ^ (k - j)) /\
  (2 ^ j <= np_floor (IZR (2 ^ k + b0) / antenna_mod_index (IZR (2 ^ k + b0))))%Z /\
  np_floor (IZR (2 ^ k + b0) / IZR (2 ^ k)) = 1%Z.
Proof.
  intros Hj Hb0 Hbk Hodd.
  rewrite pow2_succ in Hb0 by lia.
  assert (Hjk : (j < k)%Z).
  { destruct (Z.lt_ge_cases j k) as [H | H]; [ exact H | ].
    pose proof (Z.pow_le_mono_r 2 k j ltac:(lia) H). lia. }
  pose proof (pow2_pos k ltac:(lia)) as Hpk.
  pose proof (pow2_pos j ltac:(lia)) as Hpj.
  pose proof (pow2_pos (k - j) ltac:(lia)) as Hpkj.
  assert (H2j : (2 <= 2 ^ j)%Z).
  { change 2%Z with (2 ^ 1)%Z at 1. apply Z.pow_le_mono_r; lia. }
  assert (Hsplit : (2 ^ k = 2 ^ (k - j) * 2 ^ j)%Z).
  { rewrite <- Z.pow_add_r by lia. f_equal. lia. }
  assert (Hmod : antenna_mod_index (IZR (2 ^ k + b0)) = IZR (2 ^ (k - j))).
  { rewrite (antenna_mod_index_IZR _ k) by (rewrite ?pow2_succ by lia; lia).
    replace (2 ^ k + b0 - 2 ^ k)%Z with b0 by lia.
    replace (1 <? b0)%Z with true by (symmetry; apply Z.ltb_lt; lia).
    replace (Z.odd (2 ^ k + b0)) with true.
    2:{ rewrite Z.odd_add, Hodd, <- Z.negb_even.
        rewrite (Z.even_pow 2 k) by lia. reflexivity. }
    cbn [andb]. unfold np_floor. rewrite (Zfloor_log2_IZR b0 j) by (rewrite ?pow2_succ by lia; lia).
    rewrite <- IZR_pow2 by lia. rewrite Hsplit, mult_IZR.
    field. apply not_0_IZR. lia. }
  split; [ exact Hmod | ].
  split.
  - rewrite Hmod. unfold np_floor. rewrite Zfloor_div by exact Hpkj.
    apply Z.div_le_lower_bound; [ exact Hpkj | ]. lia.
  - unfold np_floor. rewrite Zfloor_div by exact Hpk.
    symmetry. apply (Z.div_unique_pos _ _ 1 b0); lia.
Qed.

Lemma packed_odd_minimum_witness :
  antenna_mod_index 259 = 128 /\
  (2 <= np_floor (259 / antenna_mod_index 259))%Z.
Proof.
  destruct (packed_odd_minimum 8 1 3 ltac:(lia) ltac:(lia) ltac:(lia) eq_refl)
    as (Hmod & Hfloor & _).
  change (IZR (2 ^ 8 + 3)) with 259 in Hmod, Hfloor.
  change (IZR (2 ^ (8 - 1))) with 128 in Hmod.
  split; [ exact Hmod | exact Hfloor ].
Defined.

(* ================================================================== *)
(** * The IDL launcher *)
(* ================================================================== *)

(** ** Runs *)

Lemma idl_bind_ret {E A B} (a : A) (k : A -> Idl.run E B) :
  Idl.bind (Idl.ret a) k = k a.
Proof. unfold Idl.bind, Idl.ret. cbn [app]. now destruct (k a). Qed.

Lemma idl_bind_raise {E A B} (e : Idl.exn) (k : A -> Idl.run E B) :
  Idl.bind (Idl.raise e) k = Idl.raise e.
Proof. reflexivity. Qed.

Lemma idl_bind_emit {E B} (e : E) (k : unit -> Idl.run E B) :
  Idl.bind (Idl.emit e) k = (e :: fst (k tt), snd (k tt)).
Proof. reflexivity. Qed.

Lemma idl_bind_Ok {E A B} (l : list E) (a : A) (k : A -> Idl.run E B) :
  Idl.bind (l, Idl.Ok a) k = (l ++ fst (k a), snd (k a)).
Proof. reflexivity. Qed.

Lemma idl_bind_Raise {E A B} (l : list E) (e : Idl.exn) (k : A -> Idl.run E B) :
  Idl.bind (l, Idl.Raise e) k = (l, Idl.Raise e).
Proof. reflexivity. Qed.

Lemma idl_lookup_Some {E} (k : string) (d : Idl.dict) (v : Idl.value) :
  Idl.dict_get k d = Some v -> @Idl.lookup E k d = Idl.ret v.
Proof. unfold Idl.lookup. now intros ->. Qed.

Lemma idl_lookup_None {E} (k : string) (d : Idl.dict) :
  Idl.dict_get k d = None -> @Idl.lookup E k d = Idl.raise (Idl.KeyError k).
Proof. unfold Idl.lookup. now intros ->. Qed.

Lemma write_all_run (texts : list string) : Idl.write_all texts = (texts, Idl.Ok tt).
Proof.
  induction texts as [ | t texts IH]; [ reflexivity | ].
  cbn [Idl.write_all]. now rewrite idl_bind_emit, IH.
Qed.

(** ** Dictionaries *)

Lemma dict_get_set (k k' : string) (v : Idl.value) (d : Idl.dict) :
  Idl.dict_get k' (Idl.dict_set k v d)
  = if String.eqb k k' then Some v else Idl.dict_get k' d.
Proof.
  induction d as [ | [k0 v0] d IH]; cbn [Idl.dict_set Idl.dict_get].
  - reflexivity.
  - destruct (String.eqb_spec k0 k) as [-> | Hne]; cbn [Idl.dict_get].
    + now destruct (String.eqb k k').
    + rewrite IH. destruct (String.eqb_spec k0 k') as [-> | Hne']; [ | reflexivity ].
      destruct (String.eqb_spec k k') as [-> | _]; [ contradiction | reflexivity ].
Qed.

Lemma dict_set_keys (k : string) (v : Idl.value) (d : Idl.dict) :
  map fst (Idl.dict_set k v d)
  = if existsb (String.eqb k) (map fst d) then map fst d else map fst d ++ [k].
Proof.
  induction d as [ | [k0 v0] d IH]; cbn [Idl.dict_set map fst existsb app]; [ reflexivity | ].
  rewrite (String.eqb_sym k0 k).
  destruct (String.eqb k k0); cbn [map fst orb]; [ reflexivity | ].
  rewrite IH. now destruct (existsb _ _).
Qed.

Lemma existsb_eqb_In (k : string) (l : list string) :
  existsb (String.eqb k) l = true <-> In k l.
Proof.
  rewrite existsb_exists. split.
  - intros (x & Hx & Heq). apply String.eqb_eq in Heq. now subst.
  - intros H. exists k. split; [ exact H | apply String.eqb_refl ].
Qed.

Lemma dict_set_unique (k : string) (v : Idl.value) (d : Idl.dict) :
  unique_keys d -> unique_keys (Idl.dict_set k v d).
Proof.
  unfold unique_keys. intros Hd. rewrite dict_set_keys.
  destruct (existsb _ _) eqn:Hin; [ exact Hd | ].
  apply NoDup_app; [ exact Hd | repeat constructor; easy | ].
  intros x Hx [<- | []].
  apply existsb_eqb_In in Hx. congruence.
Qed.

Lemma dict_get_In (d : Idl.dict) (k : string) (v : Idl.value) :
  unique_keys d -> In (k, v) d -> Idl.dict_get k d = Some v.
Proof.
  unfold unique_keys. induction d as [ | [k0 v0] d IH]; intros Hd Hin; [ easy | ].
  cbn [map fst] in Hd. inversion Hd as [ | ? ? Hnot Hd']; subst.
  cbn [Idl.dict_get]. destruct Hin as [Heq | Hin].
  - injection Heq as -> ->. now rewrite String.eqb_refl.
  - destruct (String.eqb_spec k0 k) as [-> | _]; [ | now apply IH ].
    exfalso. apply Hnot. now apply (in_map fst) in Hin.
Qed.

(** ** The IDL names (lines 52-63) *)

Lemma replace_char_clean (c d : Ascii.ascii) (s : string) :
  c <> d -> Idl.contains c (Idl.replace_char c d s) = false.
Proof.
  intros Hcd. induction s as [ | a s IH]; [ reflexivity | ].
  cbn [Idl.replace_char Idl.contains]. rewrite IH, orb_false_r.
  destruct (Ascii.eqb_spec a c) as [-> | Hne].
  - apply Ascii.eqb_neq. congruence.
  - now apply Ascii.eqb_neq.
Qed.

Lemma new_key_of_clean (old_key : string) :
  Idl.contains "-"%char (Idl.new_key_of old_key) = false.
Proof.
  unfold Idl.new_key_of. destruct (Idl.contains "-"%char old_key) eqn:H; [ | exact H ].
  now apply replace_char_clean.
Qed.

(** The loop of lines 57-63 on the items of the dictionary itself. *)
Lemma rename_keys_items {E} (d items acc : Idl.dict) :
  (forall k v, In (k, v) items -> Idl.dict_get k d = Some v) ->
  @Idl.rename_keys E d (map fst items) acc
  = Idl.ret (fold_left (fun acc kv => Idl.dict_set (fst kv) (snd kv) acc)
                       (renamed_items items) acc).
Proof.
  revert acc; induction items as [ | [k v] items IH]; intros acc Hd; [ reflexivity | ].
  cbn [map fst Idl.rename_keys renamed_items fold_left snd].
  rewrite (idl_lookup_Some k d v) by (apply Hd; now left).
  rewrite idl_bind_ret. apply IH. intros k' v' Hin. apply Hd. now right.
Qed.

Lemma fold_dict_set (items acc : Idl.dict) :
  let idl_dict := fold_left (fun acc kv => Idl.dict_set (fst kv) (snd kv) acc) items acc in
  (unique_keys acc -> unique_keys idl_dict) /\
  (forall k, Idl.dict_get k idl_dict
             = match Idl.dict_get k (rev items) with
               | Some v => Some v
               | None => Idl.dict_get k acc
               end) /\
  (forall k, In k (map fst idl_dict) <-> In k (map fst acc) \/ In k (map fst items)) /\
  (length idl_dict <= length acc + length items)%nat.
Proof.
  revert acc; induction items as [ | [k0 v0] items IH]; intros acc; cbn [fold_left fst snd].
  - cbn. repeat split; auto; try tauto. lia.
  - specialize (IH (Idl.dict_set k0 v0 acc)). cbn zeta in IH.
    destruct IH as (Hu & Hget & Hkeys & Hlen). cbn zeta.
    split; [ intros Hacc; now apply Hu, dict_set_unique | ].
    split; [ | split ].
    + intros k. rewrite Hget, dict_get_set. cbn [rev].
      assert (Happ : forall l1 l2, Idl.dict_get k (l1 ++ l2)
                                   = match Idl.dict_get k l1 with
                                     | Some v => Some v
                                     | None => Idl.dict_get k l2
                                     end).
      { induction l1 as [ | [k1 v1] l1 IH1]; intros l2; cbn [app Idl.dict_get]; [ reflexivity | ].
        destruct (String.eqb k1 k); [ reflexivity | apply IH1 ]. }
      rewrite Happ. cbn [Idl.dict_get].
      destruct (Idl.dict_get k (rev items)); [ reflexivity | ].
      now destruct (String.eqb k0 k).
    + intros k. rewrite Hkeys, dict_set_keys. cbn [map fst In].
      destruct (existsb _ _) eqn:Hin.
      * apply existsb_eqb_In in Hin. split; [ tauto | ].
        intros [H | [<- | H]]; auto.
      * rewrite in_app_iff. cbn [In]. tauto.
    + assert (Hset : (length (Idl.dict_set k0 v0 acc) <= S (length acc))%nat).
      { clear. induction acc as [ | [k1 v1] acc IH]; cbn [Idl.dict_set length]; [ lia | ].
        destruct (String.eqb k1 k0); cbn [length]; lia. }
      cbn [length]. lia.
Qed.

Lemma rename_keys_run {E} (input_dict : Idl.dict) :
  unique_keys input_dict ->
  @Idl.rename_keys E input_dict (map fst input_dict) [] = Idl.ret (idl_dict_of input_dict).
Proof.
  intros Hd. apply rename_keys_items. intros k v. now apply dict_get_In.
Qed.

Lemma renamed_items_keys (input_dict : Idl.dict) :
  map fst (renamed_items input_dict) = map Idl.new_key_of (map fst input_dict).
Proof. unfold renamed_items. now rewrite !map_map. Qed.

Lemma idl_dict_of_keys (input_dict : Idl.dict) (k : string) :
  In k (map fst (idl_dict_of input_dict))
  <-> In k (map Idl.new_key_of (map fst input_dict)).
Proof.
  destruct (fold_dict_set (renamed_items input_dict) []) as (_ & _ & Hkeys & _).
  cbn zeta in Hkeys. unfold idl_dict_of. rewrite Hkeys, renamed_items_keys.
  cbn [map In]. tauto.
Qed.

Lemma idl_dict_of_length (input_dict : Idl.dict) :
  (length (idl_dict_of input_dict) <= length input_dict)%nat.
Proof.
  destruct (fold_dict_set (renamed_items input_dict) []) as (_ & _ & _ & Hlen).
  cbn zeta in Hlen. unfold renamed_items in Hlen. rewrite length_map in Hlen. exact Hlen.
Qed.

Lemma idl_dict_of_get (input_dict : Idl.dict) (k : string) :
  Idl.dict_get k (idl_dict_of input_dict)
  = Idl.dict_get k (rev (renamed_items input_dict)).
Proof.
  destruct (fold_dict_set (renamed_items input_dict) []) as (_ & Hget & _).
  cbn zeta in Hget. unfold idl_dict_of. rewrite Hget. cbn [Idl.dict_get].
  now destruct (Idl.dict_get k _).
Qed.

Lemma idl_dict_of_clean (input_dict : Idl.dict) :
  Forall (fun kv => Idl.contains "-"%char (fst kv) = false) (idl_dict_of input_dict).
Proof.
  apply Forall_forall. intros [k v] Hin. cbn [fst].
  apply (in_map fst) in Hin. cbn [fst] in Hin.
  apply idl_dict_of_keys, in_map_iff in Hin as (old & <- & _).
  apply new_key_of_clean.
Qed.

(** X20: the IDL names of lines 52-63.  For a dictionary without repeated
    keys the loop goes through; no key of [idl_dict] holds a ['-'] and no
    key occurs twice; its keys are the renamed keys of the input; it has
    at most as many items as the input; and under each key it holds the
    value of the last input item that was renamed to that key, so that of
    two spellings of one name the later one wins. *)
Theorem idl_dict_names (input_dict : Idl.dict) :
  unique_keys input_dict ->
  exists idl_dict,
    @Idl.rename_keys Idl.event input_dict (map fst input_dict) [] = Idl.ret idl_dict /\
    Forall (fun kv => Idl.contains "-"%char (fst kv) = false) idl_dict /\
    unique_keys idl_dict /\
    (forall k, In k (map fst idl_dict)
               <-> In k (map Idl.new_key_of (map fst input_dict))) /\
    (length idl_dict <= length input_dict)%nat /\
    forall k, Idl.dict_get k idl_dict = Idl.dict_get k (rev (renamed_items input_dict)).
Proof.
  intros Hd. exists (idl_dict_of input_dict).
  split; [ now apply rename_keys_run | ].
  split; [ apply idl_dict_of_clean | ].
  split.
  { destruct (fold_dict_set (renamed_items input_dict) []) as (Hu & _).
    apply Hu. constructor. }
  split; [ apply idl_dict_of_keys | ].
  split; [ apply idl_dict_of_length | apply idl_dict_of_get ].
Qed.

Lemma idl_dict_names_witness :
  exists idl_dict,
    @Idl.rename_keys Idl.event colliding_config (map fst colliding_config) []
      = Idl.ret idl_dict /\
    Idl.dict_get "cal_stop" idl_dict = Some (Idl.VBool false) /\
    (length idl_dict <= 3)%nat.
Proof.
  destruct (idl_dict_names colliding_config) as (idl_dict & Hrun & _ & _ & _ & Hlen & Hget).
  - repeat constructor; cbn; intuition discriminate.
  - exists idl_dict. split; [ exact Hrun | split; [ | exact Hlen ] ].
    rewrite Hget. reflexivity.
Defined.

(** ** Text *)

Lemma append_empty_r (s : string) : (s ++ EmptyString)%string = s.
Proof. induction s as [ | a s IH]; cbn; [ reflexivity | now rewrite IH ]. Qed.

Lemma append_assoc (s1 s2 s3 : string) :
  ((s1 ++ s2) ++ s3)%string = (s1 ++ (s2 ++ s3))%string.
Proof. induction s1 as [ | a s1 IH]; cbn; [ reflexivity | now rewrite IH ]. Qed.

Lemma fstring_cons (x : string) (xs : list string) :
  Idl.fstring (x :: xs) = (x ++ Idl.fstring xs)%string.
Proof.
  unfold Idl.fstring. destruct xs as [ | y ys]; cbn [String.concat].
  - now rewrite append_empty_r.
  - reflexivity.
Qed.

Lemma fstring_nil : Idl.fstring [] = EmptyString.
Proof. reflexivity. Qed.

(** Normal form of f-strings: one chain of appends. *)
Ltac fstrings := rewrite ?fstring_cons, ?fstring_nil, ?append_assoc, ?append_empty_r.

(** ** The lines of [pyfhd_config.pro] (lines 70-82) *)

Lemma pro_line_plain (idl_dict : Idl.dict) (key : string) (v : Idl.value) :
  String.eqb key "output_path" = false ->
  exists rhs,
    Idl.pro_line idl_dict key v
    = Idl.emit (Idl.fstring ["  "; assigned_name key; "="; rhs; Idl.nl]%string).
Proof.
  intros Hkey. unfold Idl.pro_line, assigned_name. rewrite Hkey.
  destruct v as [s | [ | ] | | p | text].
  - exists (Idl.fstring ["'"; s; "'"]%string). now fstrings.
  - exists "1"%string. now fstrings.
  - exists "0"%string. now fstrings.
  - exists "!NULL"%string. now fstrings.
  - exists (Idl.fstring ["'"; p; "'"]%string). now fstrings.
  - exists text. now fstrings.
Qed.

Lemma pro_line_output_path (idl_dict : Idl.dict) (v version : Idl.value) :
  Idl.dict_get "version" idl_dict = Some version ->
  Idl.pro_line idl_dict "output_path" v
  = Idl.emit (Idl.fstring ["  "; assigned_name "output_path"; "=";
                           Idl.fstring ["'"; Idl.py_str v; "/"; Idl.py_str version; "'"];
                           Idl.nl]%string).
Proof.
  intros Hv. unfold Idl.pro_line. cbn [String.eqb Ascii.eqb Bool.eqb andb].
  rewrite (idl_lookup_Some _ _ _ Hv), idl_bind_ret.
  unfold assigned_name. cbn [String.eqb Ascii.eqb Bool.eqb andb]. now fstrings.
Qed.

Lemma pro_lines_run (idl_dict items : Idl.dict) :
  (forall v, In ("output_path"%string, v) items -> Idl.dict_get "version" idl_dict <> None) ->
  exists lines,
    Idl.pro_lines idl_dict items = (lines, Idl.Ok tt) /\
    Forall2 assignment_of lines items.
Proof.
  induction items as [ | [key v] items IH]; intros Hver.
  - exists []. split; [ reflexivity | constructor ].
  - destruct IH as (lines & Hrun & Hlines).
    { intros v' Hin. apply (Hver v'). now right. }
    assert (Hline : exists rhs,
               Idl.pro_line idl_dict key v
               = Idl.emit (Idl.fstring ["  "; assigned_name key; "="; rhs; Idl.nl]%string)).
    { destruct (String.eqb_spec key "output_path") as [-> | Hne].
      - destruct (Idl.dict_get "version" idl_dict) as [version | ] eqn:Hv.
        + eexists. exact (pro_line_output_path idl_dict v version Hv).
        + exfalso. apply (Hver v); [ now left | reflexivity ].
      - apply pro_line_plain. now apply String.eqb_neq. }
    destruct Hline as (rhs & Hline).
    exists (Idl.fstring ["  "; assigned_name key; "="; rhs; Idl.nl]%string :: lines).
    cbn [Idl.pro_lines]. rewrite Hline, idl_bind_emit, Hrun.
    split; [ reflexivity | ].
    constructor; [ now exists rhs | exact Hlines ].
Qed.

Lemma pro_lines_raise (idl_dict items : Idl.dict) :
  Idl.dict_get "version" idl_dict = None ->
  In "output_path"%string (map fst items) ->
  exists lines,
    Idl.pro_lines idl_dict items = (lines, Idl.Raise (Idl.KeyError "version")) /\
    (length lines < length items)%nat /\
    Forall (fun line => exists rest, line = String " "%char rest) lines.
Proof.
  intros Hver. induction items as [ | [key v] items IH]; intros Hin; [ easy | ].
  cbn [Idl.pro_lines].
  destruct (String.eqb_spec key "output_path") as [-> | Hne].
  - exists []. unfold Idl.pro_line. cbn [String.eqb Ascii.eqb Bool.eqb andb].
    rewrite (idl_lookup_None _ _ Hver), !idl_bind_raise.
    split; [ reflexivity | split; [ cbn [length]; lia | constructor ] ].
  - destruct IH as (lines & Hrun & Hlen & Hsp).
    { destruct Hin as [Heq | Hin]; [ cbn [fst] in Heq; congruence | exact Hin ]. }
    destruct (pro_line_plain idl_dict key v) as (rhs & Hline);
      [ now apply String.eqb_neq | ].
    exists (Idl.fstring ["  "; assigned_name key; "="; rhs; Idl.nl]%string :: lines).
    rewrite Hline, idl_bind_emit, Hrun.
    split; [ reflexivity | split; [ cbn [length]; lia | ] ].
    constructor; [ | exact Hsp ].
    rewrite fstring_cons. eexists. reflexivity.
Qed.

(** Only the key [version] is renamed to [version]. *)
Lemma replace_char_marks (c d : Ascii.ascii) (s : string) :
  Idl.contains c s = true -> Idl.contains d (Idl.replace_char c d s) = true.
Proof.
  induction s as [ | a s IH]; cbn [Idl.contains Idl.replace_char]; [ discriminate | ].
  destruct (Ascii.eqb a c).
  - intros _. now rewrite Ascii.eqb_refl.
  - cbn [orb]. intros H. rewrite (IH H). apply orb_true_r.
Qed.

Lemma new_key_of_version (old_key : string) :
  Idl.new_key_of old_key = "version"%string -> old_key = "version"%string.
Proof.
  unfold Idl.new_key_of. destruct (Idl.contains "-"%char old_key) eqn:Hdash; [ | easy ].
  intros Heq. apply (replace_char_marks _ "_"%char) in Hdash.
  rewrite Heq in Hdash. discriminate.
Qed.

Lemma dict_get_None_keys (k : string) (d : Idl.dict) :
  Idl.dict_get k d = None <-> ~ In k (map fst d).
Proof.
  induction d as [ | [k0 v0] d IH]; cbn [Idl.dict_get map fst In]; [ tauto | ].
  destruct (String.eqb_spec k0 k) as [-> | Hne].
  - split; [ discriminate | tauto ].
  - rewrite IH. tauto.
Qed.

Lemma pro_lines_needs_version (idl_dict items : Idl.dict) :
  Idl.dict_get "version" idl_dict = None ->
  (In "output_path"%string (map fst items) ->
   snd (Idl.pro_lines idl_dict items) = Idl.Raise (Idl.KeyError "version")) /\
  (In "output_path"%string (map fst items) ->
   Idl.pro_lines idl_dict items
   = (fst (Idl.pro_lines idl_dict items), Idl.Raise (Idl.KeyError "version"))).
Proof.
  intros Hver.
  assert (H : In "output_path"%string (map fst items) ->
              snd (Idl.pro_lines idl_dict items) = Idl.Raise (Idl.KeyError "version")).
  { intros Hin. destruct (pro_lines_raise idl_dict items Hver Hin) as (lines & Hrun & _).
    now rewrite Hrun. }
  split; [ exact H | ].
  intros Hin. rewrite <- (H Hin). now destruct (Idl.pro_lines idl_dict items).
Qed.

(** Lines 66-88 when every item can be written. *)
Lemma convert_argdict_to_pro_run (input_dict : Idl.dict) (output_dir : string) :
  unique_keys input_dict ->
  (In "output_path"%string (map Idl.new_key_of (map fst input_dict)) ->
   In "version"%string (map fst input_dict)) ->
  exists lines,
    Idl.pro_lines (idl_dict_of input_dict) (idl_dict_of input_dict) = (lines, Idl.Ok tt) /\
    Idl.convert_argdict_to_pro input_dict output_dir
    = ([Idl.Written (Idl.fstring [output_dir; "/pyfhd_config.pro"]%string)
                    (Idl.pro_header :: lines ++ Idl.pro_footer)],
       Idl.Ok tt).
Proof.
  intros Hd Hver.
  destruct (pro_lines_run (idl_dict_of input_dict) (idl_dict_of input_dict))
    as (lines & Hlines & _).
  { intros v Hin. apply (in_map fst) in Hin. cbn [fst] in Hin.
    apply idl_dict_of_keys in Hin. apply Hver in Hin.
    intros Hnone. apply dict_get_None_keys in Hnone. apply Hnone, idl_dict_of_keys.
    apply in_map_iff. exists "version"%string. split; [ reflexivity | exact Hin ]. }
  exists lines. split; [ exact Hlines | ].
  unfold Idl.convert_argdict_to_pro. rewrite (rename_keys_run _ Hd), idl_bind_ret.
  unfold Idl.with_open. rewrite idl_bind_emit, Hlines, idl_bind_Ok, write_all_run.
  reflexivity.
Qed.

(** X21: the layout of [pyfhd_config.pro] (lines 66-88).  For a dictionary
    without repeated keys that holds [version] whenever it holds
    [output_path] under either spelling, the file is written in full: the
    header, one assignment for each item of [idl_dict] in order, and the
    three closing lines.  The assignment of an item goes to the name of
    its key, that of [output_path] to [output_directory], and no assigned
    name holds a ['-']. *)
Theorem pro_file_layout (input_dict : Idl.dict) (output_dir : string) :
  unique_keys input_dict ->
  (In "output_path"%string (map Idl.new_key_of (map fst input_dict)) ->
   In "version"%string (map fst input_dict)) ->
  exists idl_dict lines,
    @Idl.rename_keys Idl.event input_dict (map fst input_dict) [] = Idl.ret idl_dict /\
    Idl.convert_argdict_to_pro input_dict output_dir
    = ([Idl.Written (Idl.fstring [output_dir; "/pyfhd_config.pro"]%string)
                    (Idl.pro_header :: lines ++ Idl.pro_footer)],
       Idl.Ok tt) /\
    Forall2 assignment_of lines idl_dict /\
    Forall (fun kv => Idl.contains "-"%char (assigned_name (fst kv)) = false) idl_dict.
Proof.
  intros Hd Hver.
  destruct (convert_argdict_to_pro_run input_dict output_dir Hd Hver)
    as (lines & Hlines & Hrun).
  exists (idl_dict_of input_dict), lines.
  split; [ now apply rename_keys_run | ].
  split; [ exact Hrun | ].
  split.
  - destruct (pro_lines_run (idl_dict_of input_dict) (idl_dict_of input_dict))
      as (lines' & Hlines' & Hassign).
    { intros v Hin Hnone. rewrite (proj2 (pro_lines_needs_version _ _ Hnone)) in Hlines;
        [ discriminate | ]. apply (in_map fst) in Hin. exact Hin. }
    rewrite Hlines in Hlines'. now injection Hlines' as <-.
  - eapply Forall_impl; [ | apply idl_dict_of_clean ]. cbn beta. intros [k v] Hk.
    cbn [fst] in *. unfold assigned_name.
    destruct (String.eqb k "output_path"); [ reflexivity | exact Hk ].
Qed.

Lemma pro_file_layout_witness :
  exists idl_dict lines,
    Idl.convert_argdict_to_pro example_config "/out/v1"
    = ([Idl.Written "/out/v1/pyfhd_config.pro"
                    (Idl.pro_header :: lines ++ Idl.pro_footer)],
       Idl.Ok tt) /\
    Forall2 assignment_of lines idl_dict /\
    length idl_dict = 7%nat.
Proof.
  destruct (pro_file_layout example_config "/out/v1")
    as (idl_dict & lines & Hnames & Hrun & Hassign & _).
  - repeat constructor; cbn; intuition discriminate.
  - intros _. cbn. tauto.
  - exists idl_dict, lines. split; [ exact Hrun | split; [ exact Hassign | ] ].
    cbn in Hnames. injection Hnames as <-. reflexivity.
Defined.

(** X22: [output_path] without [version] (line 72).  When the dictionary
    holds [output_path], under either spelling, and no [version], the
    file is opened and left unfinished: [KeyError] is raised at the item
    [output_path], what was written is the header and the lines of the
    items before it, and the closing [END] is missing. *)
Theorem pro_file_needs_version (input_dict : Idl.dict) (output_dir : string) :
  unique_keys input_dict ->
  In "output_path"%string (map Idl.new_key_of (map fst input_dict)) ->
  ~ In "version"%string (map fst input_dict) ->
  exists lines,
    Idl.convert_argdict_to_pro input_dict output_dir
    = ([Idl.Written (Idl.fstring [output_dir; "/pyfhd_config.pro"]%string)
                    (Idl.pro_header :: lines)],
       Idl.Raise (Idl.KeyError "version")) /\
    (length lines < length input_dict)%nat /\
    ~ In (Idl.fstring ["END"; Idl.nl]%string) (Idl.pro_header :: lines).
Proof.
  intros Hd Hpath Hver.
  pose proof (idl_dict_of_length input_dict) as Hlen.
  destruct (pro_lines_raise (idl_dict_of input_dict) (idl_dict_of input_dict))
    as (lines & Hlines & Hshort & Hsp).
  { apply dict_get_None_keys. intros Hin. apply idl_dict_of_keys in Hin.
    apply in_map_iff in Hin as (old & Hold & Hin).
    apply new_key_of_version in Hold. now subst old. }
  { now apply idl_dict_of_keys. }
  exists lines. split; [ | split; [ lia | ] ].
  - unfold Idl.convert_argdict_to_pro. rewrite (rename_keys_run _ Hd), idl_bind_ret.
    unfold Idl.with_open. rewrite idl_bind_emit, Hlines, idl_bind_Raise.
    reflexivity.
  - intros [Hhead | Hin]; [ discriminate | ].
    rewrite Forall_forall in Hsp. destruct (Hsp _ Hin) as (rest & Hrest).
    discriminate.
Qed.

Lemma pro_file_needs_version_witness :
  exists lines,
    Idl.convert_argdict_to_pro versionless_config "/out"
    = ([Idl.Written "/out/pyfhd_config.pro" (Idl.pro_header :: lines)],
       Idl.Raise (Idl.KeyError "version")) /\
    (length lines < 3)%nat.
Proof.
  destruct (pro_file_needs_version versionless_config "/out")
    as (lines & Hrun & Hlen & _).
  - repeat constructor; cbn; intuition discriminate.
  - cbn. tauto.
  - cbn. intuition discriminate.
  - now exists lines.
Defined.

(** ** The text IDL printed (lines 213 and 355) *)

Lemma split_on_nonempty (c : Ascii.ascii) (s : string) : split_on c s <> [].
Proof.
  induction s as [ | a s IH]; cbn [split_on]; [ easy | ].
  destruct (Ascii.eqb a c); [ easy | ].
  now destruct (split_on c s).
Qed.

Lemma split_on_app_clean (c : Ascii.ascii) (pre s : string) :
  Idl.contains c pre = false ->
  split_on c (pre ++ s)
  = match split_on c s with
    | w :: ws => (pre ++ w)%string :: ws
    | [] => []
    end.
Proof.
  induction pre as [ | a pre IH]; intros Hclean.
  - cbn [String.append]. now destruct (split_on c s).
  - cbn [Idl.contains] in Hclean. apply orb_false_elim in Hclean as [Ha Hpre].
    cbn [String.append split_on]. rewrite Ha, (IH Hpre).
    pose proof (split_on_nonempty c s) as Hne.
    now destruct (split_on c s).
Qed.

Lemma contains_app (c : Ascii.ascii) (s1 s2 : string) :
  Idl.contains c (s1 ++ s2) = Idl.contains c s1 || Idl.contains c s2.
Proof.
  induction s1 as [ | a s1 IH]; cbn [String.append Idl.contains]; [ reflexivity | ].
  now rewrite IH, orb_assoc.
Qed.

Lemma split_on_indented (pre s : string) :
  Idl.contains "010"%char pre = false ->
  split_on "010"%char
    (pre ++ Idl.replace_with "010"%char (Idl.nl ++ Idl.tab) s)
  = match split_on "010"%char s with
    | w :: ws => (pre ++ w)%string :: map (fun line => (Idl.tab ++ line)%string) ws
    | [] => []
    end.
Proof.
  revert pre; induction s as [ | a s IH]; intros pre Hpre.
  - cbn [Idl.replace_with]. rewrite (split_on_app_clean _ _ _ Hpre). reflexivity.
  - cbn [Idl.replace_with split_on].
    pose proof (split_on_nonempty "010"%char s) as Hne.
    destruct (Ascii.eqb_spec a "010"%char) as [-> | Hne_a].
    + change ((Idl.nl ++ Idl.tab) ++ Idl.replace_with "010"%char (Idl.nl ++ Idl.tab) s)%string
        with (String "010"%char
                (Idl.tab ++ Idl.replace_with "010"%char (Idl.nl ++ Idl.tab) s)).
      rewrite (split_on_app_clean _ _ _ Hpre). cbn [split_on].
      rewrite Ascii.eqb_refl, (IH Idl.tab eq_refl).
      destruct (split_on "010"%char s) as [ | w ws]; [ contradiction | reflexivity ].
    + replace (pre ++ String a (Idl.replace_with "010"%char (Idl.nl ++ Idl.tab) s))%string
        with ((pre ++ String a EmptyString)
              ++ Idl.replace_with "010"%char (Idl.nl ++ Idl.tab) s)%string
        by (now rewrite append_assoc).
      rewrite IH.
      * destruct (split_on "010"%char s) as [ | w ws]; [ contradiction | ].
        now rewrite append_assoc.
      * rewrite contains_app, Hpre. cbn [Idl.contains orb].
        rewrite orb_false_r. now apply Ascii.eqb_neq.
Qed.

(** X23: the indentation of lines 213 and 355.  Split at the line breaks,
    the indented text has the lines of what IDL printed, each behind one
    tab: no line is lost, joined or reordered. *)
Theorem indented_lines (idl_lines : string) :
  split_on "010"%char (Idl.indent idl_lines)
  = map (fun line => (Idl.tab ++ line)%string) (split_on "010"%char idl_lines).
Proof.
  unfold Idl.indent. rewrite (split_on_indented Idl.tab idl_lines eq_refl).
  pose proof (split_on_nonempty "010"%char idl_lines) as Hne.
  now destruct (split_on "010"%char idl_lines).
Qed.

(** ** The wrapper and the launch *)

Section Launcher.

Variable path_join : string -> string -> string.
Variable shell : list string -> string.

Lemma output_dir_of_run {E} (cfg : Idl.dict) (output_path version : Idl.value) :
  Idl.dict_get "output_path" cfg = Some output_path ->
  Idl.dict_get "version" cfg = Some version ->
  @Idl.output_dir_of E cfg
  = Idl.ret (Idl.fstring [Idl.py_str output_path; "/"; Idl.py_str version]%string).
Proof.
  intros Hp Hv. unfold Idl.output_dir_of.
  now rewrite (idl_lookup_Some _ _ _ Hp), idl_bind_ret,
              (idl_lookup_Some _ _ _ Hv), idl_bind_ret.
Qed.

(** Lines 113-118 up to the quotient of line 114. *)
Lemma keywords_block_run (cfg : Idl.dict)
    (input_path obs_id output_path version : Idl.value) :
  Idl.dict_get "input_path" cfg = Some input_path ->
  Idl.dict_get "obs_id" cfg = Some obs_id ->
  Idl.dict_get "output_path" cfg = Some output_path ->
  Idl.dict_get "version" cfg = Some version ->
  Idl.keywords_block path_join cfg
  = match @Idl.path_div path_join string input_path obs_id with
    | (_, Idl.Ok joined) =>
        ([Idl.fstring ["    ; Keywords"; Idl.nl]%string;
          Idl.fstring ["    vis_file_list="; Idl.dquote;
                       Idl.fstring [joined; ".uvfits"]%string; Idl.dquote; Idl.nl]%string;
          Idl.fstring ["    output_directory='"; Idl.py_str output_path; "/";
                       Idl.py_str version; "'"; Idl.nl]%string;
          Idl.fstring ["    version='"; Idl.py_str version; "'"; Idl.nl]%string;
          Idl.nl],
         Idl.Ok tt)
    | (_, Idl.Raise e) => ([Idl.fstring ["    ; Keywords"; Idl.nl]%string], Idl.Raise e)
    end.
Proof.
  intros Hi Ho Hp Hv. unfold Idl.keywords_block.
  rewrite idl_bind_emit, (idl_lookup_Some _ _ _ Hi), idl_bind_ret,
          (idl_lookup_Some _ _ _ Ho), idl_bind_ret.
  assert (Hdiv : fst (@Idl.path_div path_join string input_path obs_id) = []).
  { unfold Idl.path_div. destruct input_path, obs_id; reflexivity. }
  destruct (Idl.path_div path_join input_path obs_id) as [l [joined | e]];
    cbn [fst] in Hdiv; subst l; [ | reflexivity ].
  rewrite idl_bind_Ok. cbn [app].
  rewrite idl_bind_emit, (idl_lookup_Some _ _ _ Hp), idl_bind_ret,
          (idl_lookup_Some _ _ _ Hv), idl_bind_ret, idl_bind_emit,
          idl_bind_ret, idl_bind_emit.
  reflexivity.
Qed.

Lemma copy_templates_run (files : list string) (output_dir : string) :
  Idl.copy_templates files output_dir
  = (map (fun file => Idl.Copied file output_dir) files, Idl.Ok tt).
Proof.
  induction files as [ | file files IH]; [ reflexivity | ].
  cbn [Idl.copy_templates map]. now rewrite idl_bind_emit, IH.
Qed.

Lemma launch_run (idl_command : string) :
  Idl.launch shell idl_command
  = ([Idl.Info (Idl.fstring ["Launching IDL on the command line via the command:";
                             Idl.nl; Idl.tab; "$ "; idl_command]%string);
      Idl.Launched (Idl.py_split idl_command);
      Idl.Info (Idl.fstring ["Here is everything IDL FHD printed:"; Idl.nl;
                             Idl.indent (shell (Idl.py_split idl_command))]%string)],
     Idl.Ok tt).
Proof. reflexivity. Qed.

Lemma idl_output_dir_of_run {E} (cfg : Idl.dict) (output_path version : Idl.value) :
  Idl.dict_get "output_path" cfg = Some output_path ->
  Idl.dict_get "version" cfg = Some version ->
  @Idl.idl_output_dir_of E cfg
  = Idl.ret (Idl.fstring [Idl.fstring [Idl.py_str output_path; "/"; Idl.py_str version];
                          "/fhd_"; Idl.py_str version]%string).
Proof.
  intros Hp Hv. unfold Idl.idl_output_dir_of.
  rewrite (idl_lookup_Some _ _ _ Hp), idl_bind_ret,
          (idl_lookup_Some _ _ _ Hv), !idl_bind_ret.
  apply f_equal. now fstrings.
Qed.

(** X24: a run of [run_IDL_calibration_only] (lines 149-223).  For a
    dictionary without repeated keys that holds [output_path], [version],
    [input_path] and [obs_id], the quotient of line 114 being defined: the
    two [.pro] files are written into [output_path/version], the two
    templates are copied there and the directory is entered before IDL is
    launched, once, with five arguments; the wrapper sets
    [output_directory] to that directory; and the path returned is its
    subdirectory [fhd_] followed by the version. *)
Theorem calibration_run (cfg : Idl.dict)
    (input_path obs_id output_path version : Idl.value) (joined : string) :
  unique_keys cfg ->
  Idl.dict_get "input_path" cfg = Some input_path ->
  Idl.dict_get "obs_id" cfg = Some obs_id ->
  Idl.dict_get "output_path" cfg = Some output_path ->
  Idl.dict_get "version" cfg = Some version ->
  @Idl.path_div path_join string input_path obs_id = Idl.ret joined ->
  let output_dir := Idl.fstring [Idl.py_str output_path; "/"; Idl.py_str version]%string in
  let args := ["idl"; "-IDL_DEVICE"; "ps"; "-e"; "run_fhd_calibration_only"]%string in
  exists config_text wrapper_text launching,
    Idl.run_IDL_calibration_only path_join shell cfg
    = ([Idl.Info "Writing IDL .pro files to run IDL FHD calibration only";
        Idl.Written (Idl.fstring [output_dir; "/pyfhd_config.pro"]%string) config_text;
        Idl.Written (Idl.fstring [output_dir; "/run_fhd_calibration_only.pro"]%string)
                    wrapper_text;
        Idl.Copied "fhd_calibration_only.pro" output_dir;
        Idl.Copied "general_calibration_only.pro" output_dir;
        Idl.Chdir output_dir;
        Idl.Info launching;
        Idl.Launched args;
        Idl.Info (Idl.fstring ["Here is everything IDL FHD printed:"; Idl.nl;
                               Idl.indent (shell args)]%string);
        Idl.Elapsed "Running IDL FHD calibration"],
       Idl.Ok (Idl.fstring [output_dir; "/fhd_"; Idl.py_str version]%string)) /\
    In (Idl.fstring ["    output_directory='"; output_dir; "'"; Idl.nl]%string) wrapper_text /\
    In (Idl.fstring ["END"; Idl.nl]%string) config_text.
Proof.
  intros Hd Hi Ho Hp Hv Hdiv output_dir args.
  destruct (convert_argdict_to_pro_run cfg output_dir Hd) as (lines & _ & Hconvert).
  { intros _. apply (in_map fst) with (x := ("version"%string, version)).
    clear - Hv. induction cfg as [ | [k v] cfg IH]; [ discriminate | ].
    cbn [Idl.dict_get] in Hv. destruct (String.eqb_spec k "version") as [-> | _].
    - injection Hv as ->. now left.
    - right. now apply IH. }
  pose proof (keywords_block_run cfg _ _ _ _ Hi Ho Hp Hv) as Hkeywords.
  rewrite Hdiv in Hkeywords. cbn [Idl.ret] in Hkeywords.
  assert (Hwrapper : exists wrapper_text,
             Idl.write_run_FHD_calibration_pro path_join cfg output_dir
             = ([Idl.Written
                   (Idl.fstring [output_dir; "/run_fhd_calibration_only.pro"]%string)
                   wrapper_text], Idl.Ok tt) /\
             In (Idl.fstring ["    output_directory='"; output_dir; "'"; Idl.nl]%string)
                wrapper_text).
  { unfold Idl.write_run_FHD_calibration_pro, Idl.with_open.
    rewrite !idl_bind_emit, Hkeywords, !write_all_run, ?idl_bind_Ok, ?idl_bind_emit.
    cbn [fst snd app Idl.emit Idl.bind].
    eexists. split; [ reflexivity | ].
    right. right. right. right. left.
    unfold output_dir. now fstrings. }
  destruct Hwrapper as (wrapper_text & Hwrapper & Hline).
  exists (Idl.pro_header :: lines ++ Idl.pro_footer), wrapper_text.
  eexists. split; [ | split; [ exact Hline | ] ].
  - unfold Idl.run_IDL_calibration_only.
    rewrite (output_dir_of_run cfg _ _ Hp Hv), idl_bind_ret, idl_bind_emit.
    fold output_dir. rewrite Hconvert, idl_bind_Ok, Hwrapper, idl_bind_Ok.
    rewrite copy_templates_run, idl_bind_Ok, idl_bind_emit, launch_run, idl_bind_Ok.
    rewrite (idl_output_dir_of_run cfg _ _ Hp Hv), idl_bind_ret, idl_bind_emit.
    cbn [fst snd app map Idl.ret]. reflexivity.
  - right. apply in_or_app. right. cbn. tauto.
Qed.

(** X25: an [input_path] that is a [str] (line 114).  With [input_path]
    and [obs_id] both of type [str] the quotient of line 114 raises
    [TypeError]: [pyfhd_config.pro] has been written in full, the wrapper
    is opened and left with its first three lines, and nothing is copied,
    no directory is entered and IDL is not launched. *)
Theorem str_input_path_stops (cfg : Idl.dict) (input_path obs_id : string)
    (output_path version : Idl.value) :
  unique_keys cfg ->
  Idl.dict_get "input_path" cfg = Some (Idl.VStr input_path) ->
  Idl.dict_get "obs_id" cfg = Some (Idl.VStr obs_id) ->
  Idl.dict_get "output_path" cfg = Some output_path ->
  Idl.dict_get "version" cfg = Some version ->
  let output_dir := Idl.fstring [Idl.py_str output_path; "/"; Idl.py_str version]%string in
  exists config_text,
    Idl.run_IDL_calibration_only path_join shell cfg
    = ([Idl.Info "Writing IDL .pro files to run IDL FHD calibration only";
        Idl.Written (Idl.fstring [output_dir; "/pyfhd_config.pro"]%string) config_text;
        Idl.Written (Idl.fstring [output_dir; "/run_fhd_calibration_only.pro"]%string)
                    [Idl.fstring ["pro run_fhd_calibration_only"; Idl.nl]%string;
                     Idl.nl;
                     Idl.fstring ["    ; Keywords"; Idl.nl]%string]],
       Idl.Raise Idl.TypeError) /\
    In (Idl.fstring ["END"; Idl.nl]%string) config_text.
Proof.
  intros Hd Hi Ho Hp Hv output_dir.
  destruct (convert_argdict_to_pro_run cfg output_dir Hd) as (lines & _ & Hconvert).
  { intros _. apply (in_map fst) with (x := ("version"%string, version)).
    clear - Hv. induction cfg as [ | [k v] cfg IH]; [ discriminate | ].
    cbn [Idl.dict_get] in Hv. destruct (String.eqb_spec k "version") as [-> | _].
    - injection Hv as ->. now left.
    - right. now apply IH. }
  pose proof (keywords_block_run cfg _ _ _ _ Hi Ho Hp Hv) as Hkeywords.
  cbn [Idl.path_div Idl.raise] in Hkeywords.
  exists (Idl.pro_header :: lines ++ Idl.pro_footer). split.
  - unfold Idl.run_IDL_calibration_only.
    rewrite (output_dir_of_run cfg _ _ Hp Hv), idl_bind_ret, idl_bind_emit.
    fold output_dir. rewrite Hconvert, idl_bind_Ok.
    unfold Idl.write_run_FHD_calibration_pro, Idl.with_open.
    rewrite !idl_bind_emit, Hkeywords, idl_bind_Raise.
    cbn [fst snd app Idl.bind]. reflexivity.
  - right. apply in_or_app. right. cbn. tauto.
Qed.

End Launcher.

Lemma calibration_run_witness :
  exists events,
    Idl.run_IDL_calibration_only simple_join silent_shell example_config
    = (events, Idl.Ok "/out/v1/fhd_v1"%string) /\
    length events = 10%nat.
Proof.
  destruct (calibration_run simple_join silent_shell example_config
              (Idl.VPath "/data") (Idl.VStr "1061316296") (Idl.VPath "/out")
              (Idl.VStr "v1") (simple_join "/data" "1061316296"))
    as (config_text & wrapper_text & launching & Hrun & _);
    try reflexivity.
  - repeat constructor; cbn; intuition discriminate.
  - eexists. split; [ exact Hrun | reflexivity ].
Defined.

Lemma str_input_path_stops_witness :
  exists events,
    Idl.run_IDL_calibration_only simple_join silent_shell str_path_config
    = (events, Idl.Raise Idl.TypeError) /\
    length events = 3%nat.
Proof.
  destruct (str_input_path_stops simple_join silent_shell str_path_config
              "/data" "1061316296" (Idl.VStr "/out") (Idl.VStr "v1"))
    as (config_text & Hrun & _); try reflexivity.
  - repeat constructor; cbn; intuition discriminate.
  - eexists. split; [ exact Hrun | reflexivity ].
Defined.

(** ** The HEALPix imaging run *)

Section Imaging.

Variable path_join : string -> string -> string.
Variable shell : list string -> string.

Lemma version_key (cfg : Idl.dict) (version : Idl.value) :
  Idl.dict_get "version" cfg = Some version -> In "version"%string (map fst cfg).
Proof.
  intros Hv. destruct (in_dec string_dec "version"%string (map fst cfg)) as [Hin | Hout];
    [ exact Hin | ].
  apply dict_get_None_keys in Hout. congruence.
Qed.

(** Lines 242-273: the wrapper up to the file of the gridding kernel. *)
Lemma healpix_wrapper_run (cfg : Idl.dict) (output_dir : string)
    (input_path obs_id output_path version : Idl.value) (joined : string) :
  Idl.dict_get "input_path" cfg = Some input_path ->
  Idl.dict_get "obs_id" cfg = Some obs_id ->
  Idl.dict_get "output_path" cfg = Some output_path ->
  Idl.dict_get "version" cfg = Some version ->
  @Idl.path_div path_join string input_path obs_id = Idl.ret joined ->
  let opening :=
    [Idl.fstring ["pro run_fhd_healpix_imaging"; Idl.nl]%string;
     Idl.nl;
     Idl.fstring ["    ; Keywords"; Idl.nl]%string;
     Idl.fstring ["    vis_file_list="; Idl.dquote;
                  Idl.fstring [joined; ".uvfits"]%string; Idl.dquote; Idl.nl]%string;
     Idl.fstring ["    output_directory='"; Idl.py_str output_path; "/";
                  Idl.py_str version; "'"; Idl.nl]%string;
     Idl.fstring ["    version='"; Idl.py_str version; "'"; Idl.nl]%string;
     Idl.nl]
    ++ Idl.directory_setup
    ++ [Idl.fstring ["    ; Path to where the python-gridded hdf5 files live"; Idl.nl]%string;
        Idl.fstring ["    python_grid_path='"; Idl.py_str output_path; "/";
                     Idl.py_str version; "/gridding_outputs/'"; Idl.nl; Idl.nl]%string;
        Idl.fstring ["    ; Add in some extra healpix-ps related keywords"; Idl.nl]%string;
        Idl.fstring ["    model_flag=1"; Idl.nl]%string;
        Idl.fstring ["    restrict_hpx_inds='EoR0_high_healpix_inds_3x.idlsave'";
                     Idl.nl]%string] in
  Idl.write_run_FHD_healpix_imaging_pro path_join cfg output_dir
  = match Idl.dict_get "grid_psf_file_sav" cfg with
    | Some psf =>
        ([Idl.Written (Idl.fstring [output_dir; "/run_fhd_healpix_imaging.pro"]%string)
            (opening
             ++ [Idl.fstring ["    grid_psf_file='"; Idl.py_str psf; "'"; Idl.nl]%string]
             ++ Idl.bundle_and_print
             ++ [Idl.fstring ["    general_healpix_imaging,_Extra=extra"; Idl.nl]%string;
                 Idl.fstring ["end"; Idl.nl]%string])],
         Idl.Ok tt)
    | None =>
        ([Idl.Written (Idl.fstring [output_dir; "/run_fhd_healpix_imaging.pro"]%string)
            opening],
         Idl.Raise (Idl.KeyError "grid_psf_file_sav"))
    end.
Proof.
  intros Hi Ho Hp Hv Hdiv opening.
  pose proof (keywords_block_run path_join cfg _ _ _ _ Hi Ho Hp Hv) as Hkeywords.
  rewrite Hdiv in Hkeywords. cbn [Idl.ret] in Hkeywords.
  unfold Idl.write_run_FHD_healpix_imaging_pro, Idl.with_open.
  rewrite !idl_bind_emit, Hkeywords, !write_all_run, ?idl_bind_Ok.
  rewrite (idl_lookup_Some _ _ _ Hp), idl_bind_ret, (idl_lookup_Some _ _ _ Hv), idl_bind_ret.
  rewrite ?idl_bind_emit.
  destruct (Idl.dict_get "grid_psf_file_sav" cfg) as [psf | ] eqn:Hpsf.
  - rewrite (idl_lookup_Some _ _ _ Hpsf), idl_bind_ret, ?idl_bind_emit, ?idl_bind_Ok.
    cbn [fst snd app Idl.emit Idl.bind]. reflexivity.
  - rewrite (idl_lookup_None _ _ Hpsf), ?idl_bind_raise.
    cbn [fst snd app Idl.emit Idl.bind Idl.raise]. reflexivity.
Qed.

(** Finds a line in a text given as a chain of appends. *)
Ltac find_line :=
  match goal with
  | |- In _ (_ :: _) => (left; solve [ fstrings; reflexivity ]) || (right; find_line)
  | |- In _ (_ ++ _) => apply in_or_app; ((left; find_line) || (right; find_line))
  end.

(** X26: a run of [run_IDL_convert_gridding_to_healpix_images] (lines
    301-363).  For a dictionary without repeated keys that holds
    [output_path], [version], [input_path], [obs_id] and
    [grid_psf_file_sav], the quotient of line 250 being defined: the two
    [.pro] files are written into [output_path/version], four templates
    are copied there and the directory is entered before IDL is launched,
    once; the wrapper points [python_grid_path] at [gridding_outputs/]
    inside that directory and [grid_psf_file] at the configured file; and
    the function returns nothing, the output path it computes being
    dropped. *)
Theorem healpix_run (cfg : Idl.dict)
    (input_path obs_id output_path version psf : Idl.value) (joined : string) :
  unique_keys cfg ->
  Idl.dict_get "input_path" cfg = Some input_path ->
  Idl.dict_get "obs_id" cfg = Some obs_id ->
  Idl.dict_get "output_path" cfg = Some output_path ->
  Idl.dict_get "version" cfg = Some version ->
  Idl.dict_get "grid_psf_file_sav" cfg = Some psf ->
  @Idl.path_div path_join string input_path obs_id = Idl.ret joined ->
  let output_dir := Idl.fstring [Idl.py_str output_path; "/"; Idl.py_str version]%string in
  let args := ["idl"; "-IDL_DEVICE"; "ps"; "-e"; "run_fhd_healpix_imaging"]%string in
  exists config_text wrapper_text launching,
    Idl.run_IDL_convert_gridding_to_healpix_images path_join shell cfg
    = ([Idl.Info "Writing IDL .pro files to run IDL FHD calibration only";
        Idl.Written (Idl.fstring [output_dir; "/pyfhd_config.pro"]%string) config_text;
        Idl.Written (Idl.fstring [output_dir; "/run_fhd_healpix_imaging.pro"]%string)
                    wrapper_text;
        Idl.Copied "fhd_healpix_imaging.pro" output_dir;
        Idl.Copied "general_healpix_imaging.pro" output_dir;
        Idl.Copied "healpix_snapshot_cube_generate_read_python.pro" output_dir;
        Idl.Copied "vis_model_freq_split_read_python.pro" output_dir;
        Idl.Chdir output_dir;
        Idl.Info launching;
        Idl.Launched args;
        Idl.Info (Idl.fstring ["Here is everything IDL FHD printed:"; Idl.nl;
                               Idl.indent (shell args)]%string);
        Idl.Elapsed "Running IDL FHD imaging/healpix projection"],
       Idl.Ok tt) /\
    In (Idl.fstring ["    python_grid_path='"; output_dir; "/gridding_outputs/'";
                     Idl.nl; Idl.nl]%string) wrapper_text /\
    In (Idl.fstring ["    grid_psf_file='"; Idl.py_str psf; "'"; Idl.nl]%string) wrapper_text.
Proof.
  intros Hd Hi Ho Hp Hv Hpsf Hdiv output_dir args.
  destruct (convert_argdict_to_pro_run cfg output_dir Hd) as (lines & _ & Hconvert);
    [ intros _; exact (version_key cfg version Hv) | ].
  pose proof (healpix_wrapper_run cfg output_dir _ _ _ _ joined Hi Ho Hp Hv Hdiv) as Hwrapper.
  cbn zeta in Hwrapper. rewrite Hpsf in Hwrapper.
  exists (Idl.pro_header :: lines ++ Idl.pro_footer). eexists. eexists.
  split; [ | split ].
  - unfold Idl.run_IDL_convert_gridding_to_healpix_images.
    rewrite (output_dir_of_run cfg _ _ Hp Hv), idl_bind_ret, idl_bind_emit.
    fold output_dir. rewrite Hconvert, idl_bind_Ok, Hwrapper, idl_bind_Ok.
    rewrite copy_templates_run, idl_bind_Ok, idl_bind_emit, launch_run, idl_bind_Ok.
    rewrite (idl_output_dir_of_run cfg _ _ Hp Hv), idl_bind_ret, idl_bind_emit.
    cbn [fst snd app map Idl.ret]. reflexivity.
  - unfold output_dir. find_line.
  - find_line.
Qed.

(** X27: the imaging run without [grid_psf_file_sav] (line 273).  The key
    is read after most of the wrapper has been written: [KeyError] is
    raised, [pyfhd_config.pro] is complete, the wrapper is left without
    its closing [end], and nothing is copied or launched. *)
Theorem healpix_needs_psf_file (cfg : Idl.dict)
    (input_path obs_id output_path version : Idl.value) (joined : string) :
  unique_keys cfg ->
  Idl.dict_get "input_path" cfg = Some input_path ->
  Idl.dict_get "obs_id" cfg = Some obs_id ->
  Idl.dict_get "output_path" cfg = Some output_path ->
  Idl.dict_get "version" cfg = Some version ->
  Idl.dict_get "grid_psf_file_sav" cfg = None ->
  @Idl.path_div path_join string input_path obs_id = Idl.ret joined ->
  let output_dir := Idl.fstring [Idl.py_str output_path; "/"; Idl.py_str version]%string in
  exists config_text wrapper_text,
    Idl.run_IDL_convert_gridding_to_healpix_images path_join shell cfg
    = ([Idl.Info "Writing IDL .pro files to run IDL FHD calibration only";
        Idl.Written (Idl.fstring [output_dir; "/pyfhd_config.pro"]%string) config_text;
        Idl.Written (Idl.fstring [output_dir; "/run_fhd_healpix_imaging.pro"]%string)
                    wrapper_text],
       Idl.Raise (Idl.KeyError "grid_psf_file_sav")) /\
    In (Idl.fstring ["END"; Idl.nl]%string) config_text /\
    length wrapper_text = 16%nat /\
    ~ In (Idl.fstring ["end"; Idl.nl]%string) wrapper_text.
Proof.
  intros Hd Hi Ho Hp Hv Hpsf Hdiv output_dir.
  destruct (convert_argdict_to_pro_run cfg output_dir Hd) as (lines & _ & Hconvert);
    [ intros _; exact (version_key cfg version Hv) | ].
  pose proof (healpix_wrapper_run cfg output_dir _ _ _ _ joined Hi Ho Hp Hv Hdiv) as Hwrapper.
  cbn zeta in Hwrapper. rewrite Hpsf in Hwrapper.
  exists (Idl.pro_header :: lines ++ Idl.pro_footer). eexists.
  split; [ | split; [ | split ] ].
  - unfold Idl.run_IDL_convert_gridding_to_healpix_images.
    rewrite (output_dir_of_run cfg _ _ Hp Hv), idl_bind_ret, idl_bind_emit.
    fold output_dir. rewrite Hconvert, idl_bind_Ok, Hwrapper, idl_bind_Raise.
    cbn [fst snd app]. reflexivity.
  - right. apply in_or_app. right. cbn. tauto.
  - reflexivity.
  - cbn [app Idl.directory_setup In]. fstrings.
    intros H. repeat (destruct H as [H | H]; [ discriminate H | ]). exact H.
Qed.

End Imaging.

Lemma healpix_run_witness :
  exists events,
    Idl.run_IDL_convert_gridding_to_healpix_images simple_join silent_shell imaging_config
    = (events, Idl.Ok tt) /\
    length events = 12%nat.
Proof.
  destruct (healpix_run simple_join silent_shell imaging_config
              (Idl.VPath "/data") (Idl.VStr "1061316296") (Idl.VPath "/out")
              (Idl.VStr "v1") (Idl.VPath "/data/psf.sav")
              (simple_join "/data" "1061316296"))
    as (config_text & wrapper_text & launching & Hrun & _);
    try reflexivity.
  - repeat constructor; cbn; intuition discriminate.
  - eexists. split; [ exact Hrun | reflexivity ].
Defined.

Lemma healpix_needs_psf_file_witness :
  exists events,
    Idl.run_IDL_convert_gridding_to_healpix_images simple_join silent_shell example_config
    = (events, Idl.Raise (Idl.KeyError "grid_psf_file_sav")) /\
    length events = 3%nat.
Proof.
  destruct (healpix_needs_psf_file simple_join silent_shell example_config
              (Idl.VPath "/data") (Idl.VStr "1061316296") (Idl.VPath "/out")
              (Idl.VStr "v1") (simple_join "/data" "1061316296"))
    as (config_text & wrapper_text & Hrun & _);
    try reflexivity.
  - repeat constructor; cbn; intuition discriminate.
  - eexists. split; [ exact Hrun | reflexivity ].
Defined.

(* ================================================================== *)
(** * Further properties of the frequency fields *)
(* ================================================================== *)

Lemma insert_sorted_perm (x : R) (l : list R) : Permutation (x :: l) (insert_sorted x l).
Proof.
  induction l as [ | y l IH]; cbn [insert_sorted]; [ reflexivity | ].
  destruct (Rleb x y); [ reflexivity | ].
  rewrite perm_swap. now apply perm_skip.
Qed.

Lemma sort_R_perm (l : list R) : Permutation l (sort_R l).
Proof.
  unfold sort_R. induction l as [ | x l IH]; cbn [fold_right]; [ reflexivity | ].
  rewrite <- insert_sorted_perm. now apply perm_skip.
Qed.

(** The median lies between any bounds of the array. *)
Lemma np_median_bounds (l : list R) (lo hi : R) :
  l <> [] ->
  (forall x, In x l -> lo <= x <= hi) ->
  lo <= np_median l <= hi.
Proof.
  intros Hne Hb. unfold np_median.
  pose proof (sort_R_perm l) as Hperm.
  assert (Hlen : length (sort_R l) = length l)
    by (symmetry; now apply Permutation_length).
  assert (Hpos : (0 < length (sort_R l))%nat).
  { rewrite Hlen. destruct l; [ easy | cbn; lia ]. }
  assert (Hnth : forall i, (i < length (sort_R l))%nat -> lo <= nth i (sort_R l) 0 <= hi).
  { intros i Hi. apply Hb. apply (Permutation_in _ (Permutation_sym Hperm)).
    now apply nth_In. }
  set (n := length (sort_R l)) in *.
  assert (Hhalf : (n / 2 < n)%nat) by (apply Nat.div_lt; lia).
  destruct (Nat.even n).
  - pose proof (Hnth (n / 2 - 1)%nat ltac:(lia)) as H1.
    pose proof (Hnth (n / 2)%nat Hhalf) as H2. lra.
  - now apply Hnth.
Qed.

Lemma freq_bins_inv (hdr : Header.t) (cfg : Config.t) lg beam fbin_i center :
  freq_bins hdr cfg = (lg, Ok (beam, fbin_i, center)) ->
  beam = match Config.beam_nfreq_avg cfg with Some b => b | None => 1%Z end /\
  center = np_median (Header.frequency_array hdr) /\
  Header.frequency_array hdr <> [].
Proof.
  unfold freq_bins, histogram; intros H.
  bind_inv H as [[freq_hist locations] freq_ri] Hhist.
  bind_inv H as zeros Hzeros. bind_inv H as filled Hfill.
  apply ret_inv in H as [_ Heq]. injection Heq as <- _ <-.
  split; [ reflexivity | split; [ reflexivity | ] ].
  intros Hempty. rewrite Hempty in Hhist. discriminate.
Qed.

Lemma obs_before_metafits_freq (hdr : Header.t) (params : Params.t) (cfg : Config.t)
    lg obs baseline_info params' :
  obs_before_metafits hdr params cfg = (lg, Ok (obs, baseline_info, params')) ->
  exists l fbin_i,
    freq_bins hdr cfg = (l, Ok (Obs.beam_nfreq_avg obs, fbin_i, Obs.freq_center obs)) /\
    Obs.freq_res obs = Header.freq_res hdr /\
    Obs.n_pol obs = Header.n_pol hdr /\
    Obs.instrument obs = Config.instrument cfg.
Proof.
  unfold obs_before_metafits; intros H.
  bind_inv H as [[n_time bin_width] bin_offset] Htime.
  bind_inv H as n_vis_arr Hvis.
  bind_inv H as [[beam fbin_i] freq_center] Hfreq.
  bind_inv H as t Htiles.
  bind_inv H as [[[kx ky] kr] max_baseline] Hext.
  bind_inv H as kbinsize Hk.
  bind_inv H as [dimension elements] Hdim.
  bind_inv H as degpix Hdeg.
  bind_inv H as [longest shortest] Hlim.
  apply ret_inv in H as [_ Heq]. injection Heq as <- <- <-.
  do 2 eexists. cbn. split; [ eassumption | repeat split ].
Qed.

Section FrequencyFields.

Context {astronomy : Astronomy}.

(** X28: the frequency fields of a returned [obs] (lines 59-72).
    [freq_res] is that of the header; [beam_nfreq_avg] is the configured
    value, or 1 when none is configured; the frequency array is not
    empty, and [freq_center], its median, lies between its smallest and
    its largest entry. *)
Theorem returned_frequency_fields (hdr : Header.t) (params : Params.t)
    (cfg : Config.t) (fs : filesystem) lg obs :
  create_obs hdr params cfg fs = (lg, Ok obs) ->
  Obs.freq_res obs = Header.freq_res hdr /\
  Obs.beam_nfreq_avg obs
  = match Config.beam_nfreq_avg cfg with Some b => b | None => 1%Z end /\
  Obs.freq_center obs = np_median (Header.frequency_array hdr) /\
  exists lo hi,
    is_minimum lo (Header.frequency_array hdr) /\
    is_maximum hi (Header.frequency_array hdr) /\
    lo <= Obs.freq_center obs <= hi.
Proof.
  intros H.
  apply create_obs_inv in H as (l & bi & p & l' & meta & Hbefore & _ & _).
  apply obs_before_metafits_freq in Hbefore as (lf & fbin_i & Hfreq & Hres & _).
  apply freq_bins_inv in Hfreq as (Hbeam & Hcenter & Hne).
  split; [ exact Hres | split; [ exact Hbeam | split; [ exact Hcenter | ] ] ].
  destruct (Header.frequency_array hdr) as [ | f freq] eqn:Hf; [ contradiction | ].
  pose proof (fold_left_Rmin_is_minimum freq f) as Hmin.
  pose proof (fold_left_Rmax_is_maximum freq f) as Hmax.
  exists (fold_left Rmin freq f), (fold_left Rmax freq f).
  split; [ exact Hmin | split; [ exact Hmax | ] ].
  rewrite Hcenter. apply np_median_bounds; [ easy | ].
  intros x Hx. split; [ now apply Hmin | now apply Hmax ].
Qed.

End FrequencyFields.

Lemma returned_frequency_fields_witness :
  exists lg obs,
    @create_obs example_astronomy small_header two_baselines full_config no_files
      = (lg, Ok obs) /\
    Obs.beam_nfreq_avg obs = 1%Z /\
    Obs.freq_center obs = np_median (Header.frequency_array small_header).
Proof.
  destruct example_run_without_file as (lg & obs & Hrun).
  destruct (@returned_frequency_fields example_astronomy _ _ _ _ _ _ Hrun)
    as (_ & Hbeam & Hcenter & _).
  exists lg, obs. split; [ exact Hrun | split; [ exact Hbeam | exact Hcenter ] ].
Defined.

(* ================================================================== *)
(** * Further properties of the delays and of the log *)
(* ================================================================== *)

(** ** [str.split] *)

Lemma split_on_join (c : Ascii.ascii) (s : string) :
  String.concat (String c EmptyString) (split_on c s) = s.
Proof.
  induction s as [ | a s IH]; [ reflexivity | ].
  cbn [split_on]. pose proof (split_on_nonempty c s) as Hne.
  destruct (Ascii.eqb_spec a c) as [-> | Hac].
  - destruct (split_on c s) as [ | w ws]; [ contradiction | ].
    cbn [String.concat String.append]. now rewrite <- IH.
  - destruct (split_on c s) as [ | w ws]; [ contradiction | ].
    rewrite <- IH. destruct ws as [ | w' ws]; reflexivity.
Qed.

Lemma split_on_clean (c : Ascii.ascii) (s : string) :
  Forall (fun piece => Idl.contains c piece = false) (split_on c s).
Proof.
  induction s as [ | a s IH]; cbn [split_on]; [ repeat constructor | ].
  destruct (Ascii.eqb a c) eqn:Hac; [ now constructor | ].
  destruct (split_on c s) as [ | w ws]; [ repeat constructor; cbn; now rewrite Hac | ].
  inversion IH as [ | ? ? Hw Hws]; subst.
  constructor; [ cbn [Idl.contains]; now rewrite Hac, Hw | exact Hws ].
Qed.

Section Delays.

Context {astronomy : Astronomy}.

(** X29: the delays of the METAFITS header (line 198).  With a METAFITS
    file, [meta['delays']] is a list of pieces, none of which holds a
    comma, that give back the card [DELAYS] when they are joined by
    commas. *)
Theorem delays_round_trip (obs : Obs.t) (hdr : Header.t) (params : Params.t)
    (cfg : Config.t) (fs : filesystem) (metadata : Metafits.file) lg meta :
  metafits_of cfg fs = Some metadata ->
  read_metafits obs hdr params cfg fs = (lg, Ok meta) ->
  exists pieces,
    Meta.delays meta = Some pieces /\
    String.concat "," pieces = Metafits.DELAYS metadata /\
    Forall (fun piece => Idl.contains ","%char piece = false) pieces /\
    pieces <> [].
Proof.
  intros Hfile H.
  assert (Hdelays : exists tm,
             metafits_branch hdr cfg metadata = (lg, Ok tm) /\
             Meta.delays meta = tm_delays tm).
  { revert H. unfold read_metafits. rewrite Hfile. intros H.
    bind_inv H as jdate Hj. bind_inv H as JD0 Hmin. bind_inv H as tm Htm.
    destruct (altaz_to_radec _ _ _ _ _ _) as [zenra zendec].
    destruct (project_slant_orthographic _ _ _) as [[astr zenx] zeny].
    destruct (radec_to_altaz _ _ _ _ _ _) as [obsalt obsaz].
    apply ret_inv in H as [-> <-].
    pose proof (np_take_logs (Params.time params)
                  (map Z.to_nat (idl_argunique (Params.time params)))) as Hl.
    rewrite Hj in Hl. cbn [fst] in Hl.
    pose proof (np_min_R_logs jdate) as Hl'. rewrite Hmin in Hl'. cbn [fst] in Hl'.
    subst. rewrite app_nil_r in *. cbn [app] in *.
    exists tm. split; [ exact Htm | reflexivity ]. }
  destruct Hdelays as (tm & Hbranch & Hd).
  unfold metafits_branch in Hbranch.
  destruct (sort_by_antenna (Metafits.data metadata)) as [ | first rest];
    [ discriminate | ].
  rewrite !np_take_where, !bind_ret in Hbranch.
  bind_inv Hbranch as u Hu. apply ret_inv in Hbranch as [_ <-].
  exists (split_on ","%char (Metafits.DELAYS metadata)).
  split; [ exact Hd | ].
  split; [ apply split_on_join | ].
  split; [ apply split_on_clean | apply split_on_nonempty ].
Qed.

End Delays.

Lemma delays_round_trip_witness :
  exists lg meta pieces,
    @read_metafits example_astronomy small_obs small_header two_baselines
      full_config metafits_files = (lg, Ok meta) /\
    Meta.delays meta = Some pieces /\
    String.concat "," pieces = "0,0,0,0"%string.
Proof.
  destruct (metafits_branch_run small_header full_config example_metafits
              ltac:(discriminate)) as (names & heights & Hrun).
  rewrite check_tile_flags_cases in Hrun.
  replace (_ =? _)%Z with false in Hrun by reflexivity.
  rewrite bind_Ok in Hrun. cbn [ret fst snd app] in Hrun.
  destruct (@read_metafits_returns example_astronomy small_obs small_header two_baselines
              full_config metafits_files _ _ ltac:(discriminate) Hrun)
    as (meta & Hmeta & _).
  destruct (@delays_round_trip example_astronomy _ _ _ _ _ example_metafits _ _
              eq_refl Hmeta) as (pieces & Hd & Hjoin & _).
  exists [], meta, pieces. split; [ exact Hmeta | split; [ exact Hd | exact Hjoin ] ].
Defined.

(** ** The records of a run that returns *)

Lemma silent_bind {A B} (m : M A) (k : A -> M B) :
  fst m = [] -> (forall a, fst (k a) = []) -> fst (bind m k) = [].
Proof.
  intros Hm Hk. destruct m as [l [a | e]]; cbn [fst] in Hm; subst l; cbn.
  - apply Hk.
  - reflexivity.
Qed.

Lemma np_max_R_logs (l : list R) : fst (np_max_R l) = [].
Proof. now destruct l. Qed.

Lemma np_max_logs (a : ndarray) : fst (np_max a) = [].
Proof.
  destruct a as [[ | x l] | l]; try reflexivity.
  cbn [np_max]. apply silent_bind; [ apply np_max_R_logs | reflexivity ].
Qed.

Lemma np_put_logs {A} (a : list A) (idx : list nat) (vals : list A) :
  fst (np_put a idx vals) = [].
Proof.
  revert a vals; induction idx as [ | i idx IH]; intros a vals; destruct vals as [ | v vals];
    cbn [np_put]; try reflexivity.
  destruct (i <? length a)%nat; [ apply IH | reflexivity ].
Qed.

(** Steps of [create_obs] that never log. *)
Ltac silent :=
  repeat first
    [ reflexivity
    | apply np_take_logs | apply np_min_R_logs | apply np_max_R_logs
    | apply np_max_logs | apply np_zeros_logs | apply np_fill_logs
    | apply np_put_logs | apply take_2d_logs
    | apply silent_bind; [ | intros ]
    | match goal with
      | |- fst (if ?b then _ else _) = [] => destruct b
      | |- fst (match ?x with _ => _ end) = [] => destruct x
      end ].

Lemma time_bins_logs (time : list R) : fst (time_bins time) = [].
Proof. unfold time_bins. silent. Qed.

Lemma fbin_loop_logs (freq_ri bins : list nat) (freq_bin_i : list R) :
  fst (fbin_loop freq_ri bins freq_bin_i) = [].
Proof.
  revert freq_bin_i; induction bins as [ | bin bins IH]; intros freq_bin_i;
    cbn [fbin_loop]; [ reflexivity | ].
  destruct (nth_error freq_ri bin); [ | reflexivity ].
  destruct (nth_error freq_ri (S bin)); [ | reflexivity ].
  destruct (_ <? _)%nat; [ | apply IH ].
  apply silent_bind; [ apply np_fill_logs | intros; apply IH ].
Qed.

Lemma histogram_logs (data : list R) (bin_size : R) (mn mx : option R) :
  fst (histogram data bin_size mn mx) = [].
Proof. unfold histogram. silent. Qed.

Lemma freq_bins_logs (hdr : Header.t) (cfg : Config.t) : fst (freq_bins hdr cfg) = [].
Proof.
  unfold freq_bins. apply silent_bind; [ apply histogram_logs | intros [[h loc] ri] ].
  apply silent_bind; [ apply np_zeros_logs | intros ].
  apply silent_bind; [ apply fbin_loop_logs | intros; reflexivity ].
Qed.

Lemma baseline_extent_logs (freq uu vv : list R) : fst (baseline_extent freq uu vv) = [].
Proof. unfold baseline_extent, bcast2. silent. Qed.

Lemma imaging_kbinsize_logs (cfg : Config.t) : fst (imaging_kbinsize cfg) = [].
Proof. unfold imaging_kbinsize, py_div. silent. Qed.

Lemma imaging_dimension_logs (cfg : Config.t) (max_baseline : R) :
  fst (imaging_dimension cfg max_baseline) = [].
Proof.
  unfold imaging_dimension, derived_dimension, py_int_value.
  apply silent_bind; [ silent | intros [d e] ]. silent.
Qed.

Lemma imaging_degpix_logs (cfg : Config.t) : fst (imaging_degpix cfg) = [].
Proof. unfold imaging_degpix, py_div. silent. Qed.

Lemma baseline_limits_logs (cfg : Config.t) (uu vv : list R)
    (kx ky kr : list (list R)) (k : R) (d e : Z) :
  fst (baseline_limits cfg uu vv kx ky kr k d e) = [].
Proof. unfold baseline_limits, bcast2. silent. Qed.

Lemma has_antenna_columns_logs (params : Params.t) : fst (has_antenna_columns params) = [].
Proof. unfold has_antenna_columns. silent. Qed.

(** The one record lines 74-96 may log. *)
Lemma resolve_tiles_logs (hdr : Header.t) (params : Params.t) lg t :
  resolve_tiles hdr params = (lg, Ok t) ->
  lg = [] \/
  exists data, lg = [LogRecord WARNING (MismatchedTiles (PyInt (Header.n_tile hdr)) data)].
Proof.
  unfold resolve_tiles. intros H.
  apply bind_silent_inv in H as (explicit & _ & H); [ | apply has_antenna_columns_logs ].
  destruct explicit.
  - apply bind_silent_inv in H as (max_A & _ & H); [ | apply np_max_logs ].
    apply bind_silent_inv in H as (max_B & _ & H); [ | apply np_max_logs ].
    apply ret_inv in H as [-> _]. now left.
  - unfold decode_baselines in H.
    apply bind_silent_inv in H as (baseline_min & _ & H); [ | apply np_min_R_logs ].
    destruct (Rleb baseline_min 0); [ discriminate | ].
    apply bind_silent_inv in H as (max_A & _ & H); [ | apply np_max_logs ].
    apply bind_silent_inv in H as (max_B & _ & H); [ | apply np_max_logs ].
    destruct (negb _).
    + right. unfold warning in H. rewrite bind_Ok in H. cbn [ret fst snd app] in H.
      rewrite bind_Ok in H. cbn [ret fst snd app] in H.
      injection H as <- _. now eexists.
    + left. rewrite bind_ret in H. now apply ret_inv in H as [-> _].
Qed.

Lemma obs_before_metafits_logs (hdr : Header.t) (params : Params.t) (cfg : Config.t)
    lg r :
  obs_before_metafits hdr params cfg = (lg, Ok r) ->
  exists t, resolve_tiles hdr params = (lg, Ok t).
Proof.
  unfold obs_before_metafits; intros H.
  apply bind_silent_inv in H as ([[n_time bin_width] bin_offset] & _ & H);
    [ | apply time_bins_logs ].
  apply bind_silent_inv in H as (n_vis_arr & _ & H); [ | apply np_zeros_logs ].
  apply bind_silent_inv in H as ([[beam fbin_i] freq_center] & _ & H);
    [ | apply freq_bins_logs ].
  bind_inv H as t Htiles. exists t.
  apply bind_silent_inv in H as ([[[kx ky] kr] max_baseline] & _ & H);
    [ | apply baseline_extent_logs ].
  apply bind_silent_inv in H as (kbinsize & _ & H); [ | apply imaging_kbinsize_logs ].
  apply bind_silent_inv in H as ([dimension elements] & _ & H);
    [ | apply imaging_dimension_logs ].
  apply bind_silent_inv in H as (degpix & _ & H); [ | apply imaging_degpix_logs ].
  apply bind_silent_inv in H as ([longest shortest] & _ & H);
    [ | apply baseline_limits_logs ].
  apply ret_inv in H as [-> _]. rewrite app_nil_r in Elog. now subst.
Qed.

Section ReturnedLog.

Context {astronomy : Astronomy}.

(** X30: what a run of [create_obs] that returns has logged.  At most two
    records, all of them warnings: first the mismatch of the tile counts,
    if the packed branch found one, then either the warning of the missing
    METAFITS file or, with a file, the warning that all tiles are flagged,
    if that is the case.  A run that logs an error does not return. *)
Theorem returned_log (hdr : Header.t) (params : Params.t)
    (cfg : Config.t) (fs : filesystem) lg obs :
  create_obs hdr params cfg fs = (lg, Ok obs) ->
  exists tiles_log meta_log,
    lg = tiles_log ++ meta_log /\
    (tiles_log = [] \/
     exists data,
       tiles_log = [LogRecord WARNING (MismatchedTiles (PyInt (Header.n_tile hdr)) data)]) /\
    match metafits_of cfg fs with
    | None => meta_log = [LogRecord WARNING no_metafits_message]
    | Some _ => meta_log = [] \/ meta_log = [LogRecord WARNING all_flagged_message]
    end /\
    Forall (fun r => lvl r = WARNING) lg /\
    (length lg <= 2)%nat.
Proof.
  intros H.
  apply create_obs_inv in H as (l & bi & p & l' & meta & Hbefore & Hmeta & ->).
  apply obs_before_metafits_logs in Hbefore as (t & Htiles).
  apply resolve_tiles_logs in Htiles.
  apply read_metafits_inv in Hmeta as (jdate & JD0 & tm & _ & _ & Hbranch & _).
  assert (Hmeta_log : match metafits_of cfg fs with
                      | None => l' = [LogRecord WARNING no_metafits_message]
                      | Some _ => l' = [] \/ l' = [LogRecord WARNING all_flagged_message]
                      end).
  { destruct (metafits_of cfg fs) as [metadata | ].
    - unfold metafits_branch in Hbranch.
      destruct (sort_by_antenna (Metafits.data metadata)) as [ | first rest];
        [ discriminate | ].
      rewrite !np_take_where, !bind_ret in Hbranch.
      bind_inv Hbranch as u Hu. apply ret_inv in Hbranch as [-> _].
      rewrite app_nil_r in Elog. subst.
      exact (check_tile_flags_Ok _ _ _ _ Hu).
    - now apply header_branch_record in Hbranch as [-> _]. }
  exists l, l'. split; [ reflexivity | split; [ exact Htiles | split; [ exact Hmeta_log | ] ] ].
  assert (Hl' : Forall (fun r => lvl r = WARNING) l' /\ (length l' <= 1)%nat).
  { destruct (metafits_of cfg fs); [ destruct Hmeta_log as [-> | ->] | subst l' ];
      split; repeat constructor. }
  assert (Hl : Forall (fun r => lvl r = WARNING) l /\ (length l <= 1)%nat).
  { destruct Htiles as [-> | (data & ->)]; split; repeat constructor. }
  split; [ apply Forall_app; split; tauto | rewrite length_app; lia ].
Qed.

End ReturnedLog.

Lemma returned_log_witness :
  exists lg obs,
    @create_obs example_astronomy small_header two_baselines full_config no_files
      = (lg, Ok obs) /\
    Forall (fun r => lvl r = WARNING) lg /\
    (length lg <= 2)%nat.
Proof.
  destruct example_run_without_file as (lg & obs & Hrun).
  destruct (@returned_log example_astronomy _ _ _ _ _ _ Hrun)
    as (tiles_log & meta_log & _ & _ & _ & Hwarn & Hlen).
  exists lg, obs. split; [ exact Hrun | split; [ exact Hwarn | exact Hlen ] ].
Defined.
